(** * Server/server.py: the interview-video processing pipeline

    A shallow embedding of [allowed_file], [convert_webm_to_mp4] and
    [process_video_complete], and the properties of the pipeline
    that the design document states about them.

    The program is effectful: it writes and deletes files, spawns an
    encoder, and calls collaborators that live in other modules
    (audio.py, video.py, gemini.py).  The embedding threads a world
    through a small state-and-exception monad:

    - the file system is a finite map from paths to sizes in bytes;
      a path is the string the program passes to the operating
      system, two strings are two files;
    - the call history lists, in order, the calls that leave the
      handler (saving the upload, the converter, the encoder, the
      collaborators, deletions);
    - an exception carries its class, as far as the [except] clauses
      tell classes apart, and the text [str(e)] gives.

    Collaborators and library functions ([secure_filename],
    [json.loads], [bytes.decode], [os.path.abspath], [str] of a dict,
    the Unicode case mappings, the names [tempfile] draws, the refusal
    of the operating system to delete a file) are fields of an
    environment record.  A collaborator is a function of the arguments
    it is passed; the encoder and the audio extractor also say what
    they do to their output path, and no collaborator touches another
    path.  Printing is left out, but for the exception that building
    the printed text can raise (line 83); [file.save] always
    succeeds. *)

From Stdlib Require Import ZArith Lia Ascii.
From stdpp Require Import base option list gmap strings pretty.

Local Open Scope Z_scope.

(** ** Python string operations used by the server

    A Python string is carried as its UTF-8 bytes.  Searching for an
    ASCII character, splitting at it and slicing between two of them
    give the same text on the bytes as on the code points.  The case
    conversions of this module are the ones of ASCII text; on other
    text Python applies the Unicode case mappings, which are functions
    of the environment (see [str_lower] and [str_title] below). *)
Module PyStr.

Definition is_lower (c : ascii) : bool :=
  let n := nat_of_ascii c in (97 <=? n)%nat && (n <=? 122)%nat.

Definition is_upper (c : ascii) : bool :=
  let n := nat_of_ascii c in (65 <=? n)%nat && (n <=? 90)%nat.

Definition to_lower (c : ascii) : ascii :=
  if is_upper c then ascii_of_nat (nat_of_ascii c + 32) else c.

Definition to_upper (c : ascii) : ascii :=
  if is_lower c then ascii_of_nat (nat_of_ascii c - 32) else c.

(** Every character of [s] is an ASCII character. *)
Fixpoint is_ascii (s : string) : bool :=
  match s with
  | EmptyString => true
  | String c s' => (nat_of_ascii c <? 128)%nat && is_ascii s'
  end.

(** [s.lower()] for ASCII [s] *)
Fixpoint lower (s : string) : string :=
  match s with
  | EmptyString => EmptyString
  | String c s' => String (to_lower c) (lower s')
  end.

(** [c in s] for a one-character [c] *)
Fixpoint contains (c : ascii) (s : string) : bool :=
  match s with
  | EmptyString => false
  | String a s' => Ascii.eqb a c || contains c s'
  end.

(** [s.rsplit(c, 1)[1]] when [c] occurs in [s]: what follows the last
    occurrence of [c].  The accumulator is the candidate so far. *)
Fixpoint after_last_from (c : ascii) (s acc : string) : string :=
  match s with
  | EmptyString => acc
  | String a s' =>
      if Ascii.eqb a c then after_last_from c s' s'
      else after_last_from c s' acc
  end.

Definition after_last (c : ascii) (s : string) : string :=
  after_last_from c s s.

(** [s.endswith(suffix)] *)
Definition endswith (s suffix : string) : bool :=
  let n := String.length s in
  let k := String.length suffix in
  (k <=? n)%nat && String.eqb (String.substring (n - k) k s) suffix.

(** [s.replace(a, b)] for one-character [a] and [b] *)
Fixpoint replace (a b : ascii) (s : string) : string :=
  match s with
  | EmptyString => EmptyString
  | String c s' => String (if Ascii.eqb c a then b else c) (replace a b s')
  end.

(** [s.title()] for ASCII [s]: a cased character is upper-cased when
    it follows an uncased one (or starts the string) and lower-cased
    otherwise. *)
Fixpoint title_from (prev_cased : bool) (s : string) : string :=
  match s with
  | EmptyString => EmptyString
  | String c s' =>
      if is_lower c then
        String (if prev_cased then c else to_upper c) (title_from true s')
      else if is_upper c then
        String (if prev_cased then to_lower c else c) (title_from true s')
      else String c (title_from false s')
  end.

Definition title (s : string) : string := title_from false s.

(** [s.find(c)] for a one-character [c]: the least index, or [-1]. *)
Fixpoint find_from (c : ascii) (s : string) (i : Z) : Z :=
  match s with
  | EmptyString => -1
  | String a s' => if Ascii.eqb a c then i else find_from c s' (i + 1)
  end.

Definition find (c : ascii) (s : string) : Z := find_from c s 0.

(** [s.rfind(c)] for a one-character [c]: the greatest index, or [-1]. *)
Fixpoint rfind_from (c : ascii) (s : string) (i last : Z) : Z :=
  match s with
  | EmptyString => last
  | String a s' =>
      rfind_from c s' (i + 1) (if Ascii.eqb a c then i else last)
  end.

Definition rfind (c : ascii) (s : string) : Z := rfind_from c s 0 (-1).

(** [s[a:b]] for [0 <= a]; the server only slices under the guard
    [json_start >= 0 and json_end > json_start]. *)
Definition slice (s : string) (a b : Z) : string :=
  String.substring (Z.to_nat a) (Z.to_nat (b - a)) s.

(** Truth value of a string: non-empty. *)
Definition truthy (s : string) : bool :=
  match s with EmptyString => false | String _ _ => true end.

(** [os.path.join(d, f)] on POSIX, two components. *)
Definition path_join (d f : string) : string :=
  match f with
  | String "/" _ => f
  | _ => if truthy d && negb (endswith d "/") then d +:+ "/" +:+ f
         else d +:+ f
  end.

(** [os.path.basename(p)]: what follows the last slash, all of [p]
    when it has none. *)
Definition basename (p : string) : string := after_last "/" p.

End PyStr.

(** ** Data model *)

(** Python values that travel through the pipeline: metric values,
    parsed JSON and the fields of the response body.  A float is
    carried as the text [str()] gives for it. *)
#[warnings="-register-all"] Inductive PyValue : Type :=
| PyInt (z : Z)
| PyFloat (text : string)
| PyText (s : string)
| PyMap (entries : list (string * PyValue)).

(** A metrics mapping, in the insertion order [dict.items()] iterates. *)
Abbreviation Metrics := (list (string * PyValue)) (only parsing).

(** The classes the [except] clauses tell apart.  A
    [CalledProcessError] carries the bytes the encoder wrote to its
    standard error ([e.stderr], captured through [stderr=PIPE]). *)
Inductive ExnClass : Type :=
| CalledProcessError (stderr : string)
| OSError
| JSONDecodeError
| OtherException.

(** An exception: its class and what [str(e)] gives. *)
Record Exn : Type := { exn_class : ExnClass; exn_str : string }.

Inductive Result (A : Type) : Type :=
| Ok (a : A)
| Raise (e : Exn).
Arguments Ok {A} a.
Arguments Raise {A} e.

(** What an external tool does to its output path. *)
Inductive FileEffect : Type :=
| Untouched
| Written (size : N)
| Removed.

(** The calls the request handler makes, in order. *)
Inductive Event : Type :=
| EvSave (path : string)
| EvConvert (webm_path : string)
| EvEncode (input output : string)
| EvExtract (media output : string)
| EvTranscribe (audio : string)
| EvAudioFeatures (audio transcript : string)
| EvVideoFeatures (media : string)
| EvGemini (question transcript audio_text video_text : string)
| EvRemove (path : string).

(** The world: the files on disk (path to size in bytes) and the calls
    made so far. *)
Record World : Type := { files : gmap string N; history : list Event }.

Record Upload : Type := { up_filename : string; up_size : N }.

(** [request.files.get('video')] and [request.form.get('interview_question')]. *)
Record Request : Type :=
  { req_video : option Upload; req_interview_question : option string }.

(** [(jsonify(body), status)]. *)
Record Response : Type := { body : gmap string PyValue; status : Z }.

(** The environment: module constants and every function the server
    calls but does not define.  A collaborator is a function of the
    arguments the server passes it; a tool that writes a file also says
    what it does to its output path, and touches no other path. *)
Record Env : Type := {
  OUTPUT_AUDIO_FILENAME : string;
  GEMINI_API_KEY : option string;
  secure_filename : string -> string;
  (** [str.lower] and [str.title] on text that is not ASCII *)
  unicode_lower : string -> string;
  unicode_title : string -> string;
  (** [str(d)] for a dict [d] *)
  dict_str : list (string * PyValue) -> string;
  (** [json.loads]: the value, or the exception it raises, of class
      [JSONDecodeError] or of another class ([RecursionError] on deep
      nesting, [ValueError] on an integer with too many digits) *)
  json_loads : string -> Result PyValue;
  (** [bytes.decode()]: the text, or the [UnicodeDecodeError] *)
  bytes_decode : string -> Result string;
  (** [os.path.abspath] under the working directory of the server *)
  abspath : string -> string;
  (** the random names [tempfile] draws, in order *)
  tmp_names : list string;
  (** [subprocess.run(cmd, check=True)] on the ffmpeg command line;
      a non-zero exit is [Raise] of class [CalledProcessError] *)
  run_ffmpeg : string -> string -> Result unit * FileEffect;
  (** whether the operating system refuses to delete a path, and what
      [str(e)] gives for the [OSError] it then raises *)
  remove_fails : string -> bool;
  remove_error : string -> string;
  extract_audio : string -> string -> Result bool * FileEffect;
  transcribe_audio : string -> Result (option string);
  analyze_audio_features : string -> string -> Result (option Metrics);
  analyze_video_features : string -> Result (option Metrics);
  analyze_video_with_gemini :
    string -> string -> string -> string -> Result (gmap string string);
}.

Definition UPLOAD_FOLDER : string := "uploads".

Definition ALLOWED_EXTENSIONS : list string :=
  ["mp4"; "avi"; "mov"; "wmv"; "mkv"; "webm"; "webp"].

(** [s.lower()] and [s.title()] *)
Definition str_lower (env : Env) (s : string) : string :=
  if PyStr.is_ascii s then PyStr.lower s else unicode_lower env s.

Definition str_title (env : Env) (s : string) : string :=
  if PyStr.is_ascii s then PyStr.title s else unicode_title env s.

(** ** The state-and-exception monad *)

Definition M (A : Type) : Type := World -> Result A * World.

Definition ret {A} (a : A) : M A := fun w => (Ok a, w).

Definition raise {A} (e : Exn) : M A := fun w => (Raise e, w).

Definition bind {A B} (m : M A) (k : A -> M B) : M B :=
  fun w =>
    match m w with
    | (Ok a, w') => k a w'
    | (Raise e, w') => (Raise e, w')
    end.

(** [try: m except Exception as e: h e] *)
Definition try_except {A} (m : M A) (h : Exn -> M A) : M A :=
  fun w =>
    match m w with
    | (Ok a, w') => (Ok a, w')
    | (Raise e, w') => h e w'
    end.

Declare Scope py_scope.
Delimit Scope py_scope with py.
Notation "x <- m ;; k" := (bind m (fun x => k))
  (at level 100, m at next level, right associativity) : py_scope.
Notation "m ;;; k" := (bind m (fun _ => k))
  (at level 100, right associativity) : py_scope.
Local Open Scope py_scope.

Definition when (b : bool) (m : M unit) : M unit := if b then m else ret tt.

Definition record (ev : Event) : M unit :=
  fun w => (Ok tt, {| files := files w; history := history w ++ [ev] |}).

Definition lift {A} (r : Result A) : M A := fun w => (r, w).

(** ** File-system primitives *)

Definition apply_effect (p : string) (eff : FileEffect) (fs : gmap string N)
  : gmap string N :=
  match eff with
  | Untouched => fs
  | Written size => <[p := size]> fs
  | Removed => delete p fs
  end.

Definition touch (p : string) (eff : FileEffect) : M unit :=
  fun w => (Ok tt, {| files := apply_effect p eff (files w); history := history w |}).

(** [os.path.exists(p)] *)
Definition os_path_exists (p : string) : M bool :=
  fun w => (Ok (bool_decide (is_Some (files w !! p))), w).

(** [os.path.getsize(p)], only called on an existing path *)
Definition os_path_getsize (p : string) : M N :=
  fun w => (Ok (default 0%N (files w !! p)), w).

Definition OSError_ (msg : string) : Exn :=
  {| exn_class := OSError; exn_str := msg |}.

(** [os.remove(p)] and [os.unlink(p)] *)
Definition os_remove (env : Env) (p : string) : M unit :=
  record (EvRemove p) ;;;
  fun w =>
    match files w !! p with
    | None =>
        (Raise (OSError_ ("[Errno 2] No such file or directory: '" +:+ p +:+ "'")), w)
    | Some _ =>
        if remove_fails env p then (Raise (OSError_ (remove_error env p)), w)
        else (Ok tt, {| files := delete p (files w); history := history w |})
    end.

(** [try: os.remove(p) except OSError: pass] *)
Definition remove_quietly (env : Env) (p : string) : M unit :=
  try_except (os_remove env p)
    (fun e => match exn_class e with OSError => ret tt | _ => raise e end).

(** [file.save(p)] *)
Definition file_save (file : Upload) (p : string) : M unit :=
  record (EvSave p) ;;; touch p (Written (up_size file)).

(** [tempfile.mkstemp(suffix=suffix, dir=dir)] followed by
    [os.close]: the directory is made absolute, and the first drawn
    name whose path in it is free is created empty; the path
    returned is that absolute path. *)
Definition tmp_path (dir suffix name : string) : string :=
  PyStr.path_join dir ("tmp" +:+ name +:+ suffix).

Definition mkstemp (env : Env) (suffix dir : string) : M string :=
  fun w =>
    let dir := abspath env dir in
    match List.find (fun n => negb (bool_decide (is_Some (files w !! tmp_path dir suffix n))))
            (tmp_names env) with
    | Some n =>
        (Ok (tmp_path dir suffix n),
         {| files := <[tmp_path dir suffix n := 0%N]> (files w); history := history w |})
    | None => (Raise (OSError_ "[Errno 17] No usable temporary file name found"), w)
    end.

(** ** Values as text *)

(** [str(v)], as an f-string renders [{v}]. *)
Definition py_str (env : Env) (v : PyValue) : string :=
  match v with
  | PyInt z => pretty z
  | PyFloat text => text
  | PyText s => s
  | PyMap entries => dict_str env entries
  end.

Definition type_name (v : PyValue) : string :=
  match v with
  | PyInt _ => "int"
  | PyFloat _ => "float"
  | PyText _ => "str"
  | PyMap _ => "dict"
  end.

(** [v.items()]: the entries of a dict, [AttributeError] otherwise. *)
Definition items (v : PyValue) : Result (list (string * PyValue)) :=
  match v with
  | PyMap entries => Ok entries
  | _ =>
      Raise {| exn_class := OtherException;
               exn_str := "'" +:+ type_name v +:+ "' object has no attribute 'items'" |}
  end.

(** Truth value of an [Optional[Dict]]: present and non-empty. *)
Definition truthy_metrics (m : option Metrics) : bool :=
  match m with
  | Some (_ :: _) => true
  | _ => false
  end.

(** [key in d] *)
Definition has_key (key : string) (d : Metrics) : bool :=
  existsb (fun kv => String.eqb (fst kv) key) d.

(** ** allowed_file *)

Definition allowed_file (env : Env) (filename : string) : bool :=
  PyStr.contains "." filename
  && bool_decide (str_lower env (PyStr.after_last "." filename) ∈ ALLOWED_EXTENSIONS).

(** ** convert_webm_to_mp4 *)

(** The [try] body once [mp4_path] is bound. *)
Definition convert_body (env : Env) (webm_path mp4_path : string)
  : M (option string) :=
  record (EvEncode webm_path mp4_path) ;;;
  touch mp4_path (snd (run_ffmpeg env webm_path mp4_path)) ;;;
  lift (fst (run_ffmpeg env webm_path mp4_path)) ;;;
  there <- os_path_exists mp4_path ;;
  size <- os_path_getsize mp4_path ;;
  if there && (0 <? size)%N then ret (Some mp4_path) else ret None.

(** [e.stderr.decode() if e.stderr else str(e)], the text line 83
    prints: decoding the captured bytes can raise. *)
Definition ffmpeg_error_text (env : Env) (stderr : string) (e : Exn)
  : Result string :=
  if PyStr.truthy stderr then bytes_decode env stderr else Ok (exn_str e).

(** [if os.path.exists(p): os.unlink(p)] *)
Definition unlink_if_exists (env : Env) (p : string) : M unit :=
  there <- os_path_exists p ;;
  when there (os_remove env p).

(** The two [except] clauses; [mp4_path] is [None] while the local
    variable is not yet bound.  The first clause builds the text it
    prints from the error output of the encoder, and then reads
    [mp4_path]; the second one asks whether [mp4_path] is bound. *)
Definition convert_except (env : Env) (mp4_path : option string) (e : Exn)
  : M (option string) :=
  match exn_class e with
  | CalledProcessError stderr =>
      lift (ffmpeg_error_text env stderr e) ;;;
      match mp4_path with
      | Some p => unlink_if_exists env p
      | None =>
          raise {| exn_class := OtherException;
                   exn_str := "cannot access local variable 'mp4_path' where it is not associated with a value" |}
      end ;;;
      ret None
  | _ =>
      match mp4_path with
      | Some p => unlink_if_exists env p
      | None => ret tt
      end ;;;
      ret None
  end.

(** The [try] statement: allocate the output path, run the body, and
    hand any exception to the clause that catches it.  An exception
    raised inside an [except] clause leaves the function. *)
Definition convert_try (env : Env) (webm_path : string) : M (option string) :=
  fun w =>
    match mkstemp env ".mp4" UPLOAD_FOLDER w with
    | (Raise e, w1) => convert_except env None e w1
    | (Ok mp4_path, w1) =>
        try_except (convert_body env webm_path mp4_path)
          (convert_except env (Some mp4_path)) w1
    end.

Definition convert_webm_to_mp4 (env : Env) (webm_path : string)
  : M (option string) :=
  record (EvConvert webm_path) ;;; convert_try env webm_path.

(** ** process_video_complete *)

Definition nl : string := String "010" "".

(** [key.replace('_', ' ').title()] *)
Definition label (env : Env) (key : string) : string :=
  str_title env (PyStr.replace "_" " " key).

(** One turn of the loop over [audio_metrics.items()]. *)
Definition audio_line (env : Env) (acc : string) (kv : string * PyValue)
  : string :=
  acc +:+ "- " +:+ label env (fst kv) +:+ ": " +:+ py_str env (snd kv) +:+ nl.

Definition format_audio_metrics (env : Env) (audio_metrics : option Metrics)
  : string :=
  if truthy_metrics audio_metrics
  then fold_left (audio_line env) (default [] audio_metrics)
         ("Audio Analysis:" +:+ nl)
  else "".

(** One turn of the inner loop over [value.items()]. *)
Definition emotion_line (env : Env) (acc : string) (ec : string * PyValue)
  : string :=
  acc +:+ "  - " +:+ fst ec +:+ ": " +:+ py_str env (snd ec) +:+ nl.

(** One turn of the loop over [video_metrics.items()]. *)
Definition video_line (env : Env) (acc : Result string) (kv : string * PyValue)
  : Result string :=
  match acc with
  | Raise e => Raise e
  | Ok s =>
      if String.eqb (fst kv) "emotion_distribution" then
        match items (snd kv) with
        | Ok entries =>
            Ok (fold_left (emotion_line env) entries
                  (s +:+ "- " +:+ label env (fst kv) +:+ ":" +:+ nl))
        | Raise e => Raise e
        end
      else Ok (s +:+ "- " +:+ label env (fst kv) +:+ ": " +:+ py_str env (snd kv) +:+ nl)
  end.

(** [video_metrics and "error" not in video_metrics] *)
Definition usable_video_metrics (video_metrics : option Metrics) : bool :=
  truthy_metrics video_metrics
  && negb (has_key "error" (default [] video_metrics)).

Definition format_video_metrics (env : Env) (video_metrics : option Metrics)
  : Result string :=
  if usable_video_metrics video_metrics
  then fold_left (video_line env) (default [] video_metrics)
         (Ok ("Video Analysis:" +:+ nl))
  else Ok "".

(** Lines 217-231: the analysis text of the service, parsed when a JSON
    object can be cut out of it.  The [except] clause catches
    [json.JSONDecodeError] and nothing else. *)
Definition parse_analysis (env : Env) (analysis_text : string)
  : Result PyValue :=
  let json_start := PyStr.find "{" analysis_text in
  let json_end := PyStr.rfind "}" analysis_text + 1 in
  if (json_start >=? 0) && (json_end >? json_start) then
    match json_loads env (PyStr.slice analysis_text json_start json_end) with
    | Ok gemini_analysis => Ok gemini_analysis
    | Raise e =>
        match exn_class e with
        | JSONDecodeError => Ok (PyText analysis_text)
        | _ => Raise e
        end
    end
  else Ok (PyText analysis_text).

Definition gemini_configured (env : Env) : bool :=
  match GEMINI_API_KEY env with
  | Some key => PyStr.truthy key
  | None => false
  end.

(** Step 6. *)
Definition synthesize (env : Env)
    (interview_question transcript audio_metrics_str video_metrics_str : string)
    (results : gmap string PyValue) : M (gmap string PyValue) :=
  if gemini_configured env then
    record (EvGemini interview_question transcript
              audio_metrics_str video_metrics_str) ;;;
    gemini_result <-
      lift (analyze_video_with_gemini env interview_question transcript
              audio_metrics_str video_metrics_str) ;;
    match gemini_result !! "analysis" with
    | Some analysis_text =>
        gemini_analysis <- lift (parse_analysis env analysis_text) ;;
        ret (<["gemini_analysis" := gemini_analysis]> results)
    | None =>
        ret (<["gemini_error" :=
                 PyText (default "Unknown Gemini error" (gemini_result !! "error"))]>
               results)
    end
  else ret (<["gemini_error" := PyText "Gemini API key not configured"]> results).

(** [if os.path.exists(p): try: os.remove(p) except OSError: pass] *)
Definition cleanup (env : Env) (p : string) : M unit :=
  there <- os_path_exists p ;;
  when there (remove_quietly env p).

Definition error_response (msg : string) (code : Z) : Response :=
  {| body := {[ "error" := PyText msg ]}; status := code |}.

Definition error_response_for (msg filename : string) (code : Z) : Response :=
  {| body := {[ "error" := PyText msg; "video_file" := PyText filename ]};
     status := code |}.

(** Steps 3 and 4: what the two metrics do to [results]. *)
Definition add_audio_metrics (audio_metrics : option Metrics)
    (results : gmap string PyValue) : gmap string PyValue :=
  if truthy_metrics audio_metrics
  then <["audio_metrics" := PyMap (default [] audio_metrics)]> results
  else results.

Definition add_video_metrics (video_metrics : option Metrics)
    (results : gmap string PyValue) : gmap string PyValue :=
  if usable_video_metrics video_metrics
  then <["video_metrics" := PyMap (default [] video_metrics)]> results
  else results.

(** Steps 3 to 7, after a transcript was obtained. *)
Definition analyse_and_finish (env : Env)
    (file_path original_file_path interview_question transcript : string)
    (results : gmap string PyValue) : M Response :=
  let results := <["transcript" := PyText transcript]> results in
  record (EvAudioFeatures (OUTPUT_AUDIO_FILENAME env) transcript) ;;;
  audio_metrics <-
    lift (analyze_audio_features env (OUTPUT_AUDIO_FILENAME env) transcript) ;;
  let results := add_audio_metrics audio_metrics results in
  record (EvVideoFeatures file_path) ;;;
  video_metrics <- lift (analyze_video_features env file_path) ;;
  let results := add_video_metrics video_metrics results in
  let audio_metrics_str := format_audio_metrics env audio_metrics in
  video_metrics_str <- lift (format_video_metrics env video_metrics) ;;
  results <- synthesize env interview_question transcript
               audio_metrics_str video_metrics_str results ;;
  cleanup env (OUTPUT_AUDIO_FILENAME env) ;;;
  (if bool_decide (original_file_path ≠ file_path)
   then cleanup env original_file_path else ret tt) ;;;
  ret {| body := <["status" := PyText "complete"]> results; status := 200 |}.

(** The body of the [try] block. *)
Definition stages (env : Env)
    (filename file_path original_file_path interview_question : string)
    (results : gmap string PyValue) : M Response :=
  record (EvExtract file_path (OUTPUT_AUDIO_FILENAME env)) ;;;
  touch (OUTPUT_AUDIO_FILENAME env)
    (snd (extract_audio env file_path (OUTPUT_AUDIO_FILENAME env))) ;;;
  extracted <- lift (fst (extract_audio env file_path (OUTPUT_AUDIO_FILENAME env))) ;;
  if negb extracted
  then ret (error_response_for "Audio extraction failed" filename 500)
  else
    record (EvTranscribe (OUTPUT_AUDIO_FILENAME env)) ;;;
    transcript <- lift (transcribe_audio env (OUTPUT_AUDIO_FILENAME env)) ;;
    match transcript with
    | None =>
        there <- os_path_exists (OUTPUT_AUDIO_FILENAME env) ;;
        when there (os_remove env (OUTPUT_AUDIO_FILENAME env)) ;;;
        ret (error_response_for "Transcription failed" filename 500)
    | Some transcript =>
        analyse_and_finish env file_path original_file_path
          interview_question transcript results
    end.

(** The [except Exception as e] clause of the [try] block. *)
Definition unhandled_fault (env : Env)
    (filename file_path original_file_path : string) (e : Exn) : M Response :=
  cleanup env (OUTPUT_AUDIO_FILENAME env) ;;;
  (if bool_decide (original_file_path ≠ file_path)
   then cleanup env file_path else ret tt) ;;;
  ret (error_response_for ("Error processing video: " +:+ exn_str e) filename 500).

(** [results] as line 143 builds it. *)
Definition initial_results (filename interview_question : string)
  : gmap string PyValue :=
  {[ "video_file" := PyText filename;
     "interview_question" := PyText interview_question;
     "status" := PyText "processing" ]}.

(** Lines 143-284: [results] and the [try] statement. *)
Definition run_pipeline (env : Env)
    (filename file_path original_file_path interview_question : string)
  : M Response :=
  let results := initial_results filename interview_question in
  try_except
    (stages env filename file_path original_file_path interview_question results)
    (unhandled_fault env filename file_path original_file_path).

(** Lines 126-141: save the upload and convert it when it is a .webm. *)
Definition accept_upload (env : Env) (file : Upload)
    (interview_question : string) : M Response :=
  let filename := secure_filename env (up_filename file) in
  let file_path := PyStr.path_join UPLOAD_FOLDER filename in
  file_save file file_path ;;;
  let original_file_path := file_path in
  if PyStr.endswith (str_lower env filename) ".webm" then
    mp4_path <- convert_webm_to_mp4 env file_path ;;
    match mp4_path with
    | Some mp4_path =>
        if PyStr.truthy mp4_path then
          run_pipeline env (PyStr.basename mp4_path) mp4_path
            original_file_path interview_question
        else ret (error_response "Failed to convert .webm file to .mp4" 500)
    | None => ret (error_response "Failed to convert .webm file to .mp4" 500)
    end
  else
    run_pipeline env filename file_path original_file_path interview_question.

Definition process_video_complete (env : Env) (request : Request) : M Response :=
  match req_video request with
  | None => ret (error_response "No video part in the request" 400)
  | Some file =>
      let interview_question := default "" (req_interview_question request) in
      if negb (PyStr.truthy interview_question)
      then ret (error_response "No interview_question provided" 400)
      else if String.eqb (up_filename file) ""
      then ret (error_response "No selected file" 400)
      else if PyStr.truthy (up_filename file) && allowed_file env (up_filename file)
      then
        if negb (PyStr.truthy (up_filename file))
        then ret (error_response "Filename missing" 400)
        else accept_upload env file interview_question
      else ret (error_response "File type not allowed" 400)
  end.

(** ** Requests *)

(** A request starts from some files on disk and an empty call history. *)
Definition start (fs : gmap string N) : World := {| files := fs; history := [] |}.

(** [request.form.get("interview_question", "")] *)
Definition prompt (request : Request) : string :=
  default "" (req_interview_question request).

(** The request fails one of the four checks of lines 108-122. *)
Definition rejected (env : Env) (request : Request) : Prop :=
  req_video request = None
  ∨ prompt request = ""
  ∨ ∃ file, req_video request = Some file
            ∧ (up_filename file = "" ∨ allowed_file env (up_filename file) = false).

(** The messages of the four validation errors. *)
Definition validation_messages : list string :=
  ["No video part in the request"; "No interview_question provided";
   "No selected file"; "File type not allowed"].

(** The request passes all of them. *)
Definition accepted (env : Env) (request : Request) (file : Upload)
    (question : string) : Prop :=
  req_video request = Some file
  ∧ prompt request = question
  ∧ question ≠ ""
  ∧ up_filename file ≠ ""
  ∧ allowed_file env (up_filename file) = true.

(** ** The call history only grows *)

Definition extends (P : Event -> Prop) (w w' : World) : Prop :=
  ∃ evs, history w' = history w ++ evs ∧ Forall P evs.

(** Every run of [m] appends events that satisfy [P]. *)
Definition emits {A} (P : Event -> Prop) (m : M A) : Prop :=
  ∀ w, extends P w (snd (m w)).


(** ** Words of the design document *)

(** [c] is at index [i] of [s] and nowhere before. *)
Definition first_occurrence (c : ascii) (s : string) (i : nat) : Prop :=
  String.get i s = Some c ∧ ∀ k, (k < i)%nat -> String.get k s ≠ Some c.

(** [c] is at index [j] of [s] and nowhere after. *)
Definition last_occurrence (c : ascii) (s : string) (j : nat) : Prop :=
  String.get j s = Some c ∧ ∀ k, (j < k)%nat -> String.get k s ≠ Some c.

(** The substring from index [i] to index [j], both included. *)
Definition between (s : string) (i j : nat) : string :=
  String.substring i (j - i + 1) s.

Fixpoint join_lines (blocks : list string) : string :=
  match blocks with
  | [] => ""
  | b :: blocks' => b +:+ join_lines blocks'
  end.

(** A metric on one line: its label, a colon and the value's text. *)
Definition plain_line (env : Env) (kv : string * PyValue) : string :=
  "- " +:+ label env (fst kv) +:+ ": " +:+ py_str env (snd kv) +:+ nl.

(** A nested mapping: the label, then one indented line per entry. *)
Definition nested_block (env : Env) (key : string)
    (entries : list (string * PyValue)) : string :=
  "- " +:+ label env key +:+ ":" +:+ nl
  +:+ join_lines
        (map (fun ec => "  - " +:+ fst ec +:+ ": " +:+ py_str env (snd ec) +:+ nl)
           entries).

(** The metric formatting rule as the design document words it: any
    metric whose value is a mapping is rendered as a nested block. *)
Definition rule_block (env : Env) (kv : string * PyValue) : string :=
  match snd kv with
  | PyMap entries => nested_block env (fst kv) entries
  | _ => plain_line env kv
  end.

(** What the video loop renders: a nested block for the key
    [emotion_distribution], one line for any other key. *)
Definition video_block (env : Env) (kv : string * PyValue) : string :=
  if String.eqb (fst kv) "emotion_distribution" then
    match snd kv with
    | PyMap entries => nested_block env (fst kv) entries
    | _ => plain_line env kv
    end
  else plain_line env kv.

(** A letter of the ASCII alphabet. *)
Definition is_letter (c : ascii) : bool := PyStr.is_lower c || PyStr.is_upper c.

(** The character before index [i] of [s], if any. *)
Definition char_before (s : string) (i : nat) : option ascii :=
  match i with
  | O => None
  | S j => String.get j s
  end.

(** Title case with underscores replaced by spaces, one character at
    a time: an underscore becomes a space; a letter is upper-cased
    when it starts a word and lower-cased inside a word; any other
    character is kept.  A word starts at the start of the key and
    after every character that is no letter. *)
Definition label_char (prev : option ascii) (c : ascii) : ascii :=
  if Ascii.eqb c "_" then " "%char
  else if is_letter c then
    match prev with
    | Some p => if is_letter p then PyStr.to_lower c else PyStr.to_upper c
    | None => PyStr.to_upper c
    end
  else c.

(** [lbl] is [key], title-cased with underscores replaced by spaces. *)
Definition title_cased_label (key lbl : string) : Prop :=
  String.length lbl = String.length key
  ∧ ∀ i c, String.get i key = Some c ->
           String.get i lbl = Some (label_char (char_before key i) c).

(** The value of every [emotion_distribution] entry is a mapping. *)
Definition emotions_are_mappings (m : Metrics) : Prop :=
  Forall (fun kv => fst kv = "emotion_distribution" ->
                    ∃ entries, snd kv = PyMap entries) m.

(** The mapping has an entry with the reserved key ["error"]. *)
Definition error_tagged (m : Metrics) : Prop := ∃ value, ("error", value) ∈ m.




(** Step 6 does not raise on these arguments: the analysis service is
    not configured, or it answers and, when its answer has an analysis
    text, parsing that text does not raise. *)
Definition service_answers (env : Env)
    (interview_question transcript audio_text video_text : string) : Prop :=
  gemini_configured env = false
  ∨ ∃ answer,
      analyze_video_with_gemini env interview_question transcript
        audio_text video_text = Ok answer
      ∧ ∀ s, answer !! "analysis" = Some s ->
             ∃ parsed, parse_analysis env s = Ok parsed.

(** ** Summary of a run of the processing stages

    What the [try] statement of [process_video_complete] answers and
    leaves on disk, as a function of what the collaborators return. *)

(** The files after [if os.path.exists(p): try: os.remove(p) ...]. *)
Definition after_cleanup (env : Env) (p : string) (fs : gmap string N)
  : gmap string N :=
  if bool_decide (is_Some (fs !! p)) && negb (remove_fails env p)
  then delete p fs else fs.

(** The events of that clean-up. *)
Definition cleanup_log (p : string) (fs : gmap string N) : list Event :=
  if bool_decide (is_Some (fs !! p)) then [EvRemove p] else [].

(** What step 6 returns. *)
Definition synthesized (env : Env)
    (interview_question transcript audio_metrics_str video_metrics_str : string)
    (results : gmap string PyValue) : Result (gmap string PyValue) :=
  if gemini_configured env then
    match analyze_video_with_gemini env interview_question transcript
            audio_metrics_str video_metrics_str with
    | Raise e => Raise e
    | Ok gemini_result =>
        match gemini_result !! "analysis" with
        | Some analysis_text =>
            match parse_analysis env analysis_text with
            | Raise e => Raise e
            | Ok gemini_analysis =>
                Ok (<["gemini_analysis" := gemini_analysis]> results)
            end
        | None =>
            Ok (<["gemini_error" :=
                    PyText (default "Unknown Gemini error" (gemini_result !! "error"))]>
                  results)
        end
    end
  else Ok (<["gemini_error" := PyText "Gemini API key not configured"]> results).

(** What steps 3 to 6 make of [results]. *)
Definition analysed (env : Env) (file_path interview_question transcript : string)
    (results : gmap string PyValue) : Result (gmap string PyValue) :=
  match analyze_audio_features env (OUTPUT_AUDIO_FILENAME env) transcript with
  | Raise e => Raise e
  | Ok audio_metrics =>
      match analyze_video_features env file_path with
      | Raise e => Raise e
      | Ok video_metrics =>
          match format_video_metrics env video_metrics with
          | Raise e => Raise e
          | Ok video_metrics_str =>
              synthesized env interview_question transcript
                (format_audio_metrics env audio_metrics) video_metrics_str
                (add_video_metrics video_metrics
                   (add_audio_metrics audio_metrics
                      (<["transcript" := PyText transcript]> results)))
          end
      end
  end.

(** The ways out of the [try] statement. *)
Inductive Exit : Type :=
| Completed (results : gmap string PyValue)
| ExtractionFailed
| TranscriptionFailed
| UnhandledFault (e : Exn).

(** The way out, given the files [fs] on disk once audio extraction
    has run. *)
Definition exit_of (env : Env) (filename file_path interview_question : string)
    (fs : gmap string N) : Exit :=
  match fst (extract_audio env file_path (OUTPUT_AUDIO_FILENAME env)) with
  | Raise e => UnhandledFault e
  | Ok false => ExtractionFailed
  | Ok true =>
      match transcribe_audio env (OUTPUT_AUDIO_FILENAME env) with
      | Raise e => UnhandledFault e
      | Ok None =>
          if bool_decide (is_Some (fs !! OUTPUT_AUDIO_FILENAME env))
             && remove_fails env (OUTPUT_AUDIO_FILENAME env)
          then UnhandledFault (OSError_ (remove_error env (OUTPUT_AUDIO_FILENAME env)))
          else TranscriptionFailed
      | Ok (Some transcript) =>
          match analysed env file_path interview_question transcript
                  (initial_results filename interview_question) with
          | Raise e => UnhandledFault e
          | Ok results => Completed results
          end
      end
  end.

Definition response_of (filename : string) (exit : Exit) : Response :=
  match exit with
  | Completed results =>
      {| body := <["status" := PyText "complete"]> results; status := 200 |}
  | ExtractionFailed => error_response_for "Audio extraction failed" filename 500
  | TranscriptionFailed => error_response_for "Transcription failed" filename 500
  | UnhandledFault e =>
      error_response_for ("Error processing video: " +:+ exn_str e) filename 500
  end.

Definition files_after (env : Env) (file_path original_file_path : string)
    (exit : Exit) (fs : gmap string N) : gmap string N :=
  match exit with
  | Completed _ =>
      let fs := after_cleanup env (OUTPUT_AUDIO_FILENAME env) fs in
      if bool_decide (original_file_path ≠ file_path)
      then after_cleanup env original_file_path fs else fs
  | ExtractionFailed => fs
  | TranscriptionFailed => delete (OUTPUT_AUDIO_FILENAME env) fs
  | UnhandledFault _ =>
      let fs := after_cleanup env (OUTPUT_AUDIO_FILENAME env) fs in
      if bool_decide (original_file_path ≠ file_path)
      then after_cleanup env file_path fs else fs
  end.

(** ** Kinds of response *)

Definition transcription_failed (resp : Response) : Prop :=
  body resp !! "error" = Some (PyText "Transcription failed").

Definition extraction_failed (resp : Response) : Prop :=
  body resp !! "error" = Some (PyText "Audio extraction failed").

(** The answer of the [except Exception] clause of the [try] block. *)
Definition unhandled_fault_response (resp : Response) : Prop :=
  ∃ msg, body resp !! "error" = Some (PyText ("Error processing video: " +:+ msg)).

(** When the extractor reports failure, it has written nothing to
    its output path. *)
Definition extractor_fails_clean (env : Env) : Prop :=
  ∀ media size,
    fst (extract_audio env media (OUTPUT_AUDIO_FILENAME env)) = Ok false ->
    snd (extract_audio env media (OUTPUT_AUDIO_FILENAME env)) ≠ Written size.

(** The text line 83 prints for the exception [e] of the encoder can
    be built: [e] is no [CalledProcessError], or the error output it
    carries is empty or decodes. *)
Definition error_text_builds (env : Env) (e : Exn) : Prop :=
  match exn_class e with
  | CalledProcessError stderr => ∃ text, ffmpeg_error_text env stderr e = Ok text
  | _ => True
  end.

(** What [if os.path.exists(p): os.unlink(p)] returns and leaves. *)
Definition unlinked (env : Env) (p : string) (w : World) : Result unit * World :=
  if bool_decide (is_Some (files w !! p)) then
    if remove_fails env p
    then (Raise (OSError_ (remove_error env p)),
          {| files := files w; history := history w ++ [EvRemove p] |})
    else (Ok tt,
          {| files := delete p (files w); history := history w ++ [EvRemove p] |})
  else (Ok tt, w).


(** The audio artifact path is none of the paths [mkstemp] may
    allocate. *)
Definition audio_path_apart (env : Env) : Prop :=
  ∀ n, n ∈ tmp_names env ->
       OUTPUT_AUDIO_FILENAME env ≠ tmp_path (abspath env UPLOAD_FOLDER) ".mp4" n.

(** A drawn name has no path separator. *)
Definition no_slash (name : string) : Prop := PyStr.contains "/" name = false.

(** ** Sample environments and requests *)

(** A rendering of values for the sample environments: Python's
    [repr] on integers, floats, and strings and keys that need no
    escaping. *)
Fixpoint sample_repr (v : PyValue) : string :=
  match v with
  | PyInt z => pretty z
  | PyFloat text => text
  | PyText s => "'" +:+ s +:+ "'"
  | PyMap entries =>
      "{" +:+
      (fix go (es : list (string * PyValue)) : string :=
         match es with
         | [] => ""
         | [kv] => "'" +:+ fst kv +:+ "': " +:+ sample_repr (snd kv)
         | kv :: es' =>
             "'" +:+ fst kv +:+ "': " +:+ sample_repr (snd kv) +:+ ", " +:+ go es'
         end) entries
      +:+ "}"
  end.

(** The JSON object with the one member [n], an integer of [digits]
    nines. *)
Fixpoint nines (digits : nat) : string :=
  match digits with
  | O => ""
  | S k => String "9" (nines k)
  end.

Definition big_integer_json (digits : nat) : string :=
  "{" +:+ String "034" "n" +:+ String "034" ": " +:+ nines digits +:+ "}".

(** A parser for the sample environments: it knows the empty object,
    refuses the integer of 4400 digits with the [ValueError] of
    Python's limit on integer conversion, and reports a decode error
    on any other text. *)
Definition sample_json_loads (s : string) : Result PyValue :=
  if String.eqb s "{}" then Ok (PyMap [])
  else if String.eqb s (big_integer_json 4400) then
    Raise {| exn_class := OtherException;
             exn_str := "Exceeds the limit (4300 digits) for integer string conversion: value has 4400 digits; use sys.set_int_max_str_digits() to increase the limit" |}
  else
    Raise {| exn_class := JSONDecodeError;
             exn_str := "Expecting property name enclosed in double quotes: line 1 column 2 (char 1)" |}.

(** The letter m, the KELVIN SIGN (U+212A, in UTF-8 the bytes 226,
    132 and 170) and the letter v. *)
Definition kelvin_mkv : string :=
  String "m" (String "226" (String "132" (String "170" "v"))).

(** Lower-casing for the sample environments: the ASCII letters and
    the Kelvin sign, whose lower case is the letter k. *)
Fixpoint sample_lower (s : string) : string :=
  match s with
  | EmptyString => EmptyString
  | String "226" (String "132" (String "170" s')) => String "k" (sample_lower s')
  | String c s' => String (PyStr.to_lower c) (sample_lower s')
  end.

(** A sample environment, given the API key, the transcriber, the
    encoder, the audio extractor, the audio analyser and the paths
    that cannot be deleted. *)
Definition sample_env_with
    (api_key : option string)
    (transcriber : string -> Result (option string))
    (encoder : string -> string -> Result unit * FileEffect)
    (extractor : string -> string -> Result bool * FileEffect)
    (audio_analyser : string -> string -> Result (option Metrics))
    (locked : string -> bool) : Env := {|
  OUTPUT_AUDIO_FILENAME := "extracted_audio.wav";
  GEMINI_API_KEY := api_key;
  secure_filename := fun s => s;
  unicode_lower := sample_lower;
  unicode_title := fun s => s;
  dict_str := fun entries => sample_repr (PyMap entries);
  json_loads := sample_json_loads;
  bytes_decode := fun bytes =>
    if PyStr.is_ascii bytes then Ok bytes
    else Raise {| exn_class := OtherException;
                  exn_str := "'utf-8' codec can't decode bytes" |};
  abspath := fun p => "/srv/app/" +:+ p;
  tmp_names := ["k3x9w2ab"; "p0q1r2s3"];
  run_ffmpeg := encoder;
  remove_fails := locked;
  remove_error := fun p => "[Errno 13] Permission denied: '" +:+ p +:+ "'";
  extract_audio := extractor;
  transcribe_audio := transcriber;
  analyze_audio_features := audio_analyser;
  analyze_video_features := fun _ =>
    Ok (Some [("emotion_distribution", PyMap [("happy", PyInt 3)]);
              ("eye_contact", PyFloat "0.5")]);
  analyze_video_with_gemini := fun _ _ _ _ => Ok {[ "analysis" := "Verdict: {}" ]};
|}.

Definition good_transcriber (audio : string) : Result (option string) :=
  Ok (Some "I led a team of four.").

Definition sample_env := sample_env_with (Some "secret") good_transcriber.

Definition good_encoder (input output : string) : Result unit * FileEffect :=
  (Ok tt, Written 2048).

Definition good_extractor (media output : string) : Result bool * FileEffect :=
  (Ok true, Written 512).

Definition good_audio_analyser (audio transcript : string)
  : Result (option Metrics) :=
  Ok (Some [("speech_rate", PyInt 120)]).

(** An environment in which every collaborator succeeds. *)
Definition happy_env : Env :=
  sample_env good_encoder good_extractor good_audio_analyser (fun _ => false).

(** The encoder exits with status 0 and writes nothing. *)
Definition silent_encoder_env : Env :=
  sample_env (fun _ _ => (Ok tt, Untouched))
    good_extractor good_audio_analyser (fun _ => false).

(** The encoder exits with a non-zero status after writing part of
    the output. *)
Definition broken_encoder_env : Env :=
  sample_env
    (fun _ _ =>
       (Raise {| exn_class := CalledProcessError "Invalid data found";
                 exn_str := "Command 'ffmpeg' returned non-zero exit status 1." |},
        Written 17))
    good_extractor good_audio_analyser (fun _ => false).

(** The encoder exits with a non-zero status and its error output is
    no UTF-8 text. *)
Definition garbled_stderr_env : Env :=
  sample_env
    (fun _ _ =>
       (Raise {| exn_class := CalledProcessError (String "255" "");
                 exn_str := "Command 'ffmpeg' returned non-zero exit status 1." |},
        Written 17))
    good_extractor good_audio_analyser (fun _ => false).

(** The encoder fails and the operating system refuses to delete the
    output that was allocated for it. *)
Definition locked_output_env : Env :=
  sample_env
    (fun _ _ =>
       (Raise {| exn_class := CalledProcessError "Invalid data found";
                 exn_str := "Command 'ffmpeg' returned non-zero exit status 1." |},
        Written 17))
    good_extractor good_audio_analyser
    (fun p => String.eqb p "/srv/app/uploads/tmpk3x9w2ab.mp4").

(** The transcriber returns no transcript. *)
Definition silent_transcriber_env : Env :=
  sample_env_with (Some "secret") (fun _ => Ok None)
    good_encoder good_extractor good_audio_analyser (fun _ => false).

(** The analysis service is not configured. *)
Definition unconfigured_env : Env :=
  sample_env_with None good_transcriber
    good_encoder good_extractor good_audio_analyser (fun _ => false).

(** The operating system refuses to delete the audio artifact. *)
Definition locked_audio_env : Env :=
  sample_env good_encoder good_extractor good_audio_analyser
    (fun p => String.eqb p "extracted_audio.wav").

(** Audio extraction fails after writing part of its output. *)
Definition partial_audio_env : Env :=
  sample_env good_encoder (fun _ _ => (Ok false, Written 64))
    good_audio_analyser (fun _ => false).

(** Audio extraction raises. *)
Definition crashing_extractor_env : Env :=
  sample_env good_encoder
    (fun _ _ =>
       (Raise {| exn_class := OtherException; exn_str := "codec not found" |},
        Untouched))
    good_audio_analyser (fun _ => false).



(** [env] with another video analyser and another analysis service. *)
Definition with_analysis (env : Env)
    (video_analyser : string -> Result (option Metrics))
    (service : string -> string -> string -> string -> Result (gmap string string))
  : Env := {|
  OUTPUT_AUDIO_FILENAME := OUTPUT_AUDIO_FILENAME env;
  GEMINI_API_KEY := GEMINI_API_KEY env;
  secure_filename := secure_filename env;
  unicode_lower := unicode_lower env;
  unicode_title := unicode_title env;
  dict_str := dict_str env;
  json_loads := json_loads env;
  bytes_decode := bytes_decode env;
  abspath := abspath env;
  tmp_names := tmp_names env;
  run_ffmpeg := run_ffmpeg env;
  remove_fails := remove_fails env;
  remove_error := remove_error env;
  extract_audio := extract_audio env;
  transcribe_audio := transcribe_audio env;
  analyze_audio_features := analyze_audio_features env;
  analyze_video_features := video_analyser;
  analyze_video_with_gemini := service;
|}.

(** [env] with another [secure_filename]. *)
Definition with_sanitizer (env : Env) (sanitizer : string -> string) : Env := {|
  OUTPUT_AUDIO_FILENAME := OUTPUT_AUDIO_FILENAME env;
  GEMINI_API_KEY := GEMINI_API_KEY env;
  secure_filename := sanitizer;
  unicode_lower := unicode_lower env;
  unicode_title := unicode_title env;
  dict_str := dict_str env;
  json_loads := json_loads env;
  bytes_decode := bytes_decode env;
  abspath := abspath env;
  tmp_names := tmp_names env;
  run_ffmpeg := run_ffmpeg env;
  remove_fails := remove_fails env;
  remove_error := remove_error env;
  extract_audio := extract_audio env;
  transcribe_audio := transcribe_audio env;
  analyze_audio_features := analyze_audio_features env;
  analyze_video_features := analyze_video_features env;
  analyze_video_with_gemini := analyze_video_with_gemini env;
|}.

(** The analysis service raises. *)
Definition failing_service_env : Env :=
  with_analysis happy_env (analyze_video_features happy_env)
    (fun _ _ _ _ =>
       Raise {| exn_class := OtherException; exn_str := "503 Service Unavailable" |}).

(** The analysis service answers with a JSON object whose one member
    is an integer of 4400 digits. *)
Definition big_integer_env : Env :=
  with_analysis happy_env (analyze_video_features happy_env)
    (fun _ _ _ _ => Ok {[ "analysis" := big_integer_json 4400 ]}).

(** The analysis service answers with neither an analysis nor an
    error message. *)
Definition mute_service_env : Env :=
  with_analysis happy_env (analyze_video_features happy_env)
    (fun _ _ _ _ => Ok {[ "detail" := "quota exceeded" ]}).

(** The video analyser reports the emotion distribution as a number. *)
Definition malformed_emotions_env : Env :=
  with_analysis happy_env
    (fun _ => Ok (Some [("eye_contact", PyFloat "0.5");
                        ("emotion_distribution", PyInt 0)]))
    (analyze_video_with_gemini happy_env).

Definition webm_request : Request :=
  {| req_video := Some {| up_filename := "answer.webm"; up_size := 4096 |};
     req_interview_question := Some "Describe your experience" |}.

Definition mp4_request : Request :=
  {| req_video := Some {| up_filename := "answer.mp4"; up_size := 4096 |};
     req_interview_question := Some "Describe your experience" |}.

(** Audio metrics with a nested mapping, and video metrics with an
    emotion distribution. *)
Definition nested_audio_metrics : Metrics :=
  [("pitch_stats", PyMap [("mean", PyInt 180); ("std", PyInt 25)])].

Definition sample_video_metrics : Metrics :=
  [("emotion_distribution", PyMap [("happy", PyInt 3); ("neutral", PyInt 7)]);
   ("eye_contact_ratio", PyFloat "0.5")].
(** * Properties *)

(** ** Sanity checks of the string operations *)

Example lower_ex : PyStr.lower "Clip.WebM" = "clip.webm".
Proof. reflexivity. Qed.

Example title_ex :
  PyStr.title (PyStr.replace "_" " " "speech_rate_wpm") = "Speech Rate Wpm".
Proof. reflexivity. Qed.

Example title_digit_ex : PyStr.title "f0 mEAN a1b" = "F0 Mean A1B".
Proof. reflexivity. Qed.

Example find_ex : PyStr.find "{" "ab{c{d}e}f" = 2 /\ PyStr.rfind "}" "ab{c{d}e}f" = 8.
Proof. split; reflexivity. Qed.

Example slice_ex : PyStr.slice "ab{c{d}e}f" 2 9 = "{c{d}e}".
Proof. reflexivity. Qed.

Example basename_ex :
  PyStr.basename (PyStr.path_join "uploads" "tmpab12.mp4") = "tmpab12.mp4".
Proof. reflexivity. Qed.

Example after_last_ex : PyStr.after_last "." "a.tar.GZ" = "GZ".
Proof. reflexivity. Qed.

Example endswith_ex :
  PyStr.endswith "clip.webm" ".webm" = true /\ PyStr.endswith "webm" ".webm" = false.
Proof. split; reflexivity. Qed.

(** ** The scenarios of the design document *)

(** Scenario A: a valid .mp4 upload and a prompt, every collaborator
    succeeding. *)
Example scenario_a :
  let r := process_video_complete happy_env mp4_request (start ∅) in
  (∃ resp, fst r = Ok resp
           ∧ status resp = 200
           ∧ body resp !! "status" = Some (PyText "complete")
           ∧ body resp !! "video_file" = Some (PyText "answer.mp4")
           ∧ body resp !! "transcript" = Some (PyText "I led a team of four.")
           ∧ is_Some (body resp !! "audio_metrics")
           ∧ is_Some (body resp !! "video_metrics")
           ∧ body resp !! "gemini_analysis" = Some (PyMap []))
  ∧ files (snd r) = {[ "uploads/answer.mp4" := 4096%N ]}
  ∧ history (snd r)
    = [EvSave "uploads/answer.mp4";
       EvExtract "uploads/answer.mp4" "extracted_audio.wav";
       EvTranscribe "extracted_audio.wav";
       EvAudioFeatures "extracted_audio.wav" "I led a team of four.";
       EvVideoFeatures "uploads/answer.mp4";
       EvGemini "Describe your experience" "I led a team of four."
         ("Audio Analysis:" +:+ nl +:+ "- Speech Rate: 120" +:+ nl)
         ("Video Analysis:" +:+ nl +:+ "- Emotion Distribution:" +:+ nl
          +:+ "  - happy: 3" +:+ nl +:+ "- Eye Contact: 0.5" +:+ nl);
       EvRemove "extracted_audio.wav"].
Proof.
  split; [|split; reflexivity].
  eexists. repeat split; try reflexivity; by eexists.
Qed.

(** Scenario B: a valid .webm upload whose encoder exits with a
    non-zero status. *)
Example scenario_b :
  let r := process_video_complete broken_encoder_env webm_request (start ∅) in
  (∃ resp, fst r = Ok resp ∧ status resp = 500)
  ∧ files (snd r) = {[ "uploads/answer.webm" := 4096%N ]}.
Proof. split; [eexists; split; reflexivity|reflexivity]. Qed.

(** Scenario C: a valid .mp4 upload whose transcription returns
    nothing. *)
Example scenario_c :
  let r := process_video_complete silent_transcriber_env mp4_request (start ∅) in
  (∃ resp, fst r = Ok resp ∧ status resp = 500 ∧ transcription_failed resp)
  ∧ files (snd r) !! "extracted_audio.wav" = None
  ∧ EvRemove "extracted_audio.wav" ∈ history (snd r).
Proof.
  split; [eexists; repeat split; reflexivity|]. split; [reflexivity|].
  vm_compute.
  repeat first [apply list_elem_of_here | apply list_elem_of_further].
Qed.

(** Scenario D: a valid .mp4 upload, the analysis service not being
    configured. *)
Example scenario_d :
  let r := process_video_complete unconfigured_env mp4_request (start ∅) in
  ∃ resp, fst r = Ok resp
          ∧ status resp = 200
          ∧ body resp !! "status" = Some (PyText "complete")
          ∧ body resp !! "gemini_error"
            = Some (PyText "Gemini API key not configured")
          ∧ body resp !! "transcript" = Some (PyText "I led a team of four.")
          ∧ is_Some (body resp !! "audio_metrics")
          ∧ is_Some (body resp !! "video_metrics").
Proof. eexists. repeat split; try reflexivity; by eexists. Qed.

(** ** Lemmas on the call history *)

Lemma extends_refl P w : extends P w w.
Proof. exists []. by rewrite app_nil_r. Qed.

Lemma extends_same P w w' : history w' = history w -> extends P w w'.
Proof. intros H. exists []. by rewrite app_nil_r. Qed.

Lemma extends_trans P w1 w2 w3 :
  extends P w1 w2 -> extends P w2 w3 -> extends P w1 w3.
Proof.
  intros (e1 & H1 & F1) (e2 & H2 & F2). exists (e1 ++ e2). split.
  - by rewrite H2, H1, app_assoc.
  - by apply Forall_app.
Qed.


Section Emits.
Context (P : Event -> Prop).

Lemma emits_ret {A} (a : A) : emits P (ret a).
Proof. intros w. apply extends_refl. Qed.

Lemma emits_raise {A} e : emits P (@raise A e).
Proof. intros w. apply extends_refl. Qed.

Lemma emits_lift {A} (r : Result A) : emits P (lift r).
Proof. intros w. apply extends_refl. Qed.

Lemma emits_touch p eff : emits P (touch p eff).
Proof. intros w. by apply extends_same. Qed.

Lemma emits_record ev : P ev -> emits P (record ev).
Proof. intros H w. exists [ev]. split; [done|]. by constructor. Qed.

Lemma emits_bind {A B} (m : M A) (k : A -> M B) :
  emits P m -> (∀ a, emits P (k a)) -> emits P (bind m k).
Proof.
  intros Hm Hk w. unfold bind. specialize (Hm w).
  destruct (m w) as [[a|e] w1]; simpl in *; [|done].
  eapply extends_trans; [exact Hm|apply Hk].
Qed.

Lemma emits_try_except {A} (m : M A) (h : Exn -> M A) :
  emits P m -> (∀ e, emits P (h e)) -> emits P (try_except m h).
Proof.
  intros Hm Hh w. unfold try_except. specialize (Hm w).
  destruct (m w) as [[a|e] w1]; simpl in *; [done|].
  eapply extends_trans; [exact Hm|apply Hh].
Qed.

Lemma emits_when b (m : M unit) : emits P m -> emits P (when b m).
Proof. destruct b; simpl; [done|]. intros _. apply emits_ret. Qed.

Lemma emits_exists p : emits P (os_path_exists p).
Proof. intros w. apply extends_refl. Qed.

Lemma emits_getsize p : emits P (os_path_getsize p).
Proof. intros w. apply extends_refl. Qed.

Lemma emits_remove env p : P (EvRemove p) -> emits P (os_remove env p).
Proof.
  intros H. apply emits_bind; [by apply emits_record|].
  intros _ w. destruct (files w !! p); [destruct (remove_fails env p)|];
    by apply extends_same.
Qed.

Lemma emits_remove_quietly env p :
  P (EvRemove p) -> emits P (remove_quietly env p).
Proof.
  intros H. apply emits_try_except; [by apply emits_remove|].
  intros e. destruct (exn_class e); auto using emits_ret, emits_raise.
Qed.

Lemma emits_cleanup env p : P (EvRemove p) -> emits P (cleanup env p).
Proof.
  intros H. apply emits_bind; [apply emits_exists|].
  intros b. by apply emits_when, emits_remove_quietly.
Qed.

Lemma emits_mkstemp env suffix dir : emits P (mkstemp env suffix dir).
Proof.
  intros w. unfold mkstemp. destruct (List.find _ _); by apply extends_same.
Qed.
End Emits.

Create HintDb emits.

#[local] Hint Resolve emits_ret emits_raise emits_lift emits_touch emits_exists
  emits_getsize emits_mkstemp : emits.

Ltac emits_step :=
  first
    [ solve [auto with emits]
    | apply emits_record; simpl; done
    | apply emits_cleanup; simpl; done
    | apply emits_remove; simpl; done
    | apply emits_when
    | apply emits_bind; [|intros ?]
    | apply emits_try_except; [|intros ?] ].






Lemma emits_convert_except P env o e :
  (∀ p, P (EvRemove p)) -> emits P (convert_except env o e).
Proof.
  intros H. unfold convert_except.
  destruct (exn_class e), o; repeat emits_step.
Qed.

Lemma emits_convert_try P env webm_path :
  (∀ o, P (EvEncode webm_path o)) -> (∀ p, P (EvRemove p)) ->
  emits P (convert_try env webm_path).
Proof.
  intros He Hr w. unfold convert_try.
  pose proof (emits_mkstemp P env ".mp4" UPLOAD_FOLDER w) as Hm.
  destruct (mkstemp env ".mp4" UPLOAD_FOLDER w) as [[mp4|e] w1]; simpl in Hm.
  - eapply extends_trans; [exact Hm|].
    apply emits_try_except.
    + unfold convert_body. repeat emits_step.
      destruct (_ && _); auto with emits.
    + intros e. by apply emits_convert_except.
  - eapply extends_trans; [exact Hm|]. by apply emits_convert_except.
Qed.

Lemma emits_convert P env webm_path :
  P (EvConvert webm_path) -> (∀ o, P (EvEncode webm_path o)) ->
  (∀ p, P (EvRemove p)) -> emits P (convert_webm_to_mp4 env webm_path).
Proof.
  intros Hc He Hr. unfold convert_webm_to_mp4.
  apply emits_bind; [by apply emits_record|].
  intros _. by apply emits_convert_try.
Qed.

(** ** Validation *)

Lemma error_response_for_error msg fn code :
  body (error_response_for msg fn code) !! "error" = Some (PyText msg).
Proof. apply lookup_insert_eq. Qed.

Lemma error_response_for_file msg fn code :
  body (error_response_for msg fn code) !! "video_file" = Some (PyText fn).
Proof. unfold error_response_for. simpl. by rewrite lookup_insert_ne. Qed.

Lemma error_response_error msg code :
  body (error_response msg code) !! "error" = Some (PyText msg).
Proof. apply lookup_singleton_eq. Qed.

Lemma truthy_false_iff s : PyStr.truthy s = false <-> s = "".
Proof. destruct s; simpl; split; congruence. Qed.

Lemma truthy_true_iff s : PyStr.truthy s = true <-> s ≠ "".
Proof. destruct s; simpl; split; congruence. Qed.

Lemma eqb_empty_false s : s ≠ "" -> String.eqb s "" = false.
Proof. intros H. by apply String.eqb_neq. Qed.

(** A rejected env request is answered with one of the validation
    messages and status 400, in the world as it was. *)
Lemma rejected_response env request w :
  rejected env request ->
  ∃ msg, msg ∈ validation_messages
         ∧ process_video_complete env request w
           = (Ok (error_response msg 400), w).
Proof.
  unfold rejected, prompt, process_video_complete, validation_messages.
  intros [Hnone | [Hprompt | (file & Hfile & Hbad)]].
  - rewrite Hnone. eexists. split; [|done]. by (apply list_elem_of_In; simpl; tauto).
  - destruct (req_video request).
    + rewrite Hprompt. simpl. eexists. split; [|done]. by (apply list_elem_of_In; simpl; tauto).
    + eexists. split; [|done]. by (apply list_elem_of_In; simpl; tauto).
  - rewrite Hfile.
    destruct (negb (PyStr.truthy _)).
    { eexists. split; [|done]. by (apply list_elem_of_In; simpl; tauto). }
    destruct Hbad as [Hempty | Hext].
    + rewrite Hempty. simpl. eexists. split; [|done]. by (apply list_elem_of_In; simpl; tauto).
    + rewrite Hext, andb_false_r.
      destruct (String.eqb _ _); eexists; (split; [|done]);
        by (apply list_elem_of_In; simpl; tauto).
Qed.

(** C5: a request with no media part, an empty prompt, an empty
    filename or a disallowed extension is answered with status 400 and
    an error message, and the world is as it was before: no file is
    written to the upload folder (nor anywhere else) and no call is
    made, the save of the upload included. *)
Theorem validation_fails_closed env request w :
  rejected env request ->
  ∃ resp w',
    process_video_complete env request w = (Ok resp, w')
    ∧ status resp = 400
    ∧ is_Some (body resp !! "error")
    ∧ files w' = files w
    ∧ history w' = history w.
Proof.
  intros Hrej.
  destruct (rejected_response env request w Hrej) as (msg & _ & Heq).
  exists (error_response msg 400), w. repeat split; [done|].
  rewrite error_response_error. eauto.
Qed.

Lemma validation_fails_closed_witness :
  ∃ resp w',
    process_video_complete happy_env
      {| req_video := Some {| up_filename := "notes.txt"; up_size := 10 |};
         req_interview_question := Some "Why?" |}
      (start ∅)
    = (Ok resp, w')
    ∧ status resp = 400
    ∧ is_Some (body resp !! "error")
    ∧ files w' = ∅
    ∧ history w' = [].
Proof.
  apply (validation_fails_closed happy_env
           {| req_video := Some {| up_filename := "notes.txt"; up_size := 10 |};
              req_interview_question := Some "Why?" |} (start ∅)).
  right; right. eexists; split; [reflexivity|]. right. reflexivity.
Defined.

Lemma rejected_or_accepted env request :
  rejected env request ∨ ∃ file question, accepted env request file question.
Proof.
  unfold rejected, accepted.
  destruct (req_video request) as [file|] eqn:Hfile; [|by (left; left)].
  destruct (decide (prompt request = "")) as [Hq|Hq]; [by (left; right; left)|].
  destruct (decide (up_filename file = "")) as [Hn|Hn].
  { left; right; right. eauto. }
  destruct (allowed_file env (up_filename file)) eqn:Hext.
  - right. exists file, (prompt request). done.
  - left; right; right. eauto.
Qed.

(** A request that passes validation is handed to [accept_upload]. *)
Lemma accepted_process env request file question w :
  accepted env request file question ->
  process_video_complete env request w = accept_upload env file question w.
Proof.
  unfold accepted, prompt, process_video_complete.
  intros (Hfile & Hq & Hne & Hname & Hext).
  rewrite Hfile, Hq, Hext.
  apply truthy_true_iff in Hne as ->. simpl.
  rewrite (eqb_empty_false _ Hname).
  apply truthy_true_iff in Hname as ->. done.
Qed.

(** ** Lemmas on the string operations *)

Lemma app_cons a s t : String a s +:+ t = String a (s +:+ t).
Proof. reflexivity. Qed.

Lemma app_empty_l s : "" +:+ s = s.
Proof. reflexivity. Qed.

Lemma substring_all s : String.substring 0 (String.length s) s = s.
Proof. induction s as [|a s IH]; simpl; [done|]. by f_equal. Qed.

Lemma substring_split s n :
  (n <= String.length s)%nat ->
  s = String.substring 0 n s +:+ String.substring n (String.length s - n) s.
Proof.
  revert n. induction s as [|a s IH]; intros [|n] Hn; simpl in *; try lia.
  - done.
  - by rewrite app_empty_l, substring_all.
  - rewrite app_cons. f_equal. apply IH. lia.
Qed.

(** [endswith] holds exactly of the strings that are something
    followed by the suffix. *)
Lemma endswith_true s suffix :
  PyStr.endswith s suffix = true -> ∃ pre, s = pre +:+ suffix.
Proof.
  unfold PyStr.endswith. intros [Hle Heq]%andb_true_iff.
  apply Nat.leb_le in Hle. apply String.eqb_eq in Heq.
  exists (String.substring 0 (String.length s - String.length suffix) s).
  pose proof (substring_split s (String.length s - String.length suffix)) as Hs.
  replace (String.length s - (String.length s - String.length suffix))%nat
    with (String.length suffix) in Hs by lia.
  rewrite Heq in Hs. apply Hs. lia.
Qed.

Lemma after_last_from_none c s acc :
  PyStr.contains c s = false -> PyStr.after_last_from c s acc = acc.
Proof.
  revert acc. induction s as [|a s IH]; intros acc; simpl; [done|].
  intros [Ha Hs]%orb_false_iff. rewrite Ha. by apply IH.
Qed.

Lemma after_last_from_app c s1 s2 acc :
  PyStr.after_last_from c (s1 +:+ String c s2) acc
  = PyStr.after_last_from c s2 s2.
Proof.
  revert acc. induction s1 as [|a s1 IH]; intros acc; simpl.
  - by rewrite Ascii.eqb_refl.
  - destruct (Ascii.eqb a c); apply IH.
Qed.

(** What follows the last [c] of [pre ++ c ++ rest] is [rest] when
    [rest] has no [c]. *)
Lemma after_last_app c pre rest :
  PyStr.contains c rest = false ->
  PyStr.after_last c (pre +:+ String c rest) = rest.
Proof.
  intros H. unfold PyStr.after_last.
  rewrite after_last_from_app. by apply after_last_from_none.
Qed.








(** ** Normalization runs for .webm uploads only *)


Lemma accept_upload_other env file question w :
  PyStr.endswith (str_lower env (secure_filename env (up_filename file))) ".webm" = false ->
  let filename := secure_filename env (up_filename file) in
  let saved := PyStr.path_join UPLOAD_FOLDER filename in
  accept_upload env file question w
  = run_pipeline env filename saved saved question
      (snd (file_save file saved w)).
Proof. intros H. unfold accept_upload. by rewrite H. Qed.

Lemma accept_upload_webm env file question w :
  PyStr.endswith (str_lower env (secure_filename env (up_filename file))) ".webm" = true ->
  let saved := PyStr.path_join UPLOAD_FOLDER (secure_filename env (up_filename file)) in
  accept_upload env file question w
  = (mp4_path <- convert_webm_to_mp4 env saved ;;
     match mp4_path with
     | Some mp4_path =>
         if PyStr.truthy mp4_path then
           run_pipeline env (PyStr.basename mp4_path) mp4_path saved question
         else ret (error_response "Failed to convert .webm file to .mp4" 500)
     | None => ret (error_response "Failed to convert .webm file to .mp4" 500)
     end) (snd (file_save file saved w)).
Proof. intros H. unfold accept_upload. by rewrite H. Qed.


(** ** Cutting the JSON object out of the analysis text *)

Lemma find_from_spec c s base :
  (PyStr.find_from c s base = -1 ∧ ∀ k, String.get k s ≠ Some c)
  ∨ ∃ i, PyStr.find_from c s base = base + Z.of_nat i ∧ first_occurrence c s i.
Proof.
  revert base. induction s as [|a s IH]; intros base; simpl.
  - left. split; [done|]. by intros [|k].
  - destruct (Ascii.eqb a c) eqn:Hac.
    + apply Ascii.eqb_eq in Hac as ->. right. exists 0%nat.
      split; [lia|]. split; [done|]. intros k Hk. lia.
    + apply Ascii.eqb_neq in Hac.
      destruct (IH (base + 1)) as [[Hf Hno] | (i & Hf & Hi & Hbefore)].
      * left. split; [done|]. intros [|k]; simpl; [congruence|apply Hno].
      * right. exists (S i). split; [lia|]. split; [done|].
        intros [|k] Hk; simpl; [congruence|]. apply Hbefore. lia.
Qed.

Lemma rfind_from_spec c s base last :
  (PyStr.rfind_from c s base last = last ∧ ∀ k, String.get k s ≠ Some c)
  ∨ ∃ j, PyStr.rfind_from c s base last = base + Z.of_nat j
         ∧ last_occurrence c s j.
Proof.
  revert base last. induction s as [|a s IH]; intros base last; simpl.
  - left. split; [done|]. by intros [|k].
  - destruct (IH (base + 1) (if Ascii.eqb a c then base else last))
      as [[Hf Hno] | (j & Hf & Hj & Hafter)].
    + destruct (Ascii.eqb a c) eqn:Hac.
      * apply Ascii.eqb_eq in Hac as ->. right. exists 0%nat.
        split; [lia|]. split; [done|].
        intros [|k] Hk; simpl; [lia|apply Hno].
      * apply Ascii.eqb_neq in Hac. left. split; [done|].
        intros [|k]; simpl; [congruence|apply Hno].
    + right. exists (S j). split; [lia|]. split; [done|].
      intros [|k] Hk; simpl; [lia|]. apply Hafter. lia.
Qed.

Lemma first_occurrence_unique c s i i' :
  first_occurrence c s i -> first_occurrence c s i' -> i = i'.
Proof.
  intros [Hi Hbi] [Hi' Hbi'].
  destruct (Nat.lt_trichotomy i i') as [H|[H|H]]; [|done|].
  - by apply Hbi' in H.
  - by apply Hbi in H.
Qed.

Lemma last_occurrence_unique c s j j' :
  last_occurrence c s j -> last_occurrence c s j' -> j = j'.
Proof.
  intros [Hj Haj] [Hj' Haj'].
  destruct (Nat.lt_trichotomy j j') as [H|[H|H]]; [|done|].
  - by apply Haj in H.
  - by apply Haj' in H.
Qed.

(** [find] is the index of the first occurrence, [-1] when there is none. *)
Lemma find_first c s i :
  first_occurrence c s i -> PyStr.find c s = Z.of_nat i.
Proof.
  intros Hi. unfold PyStr.find.
  destruct (find_from_spec c s 0) as [[_ Hno] | (i' & -> & Hi')].
  - destruct Hi as [Hi _]. by apply Hno in Hi.
  - rewrite (first_occurrence_unique _ _ _ _ Hi Hi'). lia.
Qed.

(** [rfind] is the index of the last occurrence, [-1] when there is none. *)
Lemma rfind_last c s j :
  last_occurrence c s j -> PyStr.rfind c s = Z.of_nat j.
Proof.
  intros Hj. unfold PyStr.rfind.
  destruct (rfind_from_spec c s 0 (-1)) as [[_ Hno] | (j' & -> & Hj')].
  - destruct Hj as [Hj _]. by apply Hno in Hj.
  - rewrite (last_occurrence_unique _ _ _ _ Hj Hj'). lia.
Qed.

Lemma slice_between s i j :
  (i <= j)%nat ->
  PyStr.slice s (Z.of_nat i) (Z.of_nat j + 1) = between s i j.
Proof.
  intros Hij. unfold PyStr.slice, between. f_equal; lia.
Qed.

Lemma parse_analysis_braces env s i j :
  first_occurrence "{" s i -> last_occurrence "}" s j -> (i <= j)%nat ->
  parse_analysis env s
  = match json_loads env (between s i j) with
    | Ok parsed => Ok parsed
    | Raise e =>
        match exn_class e with
        | JSONDecodeError => Ok (PyText s)
        | _ => Raise e
        end
    end.
Proof.
  intros Hi Hj Hij. unfold parse_analysis.
  rewrite (find_first _ _ _ Hi), (rfind_last _ _ _ Hj).
  rewrite slice_between by done.
  replace (Z.of_nat i >=? 0) with true by lia.
  replace (Z.of_nat j + 1 >? Z.of_nat i) with true by lia.
  done.
Qed.

Lemma gtb_le_false a b : a <= b -> (a >? b) = false.
Proof. intros H. destruct (Z.gtb_spec a b); [lia|done]. Qed.

Lemma parse_analysis_no_braces env s :
  (¬ ∃ i j, first_occurrence "{" s i ∧ last_occurrence "}" s j ∧ (i <= j)%nat) ->
  parse_analysis env s = Ok (PyText s).
Proof.
  intros Hno. unfold parse_analysis, PyStr.find, PyStr.rfind.
  destruct (find_from_spec "{" s 0) as [[-> _] | (i & -> & Hi)]; [done|].
  destruct (rfind_from_spec "}" s 0 (-1)) as [[-> _] | (j & -> & Hj)].
  - rewrite gtb_le_false by lia. by rewrite andb_false_r.
  - destruct (decide (i <= j)%nat) as [Hij|Hij].
    + destruct Hno. eauto.
    + rewrite gtb_le_false by lia. by rewrite andb_false_r.
Qed.

(** What step 6 does with an analysis text whose first "{" is at [i]
    and whose last "}" is at [j >= i], and with one that has no such
    pair of braces. *)
Lemma synthesize_braces env question transcript audio_text video_text
    (answer : gmap string string) (results : gmap string PyValue) s w i j :
  gemini_configured env = true ->
  analyze_video_with_gemini env question transcript audio_text video_text
    = Ok answer ->
  answer !! "analysis" = Some s ->
  first_occurrence "{" s i -> last_occurrence "}" s j -> (i <= j)%nat ->
  fst (synthesize env question transcript audio_text video_text results w)
  = match json_loads env (between s i j) with
    | Ok parsed => Ok (<["gemini_analysis" := parsed]> results)
    | Raise e =>
        match exn_class e with
        | JSONDecodeError => Ok (<["gemini_analysis" := PyText s]> results)
        | _ => Raise e
        end
    end.
Proof.
  intros Hconf Hcall Hs Hi Hj Hij. unfold synthesize.
  rewrite Hconf. unfold bind, record, lift. simpl. rewrite Hcall, Hs.
  rewrite (parse_analysis_braces env s i j) by done.
  destruct (json_loads env (between s i j)) as [parsed|e]; [done|].
  by destruct (exn_class e).
Qed.

Lemma synthesize_no_braces env question transcript audio_text video_text
    (answer : gmap string string) (results : gmap string PyValue) s w :
  gemini_configured env = true ->
  analyze_video_with_gemini env question transcript audio_text video_text
    = Ok answer ->
  answer !! "analysis" = Some s ->
  (¬ ∃ i j, first_occurrence "{" s i ∧ last_occurrence "}" s j ∧ (i <= j)%nat) ->
  fst (synthesize env question transcript audio_text video_text results w)
  = Ok (<["gemini_analysis" := PyText s]> results).
Proof.
  intros Hconf Hcall Hs Hno. unfold synthesize.
  rewrite Hconf. unfold bind, record, lift. simpl. rewrite Hcall, Hs.
  by rewrite parse_analysis_no_braces.
Qed.

Lemma get_lt s k c : String.get k s = Some c -> (k < String.length s)%nat.
Proof.
  revert k. induction s as [|a s IH]; intros k; simpl; [done|].
  destruct k as [|k]; [lia|]. intros H%IH. lia.
Qed.

(** C6 fails on the code.  The analysis service answers with the text
    of a JSON object whose member is an integer of 4400 digits.  The
    text starts with its first "{" and ends with its last "}", and it
    is valid JSON, but [json.loads] refuses it with a [ValueError],
    which line 229 does not catch.  The stored analysis field is then
    neither the parse nor the raw text: the run ends in the
    unhandled-fault clause and the response is a 500 without a
    [gemini_analysis] field. *)
Theorem unparsed_analysis_aborts :
  let s := big_integer_json 4400 in
  let run := process_video_complete big_integer_env mp4_request (start ∅) in
  first_occurrence "{" s 0
  ∧ last_occurrence "}" s 4406
  ∧ between s 0 4406 = s
  ∧ (∃ e, json_loads big_integer_env s = Raise e ∧ exn_class e ≠ JSONDecodeError)
  ∧ ∃ resp msg,
      fst run = Ok resp
      ∧ status resp = 500
      ∧ body resp !! "error" = Some (PyText ("Error processing video: " +:+ msg))
      ∧ body resp !! "gemini_analysis" = None.
Proof.
  intros s run. split; [|split; [|split; [|split]]].
  - split; [reflexivity|]. intros k Hk. lia.
  - split; [by vm_compute|]. intros k Hk Hget%get_lt.
    assert (String.length s = 4407%nat) as Hlen by (by vm_compute).
    lia.
  - by vm_compute.
  - eexists. split; [by vm_compute|]. simpl. discriminate.
  - subst run. vm_compute. eexists _, _. repeat split; reflexivity.
Qed.

(** ** The text blocks of the synthesis prompt *)

(** [key in d] says that [d] has an entry with that key. *)
Lemma has_key_spec key (m : Metrics) :
  has_key key m = true <-> ∃ value, (key, value) ∈ m.
Proof.
  unfold has_key. rewrite existsb_exists. split.
  - intros ([k value] & Hin & Heq). simpl in Heq.
    apply String.eqb_eq in Heq as ->. exists value. by apply list_elem_of_In.
  - intros [value Hin]. exists (key, value). split.
    + by apply list_elem_of_In.
    + apply String.eqb_refl.
Qed.

Lemma has_key_error (m : Metrics) :
  has_key "error" m = false <-> ¬ error_tagged m.
Proof.
  unfold error_tagged. rewrite <- has_key_spec. by destruct (has_key "error" m).
Qed.


Lemma app_assoc_str (a b c : string) : (a +:+ b) +:+ c = a +:+ b +:+ c.
Proof. induction a as [|x a IH]; [done|]. rewrite !app_cons. by f_equal. Qed.

Lemma app_empty_r (a : string) : a +:+ "" = a.
Proof. induction a as [|x a IH]; [done|]. rewrite app_cons. by f_equal. Qed.

Lemma audio_loop env m acc :
  fold_left (audio_line env) m acc = acc +:+ join_lines (map (plain_line env) m).
Proof.
  revert acc. induction m as [|kv m IH]; intros acc; simpl.
  - by rewrite app_empty_r.
  - rewrite IH. unfold audio_line, plain_line. by rewrite !app_assoc_str.
Qed.

Lemma emotion_loop env entries acc :
  fold_left (emotion_line env) entries acc
  = acc +:+ join_lines
      (map (fun ec => "  - " +:+ fst ec +:+ ": " +:+ py_str env (snd ec) +:+ nl)
         entries).
Proof.
  revert acc. induction entries as [|ec entries IH]; intros acc; simpl.
  - by rewrite app_empty_r.
  - rewrite IH. unfold emotion_line. by rewrite !app_assoc_str.
Qed.

Lemma video_loop env m acc :
  emotions_are_mappings m ->
  fold_left (video_line env) m (Ok acc)
  = Ok (acc +:+ join_lines (map (video_block env) m)).
Proof.
  intros Hm. revert acc.
  induction Hm as [|kv m Hkv Hm IH]; intros acc; simpl.
  - by rewrite app_empty_r.
  - unfold video_block at 1.
    destruct (String.eqb (fst kv) "emotion_distribution") eqn:Hkey.
    + apply String.eqb_eq in Hkey. destruct (Hkv Hkey) as [entries ->].
      simpl. rewrite emotion_loop, IH. unfold nested_block.
      by rewrite !app_assoc_str.
    + rewrite IH. unfold plain_line. by rewrite !app_assoc_str.
Qed.

(** A video loop that meets an [emotion_distribution] that is no
    mapping raises, whatever follows. *)
Lemma video_loop_raise env m e : fold_left (video_line env) m (Raise e) = Raise e.
Proof. induction m as [|kv m IH]; simpl; [done|apply IH]. Qed.

(** C8, as stated, fails: an audio metric whose value is a nested
    mapping is rendered on one line, with the text [str()] gives for
    the mapping, not as a label followed by an indented sub-list. *)
Lemma nested_audio_metric_on_one_line :
  format_audio_metrics happy_env (Some nested_audio_metrics)
  = "Audio Analysis:" +:+ nl +:+ "- Pitch Stats: {'mean': 180, 'std': 25}" +:+ nl
  ∧ format_audio_metrics happy_env (Some nested_audio_metrics)
    ≠ "Audio Analysis:" +:+ nl
      +:+ join_lines (map (rule_block happy_env) nested_audio_metrics).
Proof. split; [reflexivity|]. vm_compute. discriminate. Qed.

(** One step of [str.title] after [replace('_', ' ')], on ASCII text:
    the character it puts out is the one the rule gives, and the next
    character is inside a word exactly when this one is a letter. *)
Lemma title_from_step prev a s :
  PyStr.title_from (match prev with Some p => is_letter p | None => false end)
    (PyStr.replace "_" " " (String a s))
  = String (label_char prev a)
      (PyStr.title_from (is_letter a) (PyStr.replace "_" " " s)).
Proof.
  unfold label_char. simpl PyStr.replace.
  destruct prev as [p|]; [destruct (is_letter p)|];
    destruct a as [[|] [|] [|] [|] [|] [|] [|] [|]]; reflexivity.
Qed.

Lemma title_from_spec key prev :
  String.length
    (PyStr.title_from (match prev with Some p => is_letter p | None => false end)
       (PyStr.replace "_" " " key))
  = String.length key
  ∧ ∀ i c, String.get i key = Some c ->
           String.get i
             (PyStr.title_from
                (match prev with Some p => is_letter p | None => false end)
                (PyStr.replace "_" " " key))
           = Some (label_char (match i with
                               | O => prev
                               | S j => String.get j key
                               end) c).
Proof.
  revert prev. induction key as [|a key IH]; intros prev; [done|].
  rewrite title_from_step. destruct (IH (Some a)) as [Hlen Hget].
  split; [simpl; by rewrite Hlen|].
  intros [|i] c Hc; simpl in Hc.
  - by injection Hc as ->.
  - simpl. rewrite (Hget i c Hc). by destruct i.
Qed.

(** The label of an ASCII key is the key, title-cased, with its
    underscores replaced by spaces. *)
Lemma label_title_cased env key :
  PyStr.is_ascii key = true -> title_cased_label key (label env key).
Proof.
  intros Hascii. unfold label, str_title.
  assert (PyStr.is_ascii (PyStr.replace "_" " " key) = true) as ->.
  { induction key as [|a key IH]; [done|]. simpl in *.
    apply andb_true_iff in Hascii as [Ha Hkey]. rewrite (IH Hkey), andb_true_r.
    by destruct (Ascii.eqb a "_"). }
  apply (title_from_spec key None).
Qed.

(** C8, amended: every metric key is rendered as a label, which is
    the key with its underscores replaced by spaces, title-cased by
    [str.title]; for a key of ASCII characters that is: as many
    characters as the key, a space for every underscore, a letter in
    upper case where it starts the key or follows a character that is
    no letter and in lower case where it follows a letter, and every
    other character as it is.  Every audio metric is one line, label
    and value text.  A video metric is a label followed by one
    indented "key: value" line per entry when its key is
    [emotion_distribution] (whose value is a mapping), and one line,
    label and value text, otherwise. *)
Theorem metric_blocks env (audio video : Metrics) :
  audio ≠ [] -> video ≠ [] -> ¬ error_tagged video ->
  emotions_are_mappings video ->
  format_audio_metrics env (Some audio)
  = "Audio Analysis:" +:+ nl +:+ join_lines (map (plain_line env) audio)
  ∧ format_video_metrics env (Some video)
    = Ok ("Video Analysis:" +:+ nl +:+ join_lines (map (video_block env) video))
  ∧ ∀ key, PyStr.is_ascii key = true -> title_cased_label key (label env key).
Proof.
  intros Ha Hv Herr%has_key_error Hmaps. split; [|split].
  - unfold format_audio_metrics. destruct audio; [done|]. simpl truthy_metrics.
    cbv iota. simpl default. rewrite audio_loop. by rewrite app_assoc_str.
  - unfold format_video_metrics, usable_video_metrics.
    destruct video as [|kv video]; [done|]. simpl truthy_metrics.
    simpl default. rewrite Herr. simpl andb. cbv iota.
    rewrite video_loop by done. by rewrite app_assoc_str.
  - intros key. apply label_title_cased.
Qed.

Lemma metric_blocks_witness :
  format_audio_metrics happy_env (Some nested_audio_metrics)
  = "Audio Analysis:" +:+ nl
    +:+ join_lines (map (plain_line happy_env) nested_audio_metrics)
  ∧ format_video_metrics happy_env (Some sample_video_metrics)
    = Ok ("Video Analysis:" +:+ nl
          +:+ join_lines (map (video_block happy_env) sample_video_metrics))
  ∧ title_cased_label "eye_contact_ratio" (label happy_env "eye_contact_ratio").
Proof.
  destruct (metric_blocks happy_env nested_audio_metrics sample_video_metrics)
    as (Haudio & Hvideo & Hlabel); try done.
  - by apply has_key_error.
  - repeat constructor; simpl; try done; eauto.
  - split; [exact Haudio|]. split; [exact Hvideo|]. by apply Hlabel.
Defined.

(** The rule on a key with a digit and mixed case: the letter after
    the digit starts a word. *)
Example label_text :
  label happy_env "f0_mEAN_a1b" = "F0 Mean A1B"
  ∧ label_char None "f" = "F"%char
  ∧ label_char (Some "f"%char) "0" = "0"%char
  ∧ label_char (Some "0"%char) "_" = " "%char
  ∧ label_char (Some "E"%char) "A" = "a"%char
  ∧ label_char (Some "1"%char) "b" = "B"%char.
Proof. repeat split. Qed.

Example video_block_text :
  format_video_metrics happy_env (Some sample_video_metrics)
  = Ok ("Video Analysis:" +:+ nl
        +:+ "- Emotion Distribution:" +:+ nl
        +:+ "  - happy: 3" +:+ nl
        +:+ "  - neutral: 7" +:+ nl
        +:+ "- Eye Contact Ratio: 0.5" +:+ nl).
Proof. reflexivity. Qed.

(** ** What a run of the stages answers and leaves on disk *)

Lemma cleanup_eq env p w :
  cleanup env p w
  = (Ok tt, {| files := after_cleanup env p (files w);
               history := history w ++ cleanup_log p (files w) |}).
Proof.
  unfold cleanup, after_cleanup, cleanup_log, bind, os_path_exists, when,
    remove_quietly, try_except, os_remove, bind, record, ret.
  simpl. destruct w as [fs h]. simpl.
  destruct (fs !! p) as [n|] eqn:Hp; simpl.
  - rewrite Hp. by destruct (remove_fails env p).
  - by rewrite app_nil_r.
Qed.

Lemma after_cleanup_gone env p fs :
  remove_fails env p = false -> after_cleanup env p fs !! p = None.
Proof.
  intros Hrm. unfold after_cleanup. rewrite Hrm. simpl. rewrite andb_true_r.
  case_bool_decide as Hp.
  - apply lookup_delete_eq.
  - by apply eq_None_not_Some.
Qed.

Lemma after_cleanup_other env p q fs :
  p ≠ q -> after_cleanup env p fs !! q = fs !! q.
Proof.
  intros Hne. unfold after_cleanup.
  destruct (_ && _); [by apply lookup_delete_ne|done].
Qed.

Lemma after_cleanup_absent env p q fs :
  fs !! q = None -> after_cleanup env p fs !! q = None.
Proof.
  intros Hq. unfold after_cleanup. destruct (_ && _); [|done].
  rewrite lookup_delete. by case_decide.
Qed.

Lemma synthesize_eq env q t a v results w :
  ∃ h, synthesize env q t a v results w
       = (synthesized env q t a v results,
          {| files := files w; history := h |}).
Proof.
  unfold synthesize, synthesized, bind, record, lift, ret.
  destruct w as [fs h0]. simpl.
  destruct (gemini_configured env); [|eauto].
  destruct (analyze_video_with_gemini env q t a v) as [g|e]; [|eauto].
  destruct (g !! "analysis") as [s|]; [|eauto].
  destruct (parse_analysis env s); eauto.
Qed.

Lemma analyse_and_finish_eq env fp orig q t results w :
  ∃ h, analyse_and_finish env fp orig q t results w
       = match analysed env fp q t results with
         | Ok r =>
             (Ok {| body := <["status" := PyText "complete"]> r; status := 200 |},
              {| files :=
                   (let fs := after_cleanup env (OUTPUT_AUDIO_FILENAME env) (files w) in
                    if bool_decide (orig ≠ fp)
                    then after_cleanup env orig fs else fs);
                 history := h |})
         | Raise e => (Raise e, {| files := files w; history := h |})
         end.
Proof.
  unfold analyse_and_finish, analysed, bind, record, lift. simpl.
  destruct (analyze_audio_features env _ t) as [a|e]; [|eauto].
  destruct (analyze_video_features env fp) as [v|e]; [|eauto].
  destruct (format_video_metrics env v) as [vs|e]; [|eauto].
  match goal with
  | |- context [synthesize ?e ?q ?t ?a ?v ?r ?w] =>
      destruct (synthesize_eq e q t a v r w) as [h ->]
  end.
  destruct (synthesized _ _ _ _ _ _) as [r|e]; [|eauto].
  rewrite cleanup_eq. simpl.
  case_bool_decide; [rewrite cleanup_eq|]; simpl; eauto.
Qed.

(** The [try] statement answers [response_of] the way out and leaves
    [files_after] it on disk; it never raises. *)
Theorem run_pipeline_summary env fn fp orig q w :
  let fs := apply_effect (OUTPUT_AUDIO_FILENAME env)
              (snd (extract_audio env fp (OUTPUT_AUDIO_FILENAME env))) (files w) in
  let exit := exit_of env fn fp q fs in
  ∃ h, run_pipeline env fn fp orig q w
       = (Ok (response_of fn exit),
          {| files := files_after env fp orig exit fs; history := h |}).
Proof.
  intros fs exit. subst exit. unfold exit_of.
  unfold run_pipeline, try_except, stages, unhandled_fault.
  unfold bind at 1 2 3. unfold record, touch, lift. simpl. fold fs.
  destruct (extract_audio env fp (OUTPUT_AUDIO_FILENAME env)).1
    as [[|]|e]; simpl.
  - unfold bind at 1 2. simpl.
    destruct (transcribe_audio env (OUTPUT_AUDIO_FILENAME env)) as [[t|]|e];
      simpl.
    + match goal with
      | |- context [analyse_and_finish ?e ?fp ?o ?q ?t ?r ?w] =>
          destruct (analyse_and_finish_eq e fp o q t r w) as [h ->]
      end.
      destruct (analysed _ _ _ _ _) as [r|e]; simpl; [eauto|].
      unfold bind. rewrite cleanup_eq. simpl.
      case_bool_decide; [rewrite cleanup_eq|]; simpl; eauto.
    + unfold bind, os_path_exists, when, os_remove, bind, record, ret. simpl.
      destruct (fs !! OUTPUT_AUDIO_FILENAME env) as [n|] eqn:Hn; simpl.
      * rewrite Hn. destruct (remove_fails env _) eqn:Hrm; simpl; [|eauto].
        rewrite cleanup_eq. simpl.
        case_bool_decide; [rewrite cleanup_eq|]; simpl; eauto.
      * rewrite delete_id by done. eauto.
    + unfold bind. rewrite cleanup_eq. simpl.
      case_bool_decide; [rewrite cleanup_eq|]; simpl; eauto.
  - eauto.
  - unfold bind. rewrite cleanup_eq. simpl.
    case_bool_decide; [rewrite cleanup_eq|]; simpl; eauto.
Qed.

(** ** The converter *)

Lemma apply_effect_other p q eff (fs : gmap string N) :
  p ≠ q -> apply_effect p eff fs !! q = fs !! q.
Proof.
  intros Hne. destruct eff; simpl; [done| |].
  - by apply lookup_insert_ne.
  - by apply lookup_delete_ne.
Qed.

(** [mkstemp] returns a path that was free, made of one of the drawn
    names, and creates it empty. *)
Lemma mkstemp_ok env suffix dir w p w' :
  mkstemp env suffix dir w = (Ok p, w') ->
  files w !! p = None
  ∧ w' = {| files := <[p := 0%N]> (files w); history := history w |}
  ∧ ∃ n, n ∈ tmp_names env ∧ p = tmp_path (abspath env dir) suffix n.
Proof.
  unfold mkstemp. destruct (List.find _ _) as [n|] eqn:Hfind; [|done].
  intros [= <- <-]. apply List.find_some in Hfind as [Hin Hfree].
  apply negb_true_iff, bool_decide_eq_false in Hfree.
  split; [by apply eq_None_not_Some|]. split; [done|].
  exists n. split; [by apply list_elem_of_In|done].
Qed.

Lemma mkstemp_raise env suffix dir w e w' :
  mkstemp env suffix dir w = (Raise e, w') -> w' = w ∧ exn_class e = OSError.
Proof.
  unfold mkstemp. simpl. destruct (List.find _ _); [done|]. by intros [= <- <-].
Qed.

(** [if os.path.exists(p): os.unlink(p)], in closed form. *)
Lemma unlink_if_exists_eq env p w : unlink_if_exists env p w = unlinked env p w.
Proof.
  unfold unlink_if_exists, unlinked, bind, os_path_exists, when, os_remove,
    bind, record, ret.
  destruct w as [fs h]. simpl.
  destruct (fs !! p) as [n|] eqn:Hp; simpl; [|done].
  rewrite Hp. by destruct (remove_fails env p).
Qed.

Lemma unlinked_other env p q w :
  p ≠ q -> files (snd (unlinked env p w)) !! q = files w !! q.
Proof.
  intros Hne. unfold unlinked.
  destruct (bool_decide _); [|done].
  destruct (remove_fails env p); simpl; [done|]. by apply lookup_delete_ne.
Qed.

(** An [except] clause of the converter once the output path is
    bound: the text to print is built, then the output is deleted if
    it exists. *)
Lemma convert_except_some env p e w :
  convert_except env (Some p) e w
  = match exn_class e with
    | CalledProcessError stderr =>
        match ffmpeg_error_text env stderr e with
        | Raise e' => (Raise e', w)
        | Ok _ => match unlinked env p w with
                  | (Ok _, w') => (Ok None, w')
                  | (Raise e', w') => (Raise e', w')
                  end
        end
    | _ => match unlinked env p w with
           | (Ok _, w') => (Ok None, w')
           | (Raise e', w') => (Raise e', w')
           end
    end.
Proof.
  unfold convert_except.
  destruct (exn_class e) as [stderr| | |]; unfold bind, lift; simpl;
    try destruct (ffmpeg_error_text env stderr e); try done;
    rewrite unlink_if_exists_eq; by destruct (unlinked env p w) as [[[]|] ?].
Qed.

(** The clause that catches the [OSError] of [mkstemp] finds no
    output path bound and returns [None]. *)
Lemma convert_except_unbound env e w :
  exn_class e = OSError -> convert_except env None e w = (Ok None, w).
Proof. intros He. unfold convert_except. by rewrite He. Qed.

(** No [except] clause of the converter returns a path. *)
Lemma convert_except_none env o e w p w' :
  convert_except env o e w ≠ (Ok (Some p), w').
Proof.
  destruct o as [q|].
  - rewrite convert_except_some.
    destruct (exn_class e) as [stderr| | |];
      try destruct (ffmpeg_error_text env stderr e); try done;
      by destruct (unlinked env q w) as [[[]|] ?].
  - unfold convert_except, bind, lift, raise, ret.
    destruct (exn_class e) as [stderr| | |]; try done.
    by destruct (ffmpeg_error_text env stderr e).
Qed.

(** A conversion that succeeds returns a path that was free, now
    holds a non-empty file, and is the only path that changed. *)
Lemma convert_success env webm_path w mp4 w' :
  convert_webm_to_mp4 env webm_path w = (Ok (Some mp4), w') ->
  files w !! mp4 = None
  ∧ (∃ size, files w' !! mp4 = Some size ∧ (0 < size)%N)
  ∧ (∀ p, p ≠ mp4 -> files w' !! p = files w !! p)
  ∧ ∃ n, n ∈ tmp_names env ∧ mp4 = tmp_path (abspath env UPLOAD_FOLDER) ".mp4" n.
Proof.
  unfold convert_webm_to_mp4, bind at 1, record. simpl. unfold convert_try.
  destruct (mkstemp env ".mp4" UPLOAD_FOLDER _) as [[p|e] w1] eqn:Hmk;
    [|intros H; by apply convert_except_none in H].
  apply mkstemp_ok in Hmk as (Hfree & -> & n & Hn & ->). simpl in Hfree.
  unfold try_except, convert_body, bind, record, touch, lift,
    os_path_exists, os_path_getsize, ret. simpl.
  destruct (run_ffmpeg env webm_path _) as [[[]|e] eff]; simpl;
    [|intros H; by apply convert_except_none in H].
  destruct (bool_decide _ && _) eqn:Hcheck; [|done].
  intros [= <- <-]. simpl.
  apply andb_true_iff in Hcheck as [Hthere Hsize].
  apply bool_decide_eq_true in Hthere as [size Hsz].
  rewrite Hsz in Hsize. simpl in Hsize. apply N.ltb_lt in Hsize.
  split; [done|]. split; [eauto|]. split; [|eauto].
  intros q Hq. rewrite apply_effect_other by done.
  by rewrite lookup_insert_ne.
Qed.

(** The [except] clauses touch the allocated path only. *)
Lemma convert_except_frame env o e w r w' p :
  convert_except env o e w = (r, w') ->
  (∀ q, o = Some q -> q ≠ p) ->
  files w' !! p = files w !! p.
Proof.
  intros H Hq. destruct o as [q|].
  - rewrite convert_except_some in H.
    pose proof (unlinked_other env q p w (Hq q eq_refl)) as Hother.
    destruct (exn_class e) as [stderr| | |];
      try (destruct (ffmpeg_error_text env stderr e);
           [|by injection H as <- <-]);
      destruct (unlinked env q w) as [[[]|] w2]; by injection H as <- <-.
  - unfold convert_except, bind, lift, raise, ret in H.
    destruct (exn_class e) as [stderr| | |];
      try destruct (ffmpeg_error_text env stderr e);
      by injection H as <- <-.
Qed.

(** Whatever its outcome, the converter touches no path but the ones
    [mkstemp] may allocate. *)
Lemma convert_frame env webm_path w r w' p :
  convert_webm_to_mp4 env webm_path w = (r, w') ->
  (∀ n, n ∈ tmp_names env -> p ≠ tmp_path (abspath env UPLOAD_FOLDER) ".mp4" n) ->
  files w' !! p = files w !! p.
Proof.
  unfold convert_webm_to_mp4, bind at 1, record. simpl. unfold convert_try.
  intros H Hp.
  destruct (mkstemp env ".mp4" UPLOAD_FOLDER _) as [[mp4|e] w1] eqn:Hmk.
  - apply mkstemp_ok in Hmk as (_ & -> & n & Hn & ->). specialize (Hp n Hn).
    unfold try_except, convert_body, bind, record, touch, lift,
      os_path_exists, os_path_getsize, ret in H. simpl in H.
    destruct (run_ffmpeg env webm_path _) as [[[]|e] eff]; simpl in H.
    + destruct (_ && _); injection H as <- <-; simpl;
        rewrite apply_effect_other by done; by apply lookup_insert_ne.
    + apply convert_except_frame with (p := p) in H;
        [|by intros q [= <-]].
      rewrite H. simpl. rewrite apply_effect_other by done.
      by apply lookup_insert_ne.
  - apply mkstemp_raise in Hmk as [-> _].
    apply convert_except_frame with (p := p) in H; [done|done].
Qed.

(** When the encoder exits with a non-zero status, the converter
    deletes the output it allocated and returns [None]. *)
Lemma convert_encoder_failure env webm_path w mp4 w1 e :
  mkstemp env ".mp4" UPLOAD_FOLDER
    {| files := files w; history := history w ++ [EvConvert webm_path] |}
    = (Ok mp4, w1) ->
  fst (run_ffmpeg env webm_path mp4) = Raise e ->
  error_text_builds env e ->
  remove_fails env mp4 = false ->
  ∃ w', convert_webm_to_mp4 env webm_path w = (Ok None, w')
        ∧ files w' !! mp4 = None.
Proof.
  intros Hmk Hrun Htext Hrm.
  unfold convert_webm_to_mp4, bind at 1, record. simpl. unfold convert_try.
  rewrite Hmk. apply mkstemp_ok in Hmk as (_ & -> & _).
  unfold try_except, convert_body, bind, record, touch, lift. simpl.
  rewrite Hrun, convert_except_some. unfold error_text_builds in Htext.
  assert (∀ w0, ∃ w', unlinked env mp4 w0 = (Ok tt, w') ∧ files w' !! mp4 = None)
    as Hgone.
  { intros w0. unfold unlinked. rewrite Hrm. case_bool_decide as Hthere.
    - eexists. split; [done|]. apply lookup_delete_eq.
    - eexists. split; [done|]. by apply eq_None_not_Some. }
  match goal with
  | |- context [unlinked env mp4 ?w0] => destruct (Hgone w0) as (w' & -> & Hnone)
  end.
  destruct (exn_class e) as [stderr| | |]; [destruct Htext as [text ->]| | |];
    eauto.
Qed.

(** When the encoder exits with status 0 and leaves the allocated
    output empty, the converter returns [None] and the empty file
    stays. *)
Lemma convert_empty_output env webm_path w mp4 w1 :
  mkstemp env ".mp4" UPLOAD_FOLDER
    {| files := files w; history := history w ++ [EvConvert webm_path] |}
    = (Ok mp4, w1) ->
  run_ffmpeg env webm_path mp4 = (Ok tt, Untouched) ->
  ∃ w', convert_webm_to_mp4 env webm_path w = (Ok None, w')
        ∧ files w' !! mp4 = Some 0%N.
Proof.
  intros Hmk Hrun.
  unfold convert_webm_to_mp4, bind at 1, record. simpl. unfold convert_try.
  rewrite Hmk. apply mkstemp_ok in Hmk as (_ & -> & _).
  unfold try_except, convert_body, bind, record, touch, lift,
    os_path_exists, os_path_getsize, ret. simpl.
  rewrite Hrun. simpl. rewrite lookup_insert_eq. simpl.
  eexists. split; [done|]. simpl.
  apply lookup_insert_eq.
Qed.

(** C3, the code at the failing input: the encoder exits with status
    0 without writing its output; the converter returns [None] and
    the zero-byte file that [mkstemp] created is still on disk. *)
Theorem zero_byte_output_kept :
  let r := convert_webm_to_mp4 silent_encoder_env "uploads/answer.webm"
             (start {[ "uploads/answer.webm" := 4096%N ]}) in
  fst r = Ok None
  ∧ files (snd r) !! "/srv/app/uploads/tmpk3x9w2ab.mp4" = Some 0%N
  ∧ EvRemove "/srv/app/uploads/tmpk3x9w2ab.mp4" ∉ history (snd r).
Proof.
  split; [reflexivity|]. split; [reflexivity|].
  vm_compute. intros H.
  repeat (apply elem_of_cons in H as [H|H]; [discriminate H|]).
  by apply elem_of_nil in H.
Qed.

(** The sibling path: when the encoder exits with a non-zero status,
    the partial output is deleted. *)
Example partial_output_deleted :
  let r := convert_webm_to_mp4 broken_encoder_env "uploads/answer.webm"
             (start {[ "uploads/answer.webm" := 4096%N ]}) in
  fst r = Ok None ∧ files (snd r) !! "/srv/app/uploads/tmpk3x9w2ab.mp4" = None.
Proof. split; reflexivity. Qed.

(** ** Error responses *)

(** Whenever the converter returns [None], the answer is the bare
    conversion error: the body has no [video_file] field. *)
Lemma conversion_failure_response env file question w w1 :
  PyStr.endswith (str_lower env (secure_filename env (up_filename file))) ".webm" = true ->
  convert_webm_to_mp4 env
    (PyStr.path_join UPLOAD_FOLDER (secure_filename env (up_filename file)))
    (snd (file_save file
            (PyStr.path_join UPLOAD_FOLDER (secure_filename env (up_filename file))) w))
    = (Ok None, w1) ->
  accept_upload env file question w
  = (Ok (error_response "Failed to convert .webm file to .mp4" 500), w1)
  ∧ body (error_response "Failed to convert .webm file to .mp4" 500) !! "video_file"
    = None.
Proof.
  intros Hwebm Hconv. split; [|done].
  rewrite accept_upload_webm by done. unfold bind. by rewrite Hconv.
Qed.

(** C4, the code at the failing input: a .webm upload whose
    conversion fails is answered with status 500 and a body that has
    the error message but no [video_file] field, although the
    sanitized filename is known by then. *)
Theorem conversion_error_without_filename :
  let r := process_video_complete broken_encoder_env webm_request (start ∅) in
  ∃ resp, fst r = Ok resp
          ∧ status resp = 500
          ∧ body resp !! "error"
            = Some (PyText "Failed to convert .webm file to .mp4")
          ∧ body resp !! "video_file" = None
          ∧ history (snd r)
            = [EvSave "uploads/answer.webm"; EvConvert "uploads/answer.webm";
               EvEncode "uploads/answer.webm" "/srv/app/uploads/tmpk3x9w2ab.mp4";
               EvRemove "/srv/app/uploads/tmpk3x9w2ab.mp4"].
Proof. eexists. repeat split; reflexivity. Qed.

(** Every way out of the [try] statement other than completion names
    the file in its error response. *)
Lemma stage_errors_name_file fn exit :
  (∀ results, exit ≠ Completed results) ->
  body (response_of fn exit) !! "video_file" = Some (PyText fn)
  ∧ is_Some (body (response_of fn exit) !! "error")
  ∧ status (response_of fn exit) = 500.
Proof.
  intros Hexit. destruct exit as [r| | |e]; [by destruct (Hexit r)|..];
    simpl; repeat split; try done;
    by (rewrite lookup_insert_ne by done; rewrite lookup_insert_eq).
Qed.

(** ** Runs of the whole handler *)

Lemma accept_upload_cases env file question w r w' :
  accept_upload env file question w = (r, w') ->
  let filename := secure_filename env (up_filename file) in
  let saved := PyStr.path_join UPLOAD_FOLDER filename in
  let w1 := snd (file_save file saved w) in
  (PyStr.endswith (str_lower env filename) ".webm" = false
   ∧ run_pipeline env filename saved saved question w1 = (r, w'))
  ∨ (PyStr.endswith (str_lower env filename) ".webm" = true
     ∧ ((∃ e, convert_webm_to_mp4 env saved w1 = (Raise e, w') ∧ r = Raise e)
        ∨ (∃ o, convert_webm_to_mp4 env saved w1 = (Ok o, w')
                ∧ (o = None ∨ o = Some "")
                ∧ r = Ok (error_response "Failed to convert .webm file to .mp4" 500))
        ∨ (∃ mp4 w2, convert_webm_to_mp4 env saved w1 = (Ok (Some mp4), w2)
                     ∧ mp4 ≠ ""
                     ∧ run_pipeline env (PyStr.basename mp4) mp4 saved question w2
                       = (r, w')))).
Proof.
  intros Hrun filename saved w1.
  destruct (PyStr.endswith (str_lower env filename) ".webm") eqn:Hw.
  - right. split; [done|]. rewrite accept_upload_webm in Hrun by done.
    fold filename saved w1 in Hrun. unfold bind in Hrun.
    destruct (convert_webm_to_mp4 env saved w1) as [[[mp4|]|e] w2].
    + destruct mp4 as [|c mp4]; simpl in Hrun.
      * injection Hrun as <- <-. right; left. eauto.
      * right; right. eauto.
    + injection Hrun as <- <-. right; left. eauto.
    + injection Hrun as <- <-. left. eauto.
  - left. split; [done|]. by rewrite accept_upload_other in Hrun.
Qed.

(** After the [try] statement the audio artifact is gone, unless the
    way out is the extraction failure or its deletion was refused. *)
Lemma run_pipeline_audio env fn fp orig q w r w' :
  run_pipeline env fn fp orig q w = (r, w') ->
  remove_fails env (OUTPUT_AUDIO_FILENAME env) = false ->
  ∃ resp, r = Ok resp
          ∧ ((extraction_failed resp ∧ status resp = 500)
             ∨ files w' !! OUTPUT_AUDIO_FILENAME env = None).
Proof.
  intros Hrun Hrm.
  destruct (run_pipeline_summary env fn fp orig q w) as [h Heq].
  rewrite Heq in Hrun. injection Hrun as <- <-.
  eexists. split; [done|]. simpl.
  destruct (exit_of _ _ _ _ _) as [results| | |e]; simpl.
  - right. case_bool_decide; [apply after_cleanup_absent|];
      by apply after_cleanup_gone.
  - left. split; [|done]. apply error_response_for_error.
  - right. apply lookup_delete_eq.
  - right. case_bool_decide; [apply after_cleanup_absent|];
      by apply after_cleanup_gone.
Qed.

(** ** The audio artifact *)

(** C2, as stated, fails: on the success path a deletion that the
    operating system refuses is ignored (lines 240-244), and the audio
    artifact is still on disk when the 200 response is returned. *)
Lemma audio_artifact_survives_refused_deletion :
  let r := process_video_complete locked_audio_env mp4_request (start ∅) in
  (∃ resp, fst r = Ok resp ∧ status resp = 200)
  ∧ files (snd r) !! OUTPUT_AUDIO_FILENAME locked_audio_env = Some 512%N.
Proof. split; [eexists; split; reflexivity|reflexivity]. Qed.

(** The extraction-failure exit (lines 151-157) returns without any
    clean-up: what the extractor left at the audio path stays. *)
Example extraction_failure_leaves_audio :
  let r := process_video_complete partial_audio_env mp4_request (start ∅) in
  (∃ resp, fst r = Ok resp ∧ extraction_failed resp ∧ status resp = 500)
  ∧ files (snd r) !! OUTPUT_AUDIO_FILENAME partial_audio_env = Some 64%N.
Proof. split; [eexists; repeat split; reflexivity|reflexivity]. Qed.

(** The responses of the exits that do not clean up are none of the
    three kinds that do. *)
Lemma not_a_cleaning_exit resp msg :
  body resp !! "error" = Some (PyText msg) ->
  status resp ≠ 200 ->
  msg ∈ "Audio extraction failed" :: "Failed to convert .webm file to .mp4"
        :: validation_messages ->
  ¬ (status resp = 200 ∨ transcription_failed resp
     ∨ unhandled_fault_response resp).
Proof.
  unfold transcription_failed, unhandled_fault_response, validation_messages.
  intros Hbody Hst Hmsg [H200 | [Ht | [m Hm]]]; [done| |].
  - rewrite Hbody in Ht. injection Ht as ->.
    apply list_elem_of_In in Hmsg. simpl in Hmsg.
    repeat (destruct Hmsg as [Hmsg|Hmsg]; [discriminate Hmsg|]). done.
  - rewrite Hbody in Hm. injection Hm as ->.
    apply list_elem_of_In in Hmsg. simpl in Hmsg.
    repeat (destruct Hmsg as [Hmsg|Hmsg]; [discriminate Hmsg|]). done.
Qed.

(** With nothing at the audio path before the stages run and an
    extractor that fails clean, no way out of the [try] statement
    leaves the audio artifact behind. *)
Lemma run_pipeline_audio_absent env fn fp orig q w r w' :
  run_pipeline env fn fp orig q w = (r, w') ->
  remove_fails env (OUTPUT_AUDIO_FILENAME env) = false ->
  extractor_fails_clean env ->
  files w !! OUTPUT_AUDIO_FILENAME env = None ->
  files w' !! OUTPUT_AUDIO_FILENAME env = None.
Proof.
  intros Hrun Hrm Hclean Hfree.
  pose proof Hrun as Hcases.
  apply run_pipeline_audio in Hcases as (resp & -> & [[He _] | Hgone]);
    [|done..].
  destruct (run_pipeline_summary env fn fp orig q w) as [h Hsum].
  rewrite Hsum in Hrun. injection Hrun as Hresp <-. simpl.
  unfold exit_of in *.
  destruct (extract_audio env fp (OUTPUT_AUDIO_FILENAME env)) as [res eff] eqn:Hex.
  simpl in *.
  destruct res as [[|]|e].
  - destruct (transcribe_audio env _) as [[t|]|e'].
    + destruct (analysed _ _ _ _ _); simpl;
        (case_bool_decide; [apply after_cleanup_absent|]);
        by apply after_cleanup_gone.
    + destruct (_ && _); simpl; [|apply lookup_delete_eq].
      (case_bool_decide; [apply after_cleanup_absent|]);
        by apply after_cleanup_gone.
    + simpl. (case_bool_decide; [apply after_cleanup_absent|]);
        by apply after_cleanup_gone.
  - simpl. specialize (Hclean fp). rewrite Hex in Hclean. simpl in Hclean.
    destruct eff as [|size|]; simpl; [done| |].
    + by destruct (Hclean size).
    + apply lookup_delete_eq.
  - simpl. (case_bool_decide; [apply after_cleanup_absent|]);
      by apply after_cleanup_gone.
Qed.

(** C2, amended: provided the operating system does not refuse to
    delete the audio artifact, (a) when the response is the success
    response, the transcription-failure response or the response of
    the unhandled-fault clause, the artifact path does not exist once
    the response is returned; (b) the same holds for every response,
    whatever the way out, of a request that finds nothing at the
    artifact path, when that path is neither the saved upload nor a
    path the converter may allocate, and the extractor has written
    nothing when it reports failure. *)
Theorem audio_artifact_removed env request fs resp w' :
  process_video_complete env request (start fs) = (Ok resp, w') ->
  remove_fails env (OUTPUT_AUDIO_FILENAME env) = false ->
  (status resp = 200 ∨ transcription_failed resp ∨ unhandled_fault_response resp ->
   files w' !! OUTPUT_AUDIO_FILENAME env = None)
  ∧ (fs !! OUTPUT_AUDIO_FILENAME env = None ->
     extractor_fails_clean env ->
     audio_path_apart env ->
     (∀ file, req_video request = Some file ->
              OUTPUT_AUDIO_FILENAME env
              ≠ PyStr.path_join UPLOAD_FOLDER (secure_filename env (up_filename file))) ->
     files w' !! OUTPUT_AUDIO_FILENAME env = None).
Proof.
  intros Hrun Hrm.
  destruct (rejected_or_accepted env request) as [Hrej | (file & q & Hacc)].
  { destruct (rejected_response env request (start fs) Hrej)
      as (msg & Hmsg & Heq).
    rewrite Heq in Hrun. injection Hrun as <- <-. split; [|done].
    intros Hkind.
    exfalso. eapply (not_a_cleaning_exit _ msg); [| | |exact Hkind].
    - apply error_response_error.
    - done.
    - by do 2 apply list_elem_of_further. }
  rewrite (accepted_process _ _ _ _ _ Hacc) in Hrun.
  set (saved := PyStr.path_join UPLOAD_FOLDER (secure_filename env (up_filename file))).
  assert (OUTPUT_AUDIO_FILENAME env ≠ saved ->
          fs !! OUTPUT_AUDIO_FILENAME env = None ->
          files (snd (file_save file saved (start fs))) !! OUTPUT_AUDIO_FILENAME env
          = None) as Hsave.
  { intros Hne Hfree. simpl. by rewrite lookup_insert_ne. }
  destruct Hacc as (Hfile & _).
  apply accept_upload_cases in Hrun
    as [[_ Hrun] | [_ [(e & _ & [=]) | [(o & Hconv & _ & Hr) | (mp4 & w2 & Hconv & _ & Hrun)]]]];
    fold saved in Hrun || fold saved in Hconv.
  - split.
    + intros Hkind.
      apply run_pipeline_audio in Hrun as (resp' & [= <-] & [[He Hs] | Hgone]);
        [|done..].
      exfalso. eapply (not_a_cleaning_exit _ "Audio extraction failed");
        [exact He|lia|apply list_elem_of_here|exact Hkind].
    + intros Hfree Hclean _ Hne.
      eapply run_pipeline_audio_absent; eauto.
  - injection Hr as ->. split.
    + intros Hkind. exfalso.
      eapply (not_a_cleaning_exit _ "Failed to convert .webm file to .mp4");
        [| | |exact Hkind].
      * apply error_response_error.
      * done.
      * apply list_elem_of_further, list_elem_of_here.
    + intros Hfree _ Hapart Hne.
      rewrite (convert_frame _ _ _ _ _ _ Hconv Hapart). eauto.
  - split.
    + intros Hkind.
      apply run_pipeline_audio in Hrun as (resp' & [= <-] & [[He Hs] | Hgone]);
        [|done..].
      exfalso. eapply (not_a_cleaning_exit _ "Audio extraction failed");
        [exact He|lia|apply list_elem_of_here|exact Hkind].
    + intros Hfree Hclean Hapart Hne.
      eapply run_pipeline_audio_absent; eauto.
      rewrite (convert_frame _ _ _ _ _ _ Hconv Hapart). eauto.
Qed.

Lemma audio_artifact_removed_witness :
  ∃ resp w',
    process_video_complete happy_env mp4_request (start ∅) = (Ok resp, w')
    ∧ status resp = 200
    ∧ files w' !! OUTPUT_AUDIO_FILENAME happy_env = None.
Proof.
  pose (r := process_video_complete happy_env mp4_request (start ∅)).
  assert (∃ resp, r = (Ok resp, snd r) ∧ status resp = 200)
    as (resp & Hr & Hs).
  { vm_compute. eexists. split; reflexivity. }
  exists resp, (snd r). split; [exact Hr|]. split; [exact Hs|].
  destruct (audio_artifact_removed happy_env mp4_request ∅ resp (snd r)
              Hr eq_refl) as [_ Hany].
  apply Hany.
  - reflexivity.
  - intros media size Hfail. discriminate Hfail.
  - intros n Hn Heq.
    repeat (apply elem_of_cons in Hn as [->|Hn]; [discriminate Heq|]).
    by apply elem_of_nil in Hn.
  - intros file [= <-]. discriminate.
Defined.

(** ** The normalized file and the original upload *)

Lemma tmp_path_nonempty dir suffix name : tmp_path dir suffix name ≠ "".
Proof.
  unfold tmp_path, PyStr.path_join. rewrite !app_cons.
  destruct (PyStr.truthy dir && _); by destruct dir.
Qed.

(** Steps 3 to 6 leave the fields that line 143 set as they were. *)
Lemma analysed_keeps env fn fp q t results key :
  analysed env fp q t (initial_results fn q) = Ok results ->
  key ∉ ["transcript"; "audio_metrics"; "video_metrics";
         "gemini_analysis"; "gemini_error"] ->
  results !! key = initial_results fn q !! key.
Proof.
  unfold analysed, synthesized, add_video_metrics, add_audio_metrics.
  intros H Hkey.
  assert (key ≠ "transcript" ∧ key ≠ "audio_metrics" ∧ key ≠ "video_metrics"
          ∧ key ≠ "gemini_analysis" ∧ key ≠ "gemini_error")
    as (? & ? & ? & ? & ?).
  { repeat split; intros ->; apply Hkey, list_elem_of_In; simpl; tauto. }
  repeat match type of H with
         | context [match ?x with _ => _ end] => destruct x; try discriminate H
         | context [if ?x then _ else _] => destruct x; try discriminate H
         end;
    injection H as <-; by repeat (rewrite lookup_insert_ne by done).
Qed.

(** The results of a completed run have no ["error"] field. *)
Lemma analysed_no_error env fn fp q t results :
  analysed env fp q t (initial_results fn q) = Ok results ->
  results !! "error" = None.
Proof.
  intros H. rewrite (analysed_keeps _ _ _ _ _ _ "error" H).
  - unfold initial_results. by rewrite !lookup_insert_ne.
  - intros Hin%list_elem_of_In. simpl in Hin.
    repeat (destruct Hin as [Hin|Hin]; [discriminate Hin|]). done.
Qed.

Lemma exit_completed_no_error env fn fp q fs results :
  exit_of env fn fp q fs = Completed results -> results !! "error" = None.
Proof.
  unfold exit_of. intros H.
  destruct (extract_audio env fp _).1 as [[|]|]; try discriminate H.
  destruct (transcribe_audio env _) as [[t|]|]; try discriminate H.
  - destruct (analysed _ _ _ _ _) as [r|] eqn:Ha; try discriminate H.
    injection H as <-. by eapply analysed_no_error.
  - by destruct (_ && _).
Qed.

(** The response tells the way out. *)
Lemma response_completed env fn fp q fs :
  status (response_of fn (exit_of env fn fp q fs)) = 200 ->
  ∃ results, exit_of env fn fp q fs = Completed results.
Proof. destruct (exit_of _ _ _ _ _); simpl; eauto; lia. Qed.

Lemma response_fault env fn fp q fs :
  unhandled_fault_response (response_of fn (exit_of env fn fp q fs)) ->
  ∃ e, exit_of env fn fp q fs = UnhandledFault e.
Proof.
  unfold unhandled_fault_response. intros [msg Hmsg].
  destruct (exit_of _ _ _ _ _) as [r| | |e] eqn:Hexit;
    unfold response_of in Hmsg.
  - apply exit_completed_no_error in Hexit. simpl in Hmsg.
    rewrite lookup_insert_ne in Hmsg by done. congruence.
  - by rewrite error_response_for_error in Hmsg.
  - by rewrite error_response_for_error in Hmsg.
  - eauto.
Qed.

(** C1, as stated, fails: the upload is converted, audio extraction
    then raises, and the unhandled-fault clause deletes the normalized
    .mp4 (lines 269-274) and leaves the original .webm on disk. *)
Lemma fault_deletes_normalized_file :
  let saved := "uploads/answer.webm" in
  let r := process_video_complete crashing_extractor_env webm_request (start ∅) in
  fst (convert_webm_to_mp4 crashing_extractor_env saved
         (start {[ saved := 4096%N ]}))
  = Ok (Some "/srv/app/uploads/tmpk3x9w2ab.mp4")
  ∧ (∃ resp, fst r = Ok resp
             ∧ body resp !! "error"
               = Some (PyText "Error processing video: codec not found"))
  ∧ files (snd r) !! "/srv/app/uploads/tmpk3x9w2ab.mp4" = None
  ∧ files (snd r) !! saved = Some 4096%N.
Proof.
  split; [reflexivity|]. split; [eexists; split; reflexivity|].
  split; reflexivity.
Qed.

(** A run of the handler on a .webm upload whose conversion succeeds
    is a run of the stages on the converted file. *)
Lemma converted_run env request file question fs mp4 w2 :
  accepted env request file question ->
  let saved := PyStr.path_join UPLOAD_FOLDER (secure_filename env (up_filename file)) in
  PyStr.endswith (str_lower env (secure_filename env (up_filename file))) ".webm" = true ->
  convert_webm_to_mp4 env saved (snd (file_save file saved (start fs)))
    = (Ok (Some mp4), w2) ->
  process_video_complete env request (start fs)
  = run_pipeline env (PyStr.basename mp4) mp4 saved question w2
  ∧ saved ≠ mp4
  ∧ (∃ size, files w2 !! mp4 = Some size ∧ (0 < size)%N)
  ∧ files w2 !! saved = Some (up_size file)
  ∧ (∀ p, p ≠ mp4 -> p ≠ saved -> files w2 !! p = fs !! p)
  ∧ ∃ n, n ∈ tmp_names env ∧ mp4 = tmp_path (abspath env UPLOAD_FOLDER) ".mp4" n.
Proof.
  intros Hacc saved Hwebm Hconv.
  pose proof (convert_success _ _ _ _ _ Hconv)
    as (Hfree & Hsize & Hframe & n & Hn & Hmp4).
  simpl in Hfree, Hframe.
  assert (saved ≠ mp4) as Hne.
  { intros <-. by rewrite lookup_insert_eq in Hfree. }
  split; [|split; [done|split; [done|split; [|split]]]].
  - rewrite (accepted_process _ _ _ _ _ Hacc), accept_upload_webm by done.
    fold saved. unfold bind. rewrite Hconv.
    destruct mp4; [|done]. by destruct (tmp_path_nonempty (abspath env UPLOAD_FOLDER) ".mp4" n).
  - rewrite Hframe by done. apply lookup_insert_eq.
  - intros p Hp Hps. rewrite Hframe by done. by apply lookup_insert_ne.
  - eauto.
Qed.

(** C1, amended: when normalization runs and the conversion succeeds,
    then (a) if the stages complete and the success response is
    returned, the normalized .mp4 is still on disk, non-empty, and the
    original .webm is not, provided the operating system does not
    refuse to delete it; (b) if the stages end in the unhandled-fault
    clause, it is the normalized .mp4 that is deleted (unless the
    deletion is refused) and the original .webm that stays.  The audio
    artifact path is assumed to be neither of the two files. *)
Theorem normalized_file_after_response env request file question fs mp4 w2 resp w' :
  accepted env request file question ->
  let saved := PyStr.path_join UPLOAD_FOLDER (secure_filename env (up_filename file)) in
  PyStr.endswith (str_lower env (secure_filename env (up_filename file))) ".webm" = true ->
  convert_webm_to_mp4 env saved (snd (file_save file saved (start fs)))
    = (Ok (Some mp4), w2) ->
  process_video_complete env request (start fs) = (Ok resp, w') ->
  OUTPUT_AUDIO_FILENAME env ≠ mp4 ->
  OUTPUT_AUDIO_FILENAME env ≠ saved ->
  (status resp = 200 -> remove_fails env saved = false ->
   (∃ size, files w' !! mp4 = Some size ∧ (0 < size)%N)
   ∧ files w' !! saved = None)
  ∧ (unhandled_fault_response resp -> remove_fails env mp4 = false ->
     files w' !! mp4 = None ∧ files w' !! saved = Some (up_size file)).
Proof.
  intros Hacc saved Hwebm Hconv Hrun Hout_mp4 Hout_saved.
  destruct (converted_run env request file question fs mp4 w2 Hacc Hwebm Hconv)
    as (Heq & Hne & Hsize & Hsaved & _). fold saved in Heq, Hne, Hsaved.
  rewrite Heq in Hrun.
  destruct (run_pipeline_summary env (PyStr.basename mp4) mp4 saved question w2)
    as [h Hsum].
  rewrite Hsum in Hrun. injection Hrun as <- <-. simpl files.
  split.
  - intros [results Hexit]%response_completed Hrm. rewrite Hexit. simpl.
    rewrite bool_decide_eq_true_2 by done. split.
    + rewrite !after_cleanup_other, apply_effect_other by done. exact Hsize.
    + by apply after_cleanup_gone.
  - intros [e Hexit]%response_fault Hrm. rewrite Hexit. simpl.
    rewrite bool_decide_eq_true_2 by done. split.
    + by apply after_cleanup_gone.
    + rewrite !after_cleanup_other, apply_effect_other by done. exact Hsaved.
Qed.

Lemma normalized_file_after_response_witness :
  ∃ resp w',
    process_video_complete happy_env webm_request (start ∅) = (Ok resp, w')
    ∧ status resp = 200
    ∧ (∃ size, files w' !! "/srv/app/uploads/tmpk3x9w2ab.mp4" = Some size ∧ (0 < size)%N)
    ∧ files w' !! "uploads/answer.webm" = None.
Proof.
  pose (r := process_video_complete happy_env webm_request (start ∅)).
  assert (∃ resp, r = (Ok resp, snd r) ∧ status resp = 200)
    as (resp & Hr & Hs).
  { vm_compute. eexists. split; reflexivity. }
  exists resp, (snd r). split; [exact Hr|]. split; [exact Hs|].
  apply (normalized_file_after_response happy_env webm_request
           {| up_filename := "answer.webm"; up_size := 4096 |}
           "Describe your experience" ∅ "/srv/app/uploads/tmpk3x9w2ab.mp4"
           (snd (convert_webm_to_mp4 happy_env "uploads/answer.webm"
                   (snd (file_save {| up_filename := "answer.webm"; up_size := 4096 |}
                           "uploads/answer.webm" (start ∅)))))
           resp (snd r)).
  - repeat split; done.
  - reflexivity.
  - reflexivity.
  - exact Hr.
  - done.
  - done.
  - exact Hs.
  - reflexivity.
Defined.

(** ** The two metrics fields *)

(** Audio metrics are left out exactly when absent or empty. *)
Lemma audio_metrics_omitted (a : option Metrics) :
  truthy_metrics a = false <-> a = None ∨ a = Some [].
Proof.
  destruct a as [[|kv m]|]; simpl; split; auto; try done.
  intros [H|H]; discriminate H.
Qed.

(** Video metrics are left out exactly when absent, empty or tagged
    with the error marker. *)
Lemma video_metrics_omitted (v : option Metrics) :
  usable_video_metrics v = false
  <-> v = None ∨ v = Some [] ∨ ∃ m, v = Some m ∧ has_key "error" m = true.
Proof.
  unfold usable_video_metrics. destruct v as [[|kv m]|]; simpl.
  - split; auto.
  - rewrite negb_false_iff. split.
    + intros H. right; right. eauto.
    + intros [H|[H|(m' & [= <-] & H)]]; [discriminate H..|done].
  - split; auto.
Qed.











(** An analyser that raises does abort: the exception reaches the
    unhandled-fault clause. *)
Lemma analyser_exception_aborts env fn fp orig q w t e :
  fst (extract_audio env fp (OUTPUT_AUDIO_FILENAME env)) = Ok true ->
  transcribe_audio env (OUTPUT_AUDIO_FILENAME env) = Ok (Some t) ->
  analyze_audio_features env (OUTPUT_AUDIO_FILENAME env) t = Raise e ->
  ∃ w', run_pipeline env fn fp orig q w
        = (Ok (error_response_for ("Error processing video: " +:+ exn_str e) fn 500),
           w').
Proof.
  intros Hex Htr Ha.
  destruct (run_pipeline_summary env fn fp orig q w) as [h Hsum].
  rewrite Hsum. unfold exit_of. rewrite Hex, Htr. unfold analysed.
  rewrite Ha. simpl. eauto.
Qed.


(** ** Running the same request again *)

Lemma exit_completed_video_file env fn fp q fs results :
  exit_of env fn fp q fs = Completed results ->
  results !! "video_file" = Some (PyText fn).
Proof.
  unfold exit_of. intros H.
  destruct (extract_audio env fp _).1 as [[|]|]; try discriminate H.
  destruct (transcribe_audio env _) as [[t|]|]; try discriminate H.
  - destruct (analysed _ _ _ _ _) as [r|] eqn:Ha; try discriminate H.
    injection H as <-.
    rewrite (analysed_keeps _ _ _ _ _ _ "video_file" Ha).
    + apply lookup_insert_eq.
    + intros Hin%list_elem_of_In. simpl in Hin.
      repeat (destruct Hin as [Hin|Hin]; [discriminate Hin|]). done.
  - by destruct (_ && _).
Qed.

(** Whether the stages complete, and with what results, does not
    depend on the files on disk. *)
Lemma exit_completed_any_files env fn fp q fs1 fs2 results :
  exit_of env fn fp q fs1 = Completed results ->
  exit_of env fn fp q fs2 = Completed results.
Proof.
  unfold exit_of.
  destruct (extract_audio env fp _).1 as [[|]|]; try done.
  destruct (transcribe_audio env _) as [[t|]|]; try done.
  by destruct (_ && _).
Qed.

Lemma contains_app c s1 s2 :
  PyStr.contains c (s1 +:+ s2) = PyStr.contains c s1 || PyStr.contains c s2.
Proof.
  induction s1 as [|a s1 IH]; [done|].
  rewrite app_cons. simpl. rewrite IH. by rewrite orb_assoc.
Qed.

(** The base name of an allocated path is the allocated name,
    whatever the directory. *)
Lemma basename_tmp_path dir name :
  no_slash name ->
  PyStr.basename (tmp_path dir ".mp4" name) = "tmp" +:+ name +:+ ".mp4".
Proof.
  intros Hname. unfold PyStr.basename, tmp_path, PyStr.path_join.
  assert (PyStr.contains "/" ("tmp" +:+ name +:+ ".mp4") = false) as Hfile.
  { rewrite !contains_app, Hname. reflexivity. }
  rewrite !app_cons, app_empty_l.
  rewrite !app_cons, app_empty_l in Hfile.
  destruct (PyStr.truthy dir && negb (PyStr.endswith dir "/")) eqn:Hsep.
  - change (dir +:+ "/" +:+ String "t" (String "m" (String "p" (name +:+ ".mp4"))))
      with (dir +:+ String "/" (String "t" (String "m" (String "p" (name +:+ ".mp4"))))).
    by apply after_last_app.
  - apply andb_false_iff in Hsep as [Hempty | Hslash].
    + apply truthy_false_iff in Hempty as ->. rewrite app_empty_l.
      by apply after_last_from_none.
    + apply negb_false_iff, endswith_true in Hslash as [pre ->].
      rewrite app_assoc_str.
      change ("/" +:+ String "t" (String "m" (String "p" (name +:+ ".mp4"))))
        with (String "/" (String "t" (String "m" (String "p" (name +:+ ".mp4"))))).
      by apply after_last_app.
Qed.

(** A completed run on a .webm upload names the allocated file in
    [video_file] and leaves that file on disk. *)
Lemma completed_converted_run env request file question fs resp w' :
  accepted env request file question ->
  PyStr.endswith (str_lower env (secure_filename env (up_filename file))) ".webm" = true ->
  audio_path_apart env ->
  process_video_complete env request (start fs) = (Ok resp, w') ->
  status resp = 200 ->
  ∃ n, n ∈ tmp_names env
       ∧ body resp !! "video_file"
         = Some (PyText (PyStr.basename (tmp_path (abspath env UPLOAD_FOLDER) ".mp4" n)))
       ∧ fs !! tmp_path (abspath env UPLOAD_FOLDER) ".mp4" n = None
       ∧ is_Some (files w' !! tmp_path (abspath env UPLOAD_FOLDER) ".mp4" n).
Proof.
  intros Hacc Hwebm Hout Hrun Hstatus.
  pose proof Hrun as Hcases.
  rewrite (accepted_process _ _ _ _ _ Hacc) in Hcases.
  apply accept_upload_cases in Hcases
    as [[Hno _] | [_ [(e & _ & [=]) | [(o & _ & _ & [= ->]) | (mp4 & w2 & Hconv & _ & _)]]]];
    [congruence|done|].
  destruct (converted_run env request file question fs mp4 w2 Hacc Hwebm Hconv)
    as (Heq & Hne & (size & Hsize & _) & Hsaved & _ & n & Hn & ->).
  rewrite Heq in Hrun.
  destruct (run_pipeline_summary env
              (PyStr.basename (tmp_path (abspath env UPLOAD_FOLDER) ".mp4" n))
              (tmp_path (abspath env UPLOAD_FOLDER) ".mp4" n)
              (PyStr.path_join UPLOAD_FOLDER (secure_filename env (up_filename file)))
              question w2) as [h Hsum].
  rewrite Hsum in Hrun. injection Hrun as <- <-.
  apply response_completed in Hstatus as [results Hexit].
  exists n. split; [done|]. rewrite Hexit. simpl. split; [|split].
  - rewrite lookup_insert_ne by done.
    by eapply exit_completed_video_file.
  - apply convert_success in Hconv as (Hfree & _). simpl in Hfree.
    by rewrite lookup_insert_ne in Hfree.
  - rewrite bool_decide_eq_true_2 by done.
    rewrite !after_cleanup_other, apply_effect_other by auto. eauto.
Qed.

(** C9, as stated, fails: the same .webm request is processed twice
    in a row by the same collaborators; both runs complete, and the
    [video_file] fields differ, since the .mp4 of the first run is
    kept and the second run is allocated another path. *)
Lemma rerun_changes_video_file :
  let first := process_video_complete happy_env webm_request (start ∅) in
  let second :=
    process_video_complete happy_env webm_request (start (files (snd first))) in
  ∃ resp1 resp2,
    fst first = Ok resp1 ∧ fst second = Ok resp2
    ∧ status resp1 = 200 ∧ status resp2 = 200
    ∧ body resp1 !! "video_file" = Some (PyText "tmpk3x9w2ab.mp4")
    ∧ body resp2 !! "video_file" = Some (PyText "tmpp0q1r2s3.mp4")
    ∧ resp1 ≠ resp2.
Proof.
  eexists _, _. repeat split; try reflexivity.
  intros H. apply (f_equal (fun r => body r !! "video_file")) in H.
  vm_compute in H. discriminate H.
Qed.

(** C9, amended: with collaborators that are functions of their
    arguments, (a) a request whose sanitized filename does not end in
    ".webm" and whose run completes yields the same response from any
    other state of the disk; (b) for a .webm upload, [video_file] is
    the base name of the freshly allocated .mp4 path, and two
    consecutive completed runs yield different [video_file] fields. *)
Theorem rerun_results env request file question :
  accepted env request file question ->
  let filename := secure_filename env (up_filename file) in
  (PyStr.endswith (str_lower env filename) ".webm" = false ->
   ∀ fs1 fs2 resp w1,
     process_video_complete env request (start fs1) = (Ok resp, w1) ->
     status resp = 200 ->
     ∃ w2, process_video_complete env request (start fs2) = (Ok resp, w2))
  ∧ (PyStr.endswith (str_lower env filename) ".webm" = true ->
     Forall no_slash (tmp_names env) ->
     audio_path_apart env ->
     ∀ fs resp1 w1 resp2 w2,
       process_video_complete env request (start fs) = (Ok resp1, w1) ->
       status resp1 = 200 ->
       process_video_complete env request (start (files w1)) = (Ok resp2, w2) ->
       status resp2 = 200 ->
       (∃ n, n ∈ tmp_names env
             ∧ body resp1 !! "video_file"
               = Some (PyText (PyStr.basename (tmp_path (abspath env UPLOAD_FOLDER) ".mp4" n))))
       ∧ body resp1 !! "video_file" ≠ body resp2 !! "video_file").
Proof.
  intros Hacc filename. split.
  - intros Hno fs1 fs2 resp w1 Hrun Hstatus.
    rewrite (accepted_process _ _ _ _ _ Hacc), accept_upload_other in Hrun by done.
    rewrite (accepted_process _ _ _ _ _ Hacc), accept_upload_other by done.
    fold filename in Hrun |- *.
    set (saved := PyStr.path_join UPLOAD_FOLDER filename) in *.
    destruct (run_pipeline_summary env filename saved saved question
                (snd (file_save file saved (start fs1)))) as [h1 Hsum1].
    destruct (run_pipeline_summary env filename saved saved question
                (snd (file_save file saved (start fs2)))) as [h2 Hsum2].
    rewrite Hsum1 in Hrun. injection Hrun as <- <-.
    apply response_completed in Hstatus as [results Hexit].
    rewrite Hsum2, Hexit.
    rewrite (exit_completed_any_files _ _ _ _ _ _ _ Hexit). eauto.
  - intros Hwebm Hnames Hout fs resp1 w1 resp2 w2 Hrun1 Hs1 Hrun2 Hs2.
    destruct (completed_converted_run _ _ _ _ _ _ _ Hacc Hwebm Hout Hrun1 Hs1)
      as (n1 & Hn1 & Hfile1 & _ & Hkept).
    destruct (completed_converted_run _ _ _ _ _ _ _ Hacc Hwebm Hout Hrun2 Hs2)
      as (n2 & Hn2 & Hfile2 & Hfree & _).
    split; [eauto|].
    rewrite Hfile1, Hfile2. intros [= Hsame].
    rewrite Forall_forall in Hnames.
    rewrite !basename_tmp_path in Hsame by auto.
    assert (tmp_path (abspath env UPLOAD_FOLDER) ".mp4" n1 = tmp_path (abspath env UPLOAD_FOLDER) ".mp4" n2)
      as Hpath by (unfold tmp_path; by rewrite Hsame).
    rewrite Hpath, Hfree in Hkept. by destruct Hkept.
Qed.

Lemma rerun_results_witness :
  let first := process_video_complete happy_env webm_request (start ∅) in
  let second :=
    process_video_complete happy_env webm_request (start (files (snd first))) in
  ∃ resp1 resp2,
    fst first = Ok resp1 ∧ fst second = Ok resp2
    ∧ (∃ n, n ∈ tmp_names happy_env
            ∧ body resp1 !! "video_file"
              = Some (PyText (PyStr.basename (tmp_path (abspath happy_env UPLOAD_FOLDER) ".mp4" n))))
    ∧ body resp1 !! "video_file" ≠ body resp2 !! "video_file".
Proof.
  intros first second.
  assert (∃ resp1, first = (Ok resp1, snd first) ∧ status resp1 = 200)
    as (resp1 & H1 & Hs1).
  { vm_compute. eexists. split; reflexivity. }
  assert (∃ resp2, second = (Ok resp2, snd second) ∧ status resp2 = 200)
    as (resp2 & H2 & Hs2).
  { vm_compute. eexists. split; reflexivity. }
  exists resp1, resp2.
  split; [by rewrite H1|]. split; [by rewrite H2|].
  apply (proj2 (rerun_results happy_env webm_request
                  {| up_filename := "answer.webm"; up_size := 4096 |}
                  "Describe your experience"
                  ltac:(repeat split; done))
           eq_refl
           ltac:(repeat constructor)
           ltac:(intros n Hn Heq;
                 repeat (apply elem_of_cons in Hn as [->|Hn]; [discriminate Heq|]);
                 by apply elem_of_nil in Hn)
           ∅ resp1 (snd first) resp2 (snd second) H1 Hs1 H2 Hs2).
Defined.

(** * Further properties of the server *)

(** ** allowed_file *)

Lemma after_last_from_split c s acc :
  PyStr.contains c s = true ->
  ∃ pre, s = pre +:+ String c (PyStr.after_last_from c s acc)
         ∧ PyStr.contains c (PyStr.after_last_from c s acc) = false.
Proof.
  revert acc. induction s as [|a s IH]; intros acc; simpl; [done|].
  destruct (Ascii.eqb a c) eqn:Hac; simpl.
  - apply Ascii.eqb_eq in Hac as ->. intros _.
    destruct (PyStr.contains c s) eqn:Hs.
    + destruct (IH s eq_refl) as (pre & Hpre & Hno).
      exists (String c pre). rewrite app_cons. split; [by f_equal|done].
    + rewrite after_last_from_none by done. by exists "".
  - intros Hs. destruct (IH acc Hs) as (pre & Hpre & Hno).
    exists (String a pre). rewrite app_cons. split; [by f_equal|done].
Qed.

(** X1: a filename is allowed exactly when it is some stem, a dot and
    an extension without dot that, lowercased by [str.lower], is one
    of the allowed extensions: only what follows the last dot counts,
    whatever its case, and a name without a dot is not allowed. *)
Theorem allowed_file_iff env filename :
  allowed_file env filename = true
  <-> ∃ stem ext, filename = stem +:+ "." +:+ ext
                  ∧ PyStr.contains "." ext = false
                  ∧ str_lower env ext ∈ ALLOWED_EXTENSIONS.
Proof.
  unfold allowed_file. rewrite andb_true_iff, bool_decide_eq_true. split.
  - intros [Hdot Hext].
    destruct (after_last_from_split "." filename filename Hdot)
      as (stem & Hname & Hno).
    exists stem, (PyStr.after_last "." filename). done.
  - intros (stem & ext & -> & Hno & Hext).
    change ("." +:+ ext) with (String "." ext).
    rewrite after_last_app by done. split; [|done].
    rewrite contains_app. simpl. apply orb_true_r.
Qed.

(** Lower-casing is the one of Unicode: an extension written with the
    Kelvin sign lowercases to "mkv" and is allowed. *)
Example kelvin_extension_allowed :
  PyStr.is_ascii kelvin_mkv = false
  ∧ str_lower happy_env kelvin_mkv = "mkv"
  ∧ allowed_file happy_env ("clip." +:+ kelvin_mkv) = true.
Proof. repeat split. Qed.

(** ** More on the converter *)

Lemma convert_keeps_existing env webm_path w p :
  is_Some (files w !! p) ->
  files (snd (convert_webm_to_mp4 env webm_path w)) !! p = files w !! p.
Proof.
  intros Hp.
  destruct (convert_webm_to_mp4 env webm_path w) as [r w'] eqn:H. simpl.
  unfold convert_webm_to_mp4, bind at 1, record in H. simpl in H.
  unfold convert_try in H.
  destruct (mkstemp env ".mp4" UPLOAD_FOLDER _) as [[mp4|e] w1] eqn:Hmk.
  - apply mkstemp_ok in Hmk as (Hfree & -> & _). simpl in Hfree.
    assert (mp4 ≠ p) as Hne.
    { intros ->. rewrite Hfree in Hp. by destruct Hp. }
    unfold try_except, convert_body, bind, record, touch, lift,
      os_path_exists, os_path_getsize, ret in H. simpl in H.
    destruct (run_ffmpeg env webm_path _) as [[[]|e] eff]; simpl in H.
    + destruct (_ && _); injection H as <- <-; simpl;
        rewrite apply_effect_other by done; by apply lookup_insert_ne.
    + apply convert_except_frame with (p := p) in H; [|by intros q [= <-]].
      rewrite H. simpl. rewrite apply_effect_other by done.
      by apply lookup_insert_ne.
  - apply mkstemp_raise in Hmk as [-> _].
    by apply convert_except_frame with (p := p) in H.
Qed.

(** X2: whether it succeeds, fails or raises, the converter does not
    change or delete any file that was on disk before the call; its
    input file in particular is left as it was. *)
Theorem converter_keeps_existing_files env webm_path w p :
  is_Some (files w !! p) ->
  files (snd (convert_webm_to_mp4 env webm_path w)) !! p = files w !! p.
Proof. apply convert_keeps_existing. Qed.

Lemma converter_keeps_existing_files_witness :
  files (snd (convert_webm_to_mp4 broken_encoder_env "uploads/answer.webm"
                (start {[ "uploads/answer.webm" := 4096%N ]})))
    !! "uploads/answer.webm"
  = Some 4096%N.
Proof.
  rewrite (converter_keeps_existing_files broken_encoder_env
             "uploads/answer.webm"
             (start {[ "uploads/answer.webm" := 4096%N ]})
             "uploads/answer.webm").
  - reflexivity.
  - by eexists.
Defined.

(** X3: a conversion that returns a path has allocated it on a free
    name of the upload folder, has run the encoder once, on the input
    and that path, and has deleted nothing; the path now holds a
    non-empty file. *)
Theorem conversion_success_guarantee env webm_path w mp4 w' :
  convert_webm_to_mp4 env webm_path w = (Ok (Some mp4), w') ->
  files w !! mp4 = None
  ∧ (∃ size, files w' !! mp4 = Some size ∧ (0 < size)%N)
  ∧ (∃ n, n ∈ tmp_names env ∧ mp4 = tmp_path (abspath env UPLOAD_FOLDER) ".mp4" n)
  ∧ fst (run_ffmpeg env webm_path mp4) = Ok tt
  ∧ history w' = history w ++ [EvConvert webm_path; EvEncode webm_path mp4].
Proof.
  unfold convert_webm_to_mp4, bind at 1, record. simpl. unfold convert_try.
  destruct (mkstemp env ".mp4" UPLOAD_FOLDER _) as [[p|e] w1] eqn:Hmk;
    [|intros H; by apply convert_except_none in H].
  apply mkstemp_ok in Hmk as (Hfree & -> & n & Hn & ->). simpl in Hfree.
  unfold try_except, convert_body, bind, record, touch, lift,
    os_path_exists, os_path_getsize, ret. simpl.
  destruct (run_ffmpeg env webm_path _) as [[[]|e] eff] eqn:Hrun; simpl;
    [|intros H; by apply convert_except_none in H].
  destruct (bool_decide _ && _) eqn:Hcheck; [|done].
  intros [= <- <-]. simpl.
  apply andb_true_iff in Hcheck as [Hthere Hsize].
  apply bool_decide_eq_true in Hthere as [size Hsz].
  rewrite Hsz in Hsize. simpl in Hsize. apply N.ltb_lt in Hsize.
  split; [done|]. split; [eauto|]. split; [eauto|].
  split; [by rewrite Hrun|]. by rewrite <- app_assoc.
Qed.

Lemma conversion_success_guarantee_witness :
  files (start {[ "uploads/answer.webm" := 4096%N ]}) !! "/srv/app/uploads/tmpk3x9w2ab.mp4"
  = None
  ∧ (∃ size,
       files (snd (convert_webm_to_mp4 happy_env "uploads/answer.webm"
                     (start {[ "uploads/answer.webm" := 4096%N ]})))
         !! "/srv/app/uploads/tmpk3x9w2ab.mp4" = Some size
       ∧ (0 < size)%N)
  ∧ (∃ n, n ∈ tmp_names happy_env
          ∧ "/srv/app/uploads/tmpk3x9w2ab.mp4" = tmp_path (abspath happy_env UPLOAD_FOLDER) ".mp4" n)
  ∧ fst (run_ffmpeg happy_env "uploads/answer.webm" "/srv/app/uploads/tmpk3x9w2ab.mp4")
    = Ok tt
  ∧ history (snd (convert_webm_to_mp4 happy_env "uploads/answer.webm"
                    (start {[ "uploads/answer.webm" := 4096%N ]})))
    = history (start {[ "uploads/answer.webm" := 4096%N ]})
      ++ [EvConvert "uploads/answer.webm";
          EvEncode "uploads/answer.webm" "/srv/app/uploads/tmpk3x9w2ab.mp4"].
Proof.
  apply (conversion_success_guarantee happy_env "uploads/answer.webm"
           (start {[ "uploads/answer.webm" := 4096%N ]})
           "/srv/app/uploads/tmpk3x9w2ab.mp4").
  reflexivity.
Defined.

Lemma find_all_taken {A} (f : A -> bool) (l : list A) :
  (∀ x, x ∈ l -> f x = false) -> List.find f l = None.
Proof.
  induction l as [|x l IH]; intros H; simpl; [done|].
  rewrite (H x) by apply list_elem_of_here.
  apply IH. intros y Hy. by apply H, list_elem_of_further.
Qed.

(** X4: when every name that [mkstemp] draws is taken, the converter
    returns [None] without running the encoder and without touching
    the disk. *)
Theorem conversion_without_free_name env webm_path w :
  (∀ n, n ∈ tmp_names env ->
        is_Some (files w !! tmp_path (abspath env UPLOAD_FOLDER) ".mp4" n)) ->
  convert_webm_to_mp4 env webm_path w
  = (Ok None,
     {| files := files w; history := history w ++ [EvConvert webm_path] |}).
Proof.
  intros Htaken.
  unfold convert_webm_to_mp4, bind at 1, record. simpl.
  unfold convert_try, mkstemp. simpl.
  rewrite find_all_taken; [done|].
  intros n Hn. apply negb_false_iff, bool_decide_eq_true. by apply Htaken.
Qed.

Lemma conversion_without_free_name_witness :
  convert_webm_to_mp4 happy_env "uploads/answer.webm"
    (start {[ "/srv/app/uploads/tmpk3x9w2ab.mp4" := 1%N; "/srv/app/uploads/tmpp0q1r2s3.mp4" := 1%N ]})
  = (Ok None,
     {| files := {[ "/srv/app/uploads/tmpk3x9w2ab.mp4" := 1%N;
                    "/srv/app/uploads/tmpp0q1r2s3.mp4" := 1%N ]};
        history := [EvConvert "uploads/answer.webm"] |}).
Proof.
  refine (conversion_without_free_name happy_env "uploads/answer.webm"
            (start {[ "/srv/app/uploads/tmpk3x9w2ab.mp4" := 1%N;
                      "/srv/app/uploads/tmpp0q1r2s3.mp4" := 1%N ]}) _).
  intros n Hn.
  repeat (apply elem_of_cons in Hn as [->|Hn]; [by eexists|]).
  by apply elem_of_nil in Hn.
Defined.

(** What an [except] clause of the converter may raise once the
    output path is bound. *)
Lemma convert_except_raise env q e w e' w' :
  convert_except env (Some q) e w = (Raise e', w') ->
  (∃ stderr, exn_class e = CalledProcessError stderr ∧ stderr ≠ ""
             ∧ bytes_decode env stderr = Raise e' ∧ w' = w)
  ∨ (remove_fails env q = true ∧ e' = OSError_ (remove_error env q)
     ∧ files w' = files w ∧ is_Some (files w !! q)).
Proof.
  rewrite convert_except_some. intros H.
  assert (match unlinked env q w with
          | (Ok _, w2) => (Ok (None : option string), w2)
          | (Raise e2, w2) => (Raise e2, w2)
          end = (Raise e', w') ->
          remove_fails env q = true ∧ e' = OSError_ (remove_error env q)
          ∧ files w' = files w ∧ is_Some (files w !! q)) as Hunlink.
  { unfold unlinked. case_bool_decide as Hthere; [|done].
    destruct (remove_fails env q) eqn:Hrm; [|done]. by intros [= <- <-]. }
  destruct (exn_class e) as [stderr| | |] eqn:Hclass;
    try (right; by apply Hunlink).
  unfold ffmpeg_error_text in H.
  destruct (PyStr.truthy stderr) eqn:Htruthy; [|right; by apply Hunlink].
  destruct (bytes_decode env stderr) as [text|e2] eqn:Hdecode;
    [right; by apply Hunlink|].
  injection H as <- <-. left. exists stderr.
  split; [done|]. split; [by apply truthy_true_iff|done].
Qed.

(** X5: the converter raises in two situations only, both after the
    encoder has failed on the output that was allocated for it: the
    encoder exited with a non-zero status and the error output it
    left is not empty and cannot be decoded, and the exception is the
    one of the decoding (line 83); or the operating system refuses to
    delete the output, and the exception is that [OSError] (lines 85
    and 90).  Either way nothing was deleted: the disk is as the
    encoder left it. *)
Theorem converter_raise_cases env webm_path w e w' :
  convert_webm_to_mp4 env webm_path w = (Raise e, w') ->
  ∃ n e0,
    n ∈ tmp_names env
    ∧ fst (run_ffmpeg env webm_path (tmp_path (abspath env UPLOAD_FOLDER) ".mp4" n))
      = Raise e0
    ∧ ((∃ stderr, exn_class e0 = CalledProcessError stderr ∧ stderr ≠ ""
                  ∧ bytes_decode env stderr = Raise e)
       ∨ (remove_fails env (tmp_path (abspath env UPLOAD_FOLDER) ".mp4" n) = true
          ∧ e = OSError_ (remove_error env
                            (tmp_path (abspath env UPLOAD_FOLDER) ".mp4" n))
          ∧ is_Some (files w' !! tmp_path (abspath env UPLOAD_FOLDER) ".mp4" n)))
    ∧ files w'
      = apply_effect (tmp_path (abspath env UPLOAD_FOLDER) ".mp4" n)
          (snd (run_ffmpeg env webm_path
                  (tmp_path (abspath env UPLOAD_FOLDER) ".mp4" n)))
          (<[tmp_path (abspath env UPLOAD_FOLDER) ".mp4" n := 0%N]> (files w)).
Proof.
  unfold convert_webm_to_mp4, bind at 1, record. simpl. unfold convert_try.
  destruct (mkstemp env ".mp4" UPLOAD_FOLDER _) as [[p|e1] w1] eqn:Hmk.
  - apply mkstemp_ok in Hmk as (_ & -> & n & Hn & ->).
    unfold try_except, convert_body, bind, record, touch, lift,
      os_path_exists, os_path_getsize, ret. simpl.
    destruct (run_ffmpeg env webm_path _) as [[[]|e0] eff] eqn:Hrun; simpl.
    + by destruct (_ && _).
    + intros Hraise. exists n, e0. rewrite Hrun. simpl.
      split; [exact Hn|]. split; [reflexivity|].
      apply convert_except_raise in Hraise
        as [(stderr & Hclass & Hne & Hdecode & ->)
           | (Hrm & -> & Hfiles & Hthere)]; simpl in *.
      * split; [|reflexivity]. left. by exists stderr.
      * split; [|exact Hfiles]. right. rewrite Hfiles. done.
  - apply mkstemp_raise in Hmk as [-> Hclass].
    by rewrite convert_except_unbound.
Qed.

Lemma converter_raise_cases_witness :
  let env := garbled_stderr_env in
  let w := start {[ "uploads/answer.webm" := 4096%N ]} in
  let w' := snd (convert_webm_to_mp4 env "uploads/answer.webm" w) in
  let e := {| exn_class := OtherException;
              exn_str := "'utf-8' codec can't decode bytes" |} in
  ∃ n e0,
    n ∈ tmp_names env
    ∧ fst (run_ffmpeg env "uploads/answer.webm"
             (tmp_path (abspath env UPLOAD_FOLDER) ".mp4" n))
      = Raise e0
    ∧ ((∃ stderr, exn_class e0 = CalledProcessError stderr ∧ stderr ≠ ""
                  ∧ bytes_decode env stderr = Raise e)
       ∨ (remove_fails env (tmp_path (abspath env UPLOAD_FOLDER) ".mp4" n) = true
          ∧ e = OSError_ (remove_error env
                            (tmp_path (abspath env UPLOAD_FOLDER) ".mp4" n))
          ∧ is_Some (files w' !! tmp_path (abspath env UPLOAD_FOLDER) ".mp4" n)))
    ∧ files w'
      = apply_effect (tmp_path (abspath env UPLOAD_FOLDER) ".mp4" n)
          (snd (run_ffmpeg env "uploads/answer.webm"
                  (tmp_path (abspath env UPLOAD_FOLDER) ".mp4" n)))
          (<[tmp_path (abspath env UPLOAD_FOLDER) ".mp4" n := 0%N]> (files w)).
Proof.
  intros env w w' e.
  apply (converter_raise_cases env "uploads/answer.webm" w e w').
  reflexivity.
Defined.

(** The second situation: the encoder fails and the output cannot be
    deleted. *)
Example refused_deletion_leaves_converter :
  fst (convert_webm_to_mp4 locked_output_env "uploads/answer.webm"
         (start {[ "uploads/answer.webm" := 4096%N ]}))
  = Raise (OSError_
             "[Errno 13] Permission denied: '/srv/app/uploads/tmpk3x9w2ab.mp4'").
Proof. reflexivity. Qed.

(** An [except] clause of the converter that can build its text and
    is allowed to delete the allocated output returns [None] and
    leaves none of it. *)
Lemma convert_except_clean env mp4 e w (fs : gmap string N) :
  error_text_builds env e ->
  remove_fails env mp4 = false ->
  fs !! mp4 = None ->
  (∀ p, p ≠ mp4 -> files w !! p = fs !! p) ->
  fst (convert_except env (Some mp4) e w) = Ok None
  ∧ files (snd (convert_except env (Some mp4) e w)) = fs.
Proof.
  intros Htext Hrm Hfree Hsame. rewrite convert_except_some.
  assert (∃ w2, unlinked env mp4 w = (Ok tt, w2) ∧ files w2 = fs)
    as (w2 & -> & Hfiles).
  { unfold unlinked. rewrite Hrm. case_bool_decide as Hthere.
    - eexists. split; [done|]. simpl. apply map_eq. intros p.
      destruct (decide (p = mp4)) as [->|Hne].
      + by rewrite lookup_delete_eq, Hfree.
      + rewrite lookup_delete_ne by done. by apply Hsame.
    - eexists. split; [done|]. apply map_eq. intros p.
      destruct (decide (p = mp4)) as [->|Hne]; [|by apply Hsame].
      rewrite Hfree. by apply eq_None_not_Some. }
  unfold error_text_builds in Htext.
  destruct (exn_class e) as [stderr| | |]; [destruct Htext as [text ->]| | |];
    done.
Qed.

(** X6: when the encoder fails, whatever it raises and whatever it
    had written, the text of line 83 can be built from its error
    output, and the operating system lets the allocated output be
    deleted, the converter returns [None] and the disk is exactly as
    it was before the call. *)
Theorem failed_encoding_leaves_disk_unchanged env webm_path w :
  (∀ out, ∃ e, fst (run_ffmpeg env webm_path out) = Raise e
               ∧ error_text_builds env e) ->
  (∀ n, n ∈ tmp_names env ->
        remove_fails env (tmp_path (abspath env UPLOAD_FOLDER) ".mp4" n) = false) ->
  fst (convert_webm_to_mp4 env webm_path w) = Ok None
  ∧ files (snd (convert_webm_to_mp4 env webm_path w)) = files w.
Proof.
  intros Hfail Hrm.
  unfold convert_webm_to_mp4, bind, record. simpl. unfold convert_try.
  destruct (mkstemp env ".mp4" UPLOAD_FOLDER _) as [[p|e1] w1] eqn:Hmk.
  - apply mkstemp_ok in Hmk as (Hfree & -> & n & Hn & ->). simpl in Hfree.
    unfold try_except, convert_body, bind, record, touch, lift. simpl.
    destruct (Hfail (tmp_path (abspath env UPLOAD_FOLDER) ".mp4" n))
      as (e & He & Htext).
    destruct (run_ffmpeg env webm_path _) as [res eff]. simpl in He. subst res.
    simpl. apply convert_except_clean; [done|by apply Hrm|done|].
    intros p Hp. simpl. rewrite apply_effect_other by done.
    by apply lookup_insert_ne.
  - apply mkstemp_raise in Hmk as [-> Hclass].
    by rewrite convert_except_unbound.
Qed.

Lemma failed_encoding_leaves_disk_unchanged_witness :
  fst (convert_webm_to_mp4 broken_encoder_env "uploads/answer.webm"
         (start {[ "uploads/answer.webm" := 4096%N ]}))
  = Ok None
  ∧ files (snd (convert_webm_to_mp4 broken_encoder_env "uploads/answer.webm"
                  (start {[ "uploads/answer.webm" := 4096%N ]})))
    = {[ "uploads/answer.webm" := 4096%N ]}.
Proof.
  refine (failed_encoding_leaves_disk_unchanged broken_encoder_env
            "uploads/answer.webm"
            (start {[ "uploads/answer.webm" := 4096%N ]}) _ _).
  - intros out. eexists. split; [reflexivity|]. by eexists.
  - intros n Hn. reflexivity.
Defined.

(** When the error output of the encoder cannot be decoded, the
    exception of line 83 leaves the converter before the output is
    deleted, and leaves the handler: the call at line 135 is outside
    the [try] statement. *)
Example garbled_stderr_escapes_handler :
  let r := process_video_complete garbled_stderr_env webm_request (start ∅) in
  fst r = Raise {| exn_class := OtherException;
                   exn_str := "'utf-8' codec can't decode bytes" |}
  ∧ files (snd r) !! "/srv/app/uploads/tmpk3x9w2ab.mp4" = Some 17%N.
Proof. split; reflexivity. Qed.

(** ** More on the handler *)

Lemma accepted_not_rejected env request file question :
  accepted env request file question -> ¬ rejected env request.
Proof.
  unfold accepted, rejected.
  intros (Hfile & Hq & Hne & Hname & Hext) [Hnone | [Hprompt | (f & Hf & Hbad)]].
  - congruence.
  - congruence.
  - rewrite Hfile in Hf. injection Hf as <-.
    destruct Hbad; congruence.
Qed.

(** The ways a run of the handler can go. *)
Lemma process_cases env request w r w' :
  process_video_complete env request w = (r, w') ->
  (rejected env request
   ∧ ∃ msg, msg ∈ validation_messages ∧ r = Ok (error_response msg 400) ∧ w' = w)
  ∨ ∃ file question,
      accepted env request file question
      ∧ ((∃ e, r = Raise e)
         ∨ r = Ok (error_response "Failed to convert .webm file to .mp4" 500)
         ∨ ∃ fn fp orig w1, run_pipeline env fn fp orig question w1 = (r, w')).
Proof.
  intros Hrun.
  destruct (rejected_or_accepted env request) as [Hrej | (file & q & Hacc)].
  - left. split; [done|].
    destruct (rejected_response env request w Hrej) as (msg & Hmsg & Heq).
    rewrite Heq in Hrun. injection Hrun as <- <-. eauto.
  - right. exists file, q. split; [done|].
    rewrite (accepted_process _ _ _ _ _ Hacc) in Hrun.
    apply accept_upload_cases in Hrun
      as [[_ Hrun] | [_ [(e & _ & ->) | [(o & _ & _ & ->) | (mp4 & w2 & _ & _ & Hrun)]]]];
      eauto 10.
Qed.

(** X7: no exception leaves the [try] statement of lines 149-284.
    Whatever the collaborators return or raise, and whatever deletion
    the operating system refuses, the statement answers, with status
    200 or 500, and the answer names the file it worked on. *)
Theorem try_statement_always_answers env fn fp orig q w :
  ∃ resp w',
    run_pipeline env fn fp orig q w = (Ok resp, w')
    ∧ (status resp = 200 ∨ status resp = 500)
    ∧ body resp !! "video_file" = Some (PyText fn).
Proof.
  destruct (run_pipeline_summary env fn fp orig q w) as [h Hsum].
  rewrite Hsum. eexists _, _. split; [reflexivity|].
  destruct (exit_of _ _ _ _ _) as [results| | |e] eqn:Hexit; unfold response_of.
  - split; [by left|]. simpl. rewrite lookup_insert_ne by done.
    by eapply exit_completed_video_file.
  - split; [by right|]. by rewrite error_response_for_file.
  - split; [by right|]. by rewrite error_response_for_file.
  - split; [by right|]. by rewrite error_response_for_file.
Qed.

(** The handler as a whole can raise: the converter is called outside
    the [try] statement, and the [OSError] of a refused deletion in
    its [except] clauses is not caught. *)
Example refused_deletion_escapes_handler :
  fst (process_video_complete locked_output_env webm_request (start ∅))
  = Raise (OSError_
             "[Errno 13] Permission denied: '/srv/app/uploads/tmpk3x9w2ab.mp4'").
Proof. reflexivity. Qed.

(** ** The shape of responses *)

Lemma error_response_no_status msg code :
  body (error_response msg code) !! "status" = None.
Proof. by apply lookup_singleton_ne. Qed.

Lemma error_response_for_no_status msg fn code :
  body (error_response_for msg fn code) !! "status" = None.
Proof.
  unfold error_response_for. simpl.
  rewrite lookup_insert_ne by done. by apply lookup_singleton_ne.
Qed.

Lemma exit_completed_inv env fn fp q fs results :
  exit_of env fn fp q fs = Completed results ->
  ∃ t, fst (extract_audio env fp (OUTPUT_AUDIO_FILENAME env)) = Ok true
       ∧ transcribe_audio env (OUTPUT_AUDIO_FILENAME env) = Ok (Some t)
       ∧ analysed env fp q t (initial_results fn q) = Ok results.
Proof.
  unfold exit_of. intros H.
  destruct (extract_audio env fp _).1 as [[|]|]; try discriminate H.
  destruct (transcribe_audio env _) as [[t|]|]; try discriminate H.
  - destruct (analysed _ _ _ _ _) as [r|] eqn:Ha; try discriminate H.
    injection H as <-. eauto.
  - by destruct (_ && _).
Qed.

(** Steps 3 to 6 store the transcript and exactly one of the two
    fields of the analysis service. *)
Lemma analysed_fields env fn fp q t results :
  analysed env fp q t (initial_results fn q) = Ok results ->
  results !! "transcript" = Some (PyText t)
  ∧ ((is_Some (results !! "gemini_analysis") ∧ results !! "gemini_error" = None)
     ∨ (results !! "gemini_analysis" = None ∧ is_Some (results !! "gemini_error"))).
Proof.
  unfold analysed, synthesized, add_video_metrics, add_audio_metrics,
    initial_results.
  intros H.
  repeat match type of H with
         | context [match ?x with _ => _ end] => destruct x; try discriminate H
         | context [if ?x then _ else _] => destruct x; try discriminate H
         end;
    injection H as <-;
    (split;
     [by repeat first [rewrite lookup_insert_eq | rewrite lookup_insert_ne by done]|]);
    first [ left; split;
            [rewrite lookup_insert_eq; by eexists
            |by repeat (rewrite lookup_insert_ne by done)]
          | right; split;
            [by repeat (rewrite lookup_insert_ne by done)
            |rewrite lookup_insert_eq; by eexists] ].
Qed.

(** What a 200 response of the [try] statement holds. *)
Lemma completed_fields env fn fp orig q w resp w' :
  run_pipeline env fn fp orig q w = (Ok resp, w') ->
  status resp = 200 ->
  body resp !! "status" = Some (PyText "complete")
  ∧ body resp !! "error" = None
  ∧ body resp !! "video_file" = Some (PyText fn)
  ∧ body resp !! "interview_question" = Some (PyText q)
  ∧ (∃ t, transcribe_audio env (OUTPUT_AUDIO_FILENAME env) = Ok (Some t)
          ∧ body resp !! "transcript" = Some (PyText t))
  ∧ ((is_Some (body resp !! "gemini_analysis") ∧ body resp !! "gemini_error" = None)
     ∨ (body resp !! "gemini_analysis" = None ∧ is_Some (body resp !! "gemini_error"))).
Proof.
  intros Hrun Hs.
  destruct (run_pipeline_summary env fn fp orig q w) as [h Hsum].
  rewrite Hsum in Hrun. injection Hrun as <- <-.
  apply response_completed in Hs as [results Hexit]. rewrite Hexit. simpl.
  pose proof (exit_completed_no_error _ _ _ _ _ _ Hexit) as Hno.
  pose proof (exit_completed_video_file _ _ _ _ _ _ Hexit) as Hfile.
  apply exit_completed_inv in Hexit as (t & _ & Htr & Ha).
  pose proof (analysed_fields _ _ _ _ _ _ Ha) as [Ht Hg].
  split; [apply lookup_insert_eq|].
  rewrite !lookup_insert_ne by done.
  split; [done|]. split; [done|]. split; [|split; [by exists t|done]].
  rewrite (analysed_keeps _ _ _ _ _ _ "interview_question" Ha).
  - unfold initial_results. rewrite lookup_insert_ne by done.
    apply lookup_insert_eq.
  - intros Hin%list_elem_of_In. simpl in Hin.
    repeat (destruct Hin as [Hin|Hin]; [discriminate Hin|]). done.
Qed.

(** What any other response of the [try] statement holds. *)
Lemma failed_fields env fn fp orig q w resp w' :
  run_pipeline env fn fp orig q w = (Ok resp, w') ->
  status resp ≠ 200 ->
  status resp = 500
  ∧ (∃ msg, body resp !! "error" = Some (PyText msg))
  ∧ body resp !! "status" = None
  ∧ body resp !! "video_file" = Some (PyText fn).
Proof.
  intros Hrun Hs.
  destruct (run_pipeline_summary env fn fp orig q w) as [h Hsum].
  rewrite Hsum in Hrun. injection Hrun as <- <-.
  destruct (exit_of _ _ _ _ _) as [r| | |e]; [done|..]; unfold response_of;
    rewrite error_response_for_error, error_response_for_no_status,
      error_response_for_file; eauto.
Qed.

(** X8: every response of the handler is of one of two shapes: status
    200 with the field [status] set to "complete" and no [error]
    field, or status 400 or 500 with an [error] message and no
    [status] field.  The initial "processing" status never leaves
    the handler. *)
Theorem response_shape env request w resp w' :
  process_video_complete env request w = (Ok resp, w') ->
  (status resp = 200
   ∧ body resp !! "status" = Some (PyText "complete")
   ∧ body resp !! "error" = None)
  ∨ ((status resp = 400 ∨ status resp = 500)
     ∧ (∃ msg, body resp !! "error" = Some (PyText msg))
     ∧ body resp !! "status" = None).
Proof.
  intros Hrun.
  apply process_cases in Hrun
    as [(_ & msg & _ & [= ->] & _)
       | (file & q & _ & [[e [=]] | [[= ->] | (fn & fp & orig & w1 & Hp)]])].
  - right. rewrite error_response_error, error_response_no_status. eauto.
  - right. rewrite error_response_error, error_response_no_status. eauto.
  - destruct (decide (status resp = 200)) as [Hs|Hs].
    + left. destruct (completed_fields _ _ _ _ _ _ _ _ Hp Hs) as (? & ? & _).
      done.
    + right. destruct (failed_fields _ _ _ _ _ _ _ _ Hp Hs) as (? & ? & ? & _).
      eauto.
Qed.

Lemma response_shape_witness :
  let resp := error_response "File type not allowed" 400 in
  (status resp = 200
   ∧ body resp !! "status" = Some (PyText "complete")
   ∧ body resp !! "error" = None)
  ∨ ((status resp = 400 ∨ status resp = 500)
     ∧ (∃ msg, body resp !! "error" = Some (PyText msg))
     ∧ body resp !! "status" = None).
Proof.
  apply (response_shape happy_env
           {| req_video := Some {| up_filename := "notes.txt"; up_size := 10 |};
              req_interview_question := Some "Why?" |}
           (start ∅) (error_response "File type not allowed" 400) (start ∅)).
  reflexivity.
Defined.

(** X9: a response has status 400 exactly when the request fails
    validation; a request that passes validation is answered with 200
    or 500. *)
Theorem bad_request_iff_rejected env request w resp w' :
  process_video_complete env request w = (Ok resp, w') ->
  (status resp = 400 <-> rejected env request)
  ∧ (¬ rejected env request -> status resp = 200 ∨ status resp = 500).
Proof.
  intros Hrun.
  apply process_cases in Hrun
    as [(Hrej & msg & _ & [= ->] & _)
       | (file & q & Hacc%accepted_not_rejected
          & [[e [=]] | [[= ->] | (fn & fp & orig & w1 & Hp)]])].
  - split; [done|]. by intros [].
  - split; [|auto]. split; [done|]. by intros ?.
  - assert (status resp = 200 ∨ status resp = 500) as Hs.
    { destruct (decide (status resp = 200)) as [Hs|Hs]; [auto|].
      right. by destruct (failed_fields _ _ _ _ _ _ _ _ Hp Hs). }
    split; [|auto]. split; [|by intros ?]. lia.
Qed.

Lemma bad_request_iff_rejected_witness :
  (let request :=
     {| req_video := Some {| up_filename := "notes.txt"; up_size := 10 |};
        req_interview_question := Some "Why?" |} in
   (status (error_response "File type not allowed" 400) = 400
    <-> rejected happy_env request)
   ∧ (¬ rejected happy_env request ->
      status (error_response "File type not allowed" 400) = 200
      ∨ status (error_response "File type not allowed" 400) = 500))
  ∧ ∃ resp,
      fst (process_video_complete happy_env mp4_request (start ∅)) = Ok resp
      ∧ status resp = 200
      ∧ (status resp = 400 <-> rejected happy_env mp4_request)
      ∧ (¬ rejected happy_env mp4_request ->
         status resp = 200 ∨ status resp = 500).
Proof.
  split.
  - apply (bad_request_iff_rejected happy_env
             {| req_video := Some {| up_filename := "notes.txt"; up_size := 10 |};
                req_interview_question := Some "Why?" |}
             (start ∅) (error_response "File type not allowed" 400) (start ∅)).
    reflexivity.
  - pose (r := process_video_complete happy_env mp4_request (start ∅)).
    assert (∃ resp, r = (Ok resp, snd r) ∧ status resp = 200)
      as (resp & Hr & Hs).
    { vm_compute. eexists. split; reflexivity. }
    exists resp. split; [change (fst r = Ok resp); by rewrite Hr|].
    split; [exact Hs|].
    exact (bad_request_iff_rejected happy_env mp4_request (start ∅) resp (snd r) Hr).
Defined.

(** X10: a 200 response to a request echoes its prompt in
    [interview_question], carries in [transcript] the text the
    transcriber returned (which may be empty), names the sanitized
    filename in [video_file] when the upload was not a .webm, and has
    exactly one of the fields [gemini_analysis] and [gemini_error]. *)
Theorem completed_response_fields env request file question w resp w' :
  accepted env request file question ->
  process_video_complete env request w = (Ok resp, w') ->
  status resp = 200 ->
  body resp !! "interview_question" = Some (PyText question)
  ∧ (∃ t, transcribe_audio env (OUTPUT_AUDIO_FILENAME env) = Ok (Some t)
          ∧ body resp !! "transcript" = Some (PyText t))
  ∧ (PyStr.endswith (str_lower env (secure_filename env (up_filename file))) ".webm"
     = false ->
     body resp !! "video_file"
     = Some (PyText (secure_filename env (up_filename file))))
  ∧ ((is_Some (body resp !! "gemini_analysis") ∧ body resp !! "gemini_error" = None)
     ∨ (body resp !! "gemini_analysis" = None ∧ is_Some (body resp !! "gemini_error"))).
Proof.
  intros Hacc Hrun Hs.
  rewrite (accepted_process _ _ _ _ _ Hacc) in Hrun.
  apply accept_upload_cases in Hrun
    as [[Hno Hrun] | [Hyes [(e & _ & [=]) | [(o & _ & _ & [= ->]) | (mp4 & w2 & _ & _ & Hrun)]]]];
    [| done |].
  - destruct (completed_fields _ _ _ _ _ _ _ _ Hrun Hs)
      as (_ & _ & Hfile & Hq & Ht & Hg).
    done.
  - destruct (completed_fields _ _ _ _ _ _ _ _ Hrun Hs)
      as (_ & _ & Hfile & Hq & Ht & Hg).
    repeat split; try done. congruence.
Qed.

Lemma completed_response_fields_witness :
  ∃ resp,
    fst (process_video_complete happy_env mp4_request (start ∅)) = Ok resp
    ∧ body resp !! "interview_question" = Some (PyText "Describe your experience")
    ∧ (∃ t, transcribe_audio happy_env (OUTPUT_AUDIO_FILENAME happy_env) = Ok (Some t)
            ∧ body resp !! "transcript" = Some (PyText t)).
Proof.
  pose (r := process_video_complete happy_env mp4_request (start ∅)).
  assert (∃ resp, r = (Ok resp, snd r) ∧ status resp = 200)
    as (resp & Hr & Hs).
  { vm_compute. eexists. split; reflexivity. }
  exists resp. split; [change (fst r = Ok resp); by rewrite Hr|].
  destruct (completed_response_fields happy_env mp4_request
              {| up_filename := "answer.mp4"; up_size := 4096 |}
              "Describe your experience" (start ∅) resp (snd r))
    as (Hq & Ht & _).
  - repeat split; done.
  - exact Hr.
  - exact Hs.
  - split; [exact Hq|exact Ht].
Defined.

(** ** The stages, one by one *)

(** X11: when audio extraction reports failure the pipeline stops at
    once: the answer is the extraction error with the filename, no
    other collaborator is called, nothing is deleted, and the disk is
    as the extractor left it. *)
Theorem extraction_failure_stops_pipeline env fn fp orig q w :
  fst (extract_audio env fp (OUTPUT_AUDIO_FILENAME env)) = Ok false ->
  run_pipeline env fn fp orig q w
  = (Ok (error_response_for "Audio extraction failed" fn 500),
     {| files := apply_effect (OUTPUT_AUDIO_FILENAME env)
                   (snd (extract_audio env fp (OUTPUT_AUDIO_FILENAME env)))
                   (files w);
        history := history w ++ [EvExtract fp (OUTPUT_AUDIO_FILENAME env)] |}).
Proof.
  intros Hex.
  unfold run_pipeline, try_except, stages, bind, record, touch, lift. simpl.
  by rewrite Hex.
Qed.

Lemma extraction_failure_stops_pipeline_witness :
  run_pipeline partial_audio_env "answer.mp4" "uploads/answer.mp4"
    "uploads/answer.mp4" "Why?" (start {[ "uploads/answer.mp4" := 4096%N ]})
  = (Ok (error_response_for "Audio extraction failed" "answer.mp4" 500),
     {| files := {[ "extracted_audio.wav" := 64%N; "uploads/answer.mp4" := 4096%N ]};
        history := [EvExtract "uploads/answer.mp4" "extracted_audio.wav"] |}).
Proof.
  refine (extraction_failure_stops_pipeline partial_audio_env "answer.mp4"
            "uploads/answer.mp4" "uploads/answer.mp4" "Why?"
            (start {[ "uploads/answer.mp4" := 4096%N ]}) _).
  reflexivity.
Defined.

(** X12: when the transcriber returns no transcript, the audio
    artifact is deleted and the answer is the transcription error;
    but if that deletion is refused, its [OSError] reaches the
    unhandled-fault clause and the answer is the fault response with
    the text of the [OSError] instead. *)
Theorem transcription_failure_response env fn fp orig q w :
  fst (extract_audio env fp (OUTPUT_AUDIO_FILENAME env)) = Ok true ->
  transcribe_audio env (OUTPUT_AUDIO_FILENAME env) = Ok None ->
  let fs := apply_effect (OUTPUT_AUDIO_FILENAME env)
              (snd (extract_audio env fp (OUTPUT_AUDIO_FILENAME env))) (files w) in
  let run := run_pipeline env fn fp orig q w in
  if bool_decide (is_Some (fs !! OUTPUT_AUDIO_FILENAME env))
     && remove_fails env (OUTPUT_AUDIO_FILENAME env)
  then fst run
       = Ok (error_response_for
               ("Error processing video: "
                +:+ remove_error env (OUTPUT_AUDIO_FILENAME env)) fn 500)
       ∧ is_Some (files (snd run) !! OUTPUT_AUDIO_FILENAME env)
  else fst run = Ok (error_response_for "Transcription failed" fn 500)
       ∧ files (snd run) = delete (OUTPUT_AUDIO_FILENAME env) fs.
Proof.
  intros Hex Htr fs run. subst run.
  destruct (run_pipeline_summary env fn fp orig q w) as [h Hsum].
  rewrite Hsum. simpl. fold fs. unfold exit_of. rewrite Hex, Htr. fold fs.
  destruct (bool_decide (is_Some (fs !! OUTPUT_AUDIO_FILENAME env))) eqn:Hthere;
    simpl; [|done].
  destruct (remove_fails env (OUTPUT_AUDIO_FILENAME env)) eqn:Hrm; simpl; [|done].
  split; [done|].
  apply bool_decide_eq_true in Hthere.
  assert (after_cleanup env (OUTPUT_AUDIO_FILENAME env) fs = fs) as Hkeep.
  { unfold after_cleanup. rewrite Hrm. by rewrite andb_false_r. }
  rewrite Hkeep. case_bool_decide; [|done].
  destruct (decide (fp = OUTPUT_AUDIO_FILENAME env)) as [->|Hne].
  - by rewrite Hkeep.
  - by rewrite after_cleanup_other.
Qed.

Lemma transcription_failure_response_witness :
  fst (run_pipeline silent_transcriber_env "answer.mp4" "uploads/answer.mp4"
         "uploads/answer.mp4" "Why?" (start {[ "uploads/answer.mp4" := 4096%N ]}))
  = Ok (error_response_for "Transcription failed" "answer.mp4" 500)
  ∧ files (snd (run_pipeline silent_transcriber_env "answer.mp4"
                  "uploads/answer.mp4" "uploads/answer.mp4" "Why?"
                  (start {[ "uploads/answer.mp4" := 4096%N ]})))
    = delete "extracted_audio.wav"
        (<["extracted_audio.wav" := 512%N]> {[ "uploads/answer.mp4" := 4096%N ]}).
Proof.
  refine (transcription_failure_response silent_transcriber_env "answer.mp4"
            "uploads/answer.mp4" "uploads/answer.mp4" "Why?"
            (start {[ "uploads/answer.mp4" := 4096%N ]}) _ _);
    reflexivity.
Defined.

(** ** What the handler leaves on disk *)

Lemma file_save_files file p w :
  files (snd (file_save file p w)) = <[p := up_size file]> (files w).
Proof. reflexivity. Qed.

(** The [try] statement leaves a path as it was, unless it is the
    audio artifact, the original upload of a completed run with
    conversion, or the converted file of a run that failed. *)
Lemma run_pipeline_keeps env fn fp orig q w r w' p :
  run_pipeline env fn fp orig q w = (r, w') ->
  p ≠ OUTPUT_AUDIO_FILENAME env ->
  (orig ≠ fp -> p ≠ fp) ->
  (orig ≠ fp -> p ≠ orig ∨ ∀ resp, r = Ok resp -> status resp ≠ 200) ->
  files w' !! p = files w !! p.
Proof.
  intros Hrun Hout Hfp Horig.
  destruct (run_pipeline_summary env fn fp orig q w) as [h Hsum].
  rewrite Hsum in Hrun. injection Hrun as <- <-. simpl.
  assert (∀ fs : gmap string N,
            after_cleanup env (OUTPUT_AUDIO_FILENAME env) fs !! p = fs !! p)
    as Haudio by (intros fs; by apply after_cleanup_other).
  destruct (exit_of _ _ _ _ _) as [results| | |e]; simpl.
  - case_bool_decide as Hconv.
    + destruct (Horig Hconv) as [Hne | Hstatus].
      * rewrite after_cleanup_other, Haudio by done.
        by apply apply_effect_other.
      * by destruct (Hstatus _ eq_refl).
    + rewrite Haudio. by apply apply_effect_other.
  - by apply apply_effect_other.
  - rewrite lookup_delete_ne by done. by apply apply_effect_other.
  - case_bool_decide as Hconv.
    + rewrite after_cleanup_other, Haudio by (try apply not_eq_sym; auto).
      by apply apply_effect_other.
    + rewrite Haudio. by apply apply_effect_other.
Qed.

(** X13: the saved upload is still on disk, with the uploaded
    content, after every response to a request that is not a .webm,
    and after every response to a .webm request other than a 200:
    the handler deletes an upload only after it has converted it and
    completed the analysis. *)
Theorem upload_kept env request file question w r w' :
  accepted env request file question ->
  process_video_complete env request w = (r, w') ->
  OUTPUT_AUDIO_FILENAME env
  ≠ PyStr.path_join UPLOAD_FOLDER (secure_filename env (up_filename file)) ->
  (PyStr.endswith (str_lower env (secure_filename env (up_filename file))) ".webm"
   = false
   ∨ ∀ resp, r = Ok resp -> status resp ≠ 200) ->
  files w' !! PyStr.path_join UPLOAD_FOLDER (secure_filename env (up_filename file))
  = Some (up_size file).
Proof.
  intros Hacc Hrun Hout Hkind.
  rewrite (accepted_process _ _ _ _ _ Hacc) in Hrun.
  apply accept_upload_cases in Hrun. cbv zeta in Hrun.
  set (saved := PyStr.path_join UPLOAD_FOLDER
                  (secure_filename env (up_filename file))) in *.
  set (w1 := snd (file_save file saved w)) in *.
  assert (files w1 !! saved = Some (up_size file)) as Hsaved.
  { subst w1. rewrite file_save_files. apply lookup_insert_eq. }
  destruct Hrun
    as [[_ Hrun]
       | [Hwebm [(e & Hconv & _) | [(o & Hconv & _ & _) | (mp4 & w2 & Hconv & _ & Hrun)]]]].
  - rewrite (run_pipeline_keeps _ _ _ _ _ _ _ _ saved Hrun); auto; done.
  - pose proof (convert_keeps_existing env saved w1 saved) as Hkeep.
    rewrite Hconv in Hkeep. simpl in Hkeep. rewrite Hkeep; [done|].
    exists (up_size file). exact Hsaved.
  - pose proof (convert_keeps_existing env saved w1 saved) as Hkeep.
    rewrite Hconv in Hkeep. simpl in Hkeep. rewrite Hkeep; [done|].
    exists (up_size file). exact Hsaved.
  - destruct Hkind as [Hother | Hstatus]; [congruence|].
    apply convert_success in Hconv as (Hfree & _ & Hrest & _).
    assert (saved ≠ mp4) as Hne by (intros ->; congruence).
    rewrite (run_pipeline_keeps _ _ _ _ _ _ _ _ saved Hrun); auto.
    by rewrite Hrest.
Qed.

Lemma upload_kept_witness :
  files (snd (process_video_complete happy_env mp4_request (start ∅)))
    !! "uploads/answer.mp4"
  = Some 4096%N.
Proof.
  refine (upload_kept happy_env mp4_request
            {| up_filename := "answer.mp4"; up_size := 4096 |}
            "Describe your experience" (start ∅)
            (fst (process_video_complete happy_env mp4_request (start ∅)))
            (snd (process_video_complete happy_env mp4_request (start ∅)))
            _ _ _ _).
  - repeat split; done.
  - apply surjective_pairing.
  - done.
  - left. reflexivity.
Defined.

(** X14: the handler changes no file other than the saved upload,
    the audio artifact and the outputs [mkstemp] may allocate: every
    other path holds after the request what it held before. *)
Theorem handler_touches_only_its_paths env request w r w' p :
  process_video_complete env request w = (r, w') ->
  p ≠ OUTPUT_AUDIO_FILENAME env ->
  (∀ file, req_video request = Some file ->
           p ≠ PyStr.path_join UPLOAD_FOLDER
                 (secure_filename env (up_filename file))) ->
  (∀ n, n ∈ tmp_names env -> p ≠ tmp_path (abspath env UPLOAD_FOLDER) ".mp4" n) ->
  files w' !! p = files w !! p.
Proof.
  intros Hrun Hout Hup Htmp.
  destruct (rejected_or_accepted env request) as [Hrej | (file & q & Hacc)].
  - destruct (rejected_response env request w Hrej) as (msg & _ & Heq).
    rewrite Heq in Hrun. by injection Hrun as <- <-.
  - rewrite (accepted_process _ _ _ _ _ Hacc) in Hrun.
    destruct Hacc as (Hfile & _). specialize (Hup file Hfile).
    apply accept_upload_cases in Hrun. cbv zeta in Hrun.
    set (saved := PyStr.path_join UPLOAD_FOLDER
                    (secure_filename env (up_filename file))) in *.
    set (w1 := snd (file_save file saved w)) in *.
    assert (files w1 !! p = files w !! p) as Hsave.
    { subst w1. rewrite file_save_files. by apply lookup_insert_ne. }
    destruct Hrun
      as [[_ Hrun]
         | [_ [(e & Hconv & _) | [(o & Hconv & _ & _) | (mp4 & w2 & Hconv & _ & Hrun)]]]].
    + rewrite (run_pipeline_keeps _ _ _ _ _ _ _ _ p Hrun); auto; done.
    + by rewrite (convert_frame _ _ _ _ _ p Hconv).
    + by rewrite (convert_frame _ _ _ _ _ p Hconv).
    + pose proof (convert_frame _ _ _ _ _ p Hconv Htmp) as Hframe.
      apply convert_success in Hconv as (_ & _ & _ & n & Hn & ->).
      rewrite (run_pipeline_keeps _ _ _ _ _ _ _ _ p Hrun); auto.
      congruence.
Qed.

Lemma handler_touches_only_its_paths_witness :
  files (snd (process_video_complete broken_encoder_env webm_request
                (start {[ "notes.txt" := 12%N ]})))
    !! "notes.txt"
  = Some 12%N.
Proof.
  refine (handler_touches_only_its_paths broken_encoder_env webm_request
            (start {[ "notes.txt" := 12%N ]})
            (fst (process_video_complete broken_encoder_env webm_request
                    (start {[ "notes.txt" := 12%N ]})))
            (snd (process_video_complete broken_encoder_env webm_request
                    (start {[ "notes.txt" := 12%N ]})))
            "notes.txt" _ _ _ _).
  - apply surjective_pairing.
  - done.
  - by intros file [= <-].
  - intros n Hn. apply list_elem_of_In in Hn. simpl in Hn.
    destruct Hn as [<- | [<- | []]]; done.
Defined.

(** ** The order of the calls *)

(** The calls of a run in which no step raises. *)
Lemma completed_history env fn fp orig q w t a v vs :
  fst (extract_audio env fp (OUTPUT_AUDIO_FILENAME env)) = Ok true ->
  transcribe_audio env (OUTPUT_AUDIO_FILENAME env) = Ok (Some t) ->
  analyze_audio_features env (OUTPUT_AUDIO_FILENAME env) t = Ok a ->
  analyze_video_features env fp = Ok v ->
  format_video_metrics env v = Ok vs ->
  service_answers env q t (format_audio_metrics env a) vs ->
  let fs := apply_effect (OUTPUT_AUDIO_FILENAME env)
              (snd (extract_audio env fp (OUTPUT_AUDIO_FILENAME env))) (files w) in
  history (snd (run_pipeline env fn fp orig q w))
  = history w
    ++ [EvExtract fp (OUTPUT_AUDIO_FILENAME env);
        EvTranscribe (OUTPUT_AUDIO_FILENAME env);
        EvAudioFeatures (OUTPUT_AUDIO_FILENAME env) t;
        EvVideoFeatures fp]
    ++ (if gemini_configured env
        then [EvGemini q t (format_audio_metrics env a) vs] else [])
    ++ cleanup_log (OUTPUT_AUDIO_FILENAME env) fs
    ++ (if bool_decide (orig ≠ fp)
        then cleanup_log orig (after_cleanup env (OUTPUT_AUDIO_FILENAME env) fs)
        else []).
Proof.
  intros Hex Htr Ha Hv Hvs Hg fs.
  unfold run_pipeline, try_except, stages.
  unfold bind at 1 2 3. unfold record, touch, lift. simpl. fold fs.
  rewrite Hex. simpl. unfold bind at 1 2. simpl. rewrite Htr. simpl.
  unfold analyse_and_finish, bind, record, lift. simpl.
  rewrite Ha, Hv, Hvs. unfold synthesize, bind, record, lift, ret.
  destruct (gemini_configured env) eqn:Hconf; simpl.
  - destruct Hg as [Hoff | (g & -> & Hparse)]; [congruence|].
    destruct (g !! "analysis") as [s|] eqn:Hs;
      [destruct (Hparse s eq_refl) as [parsed ->]|];
      rewrite cleanup_eq; simpl;
      (case_bool_decide; [rewrite cleanup_eq|]); simpl;
      rewrite <- ?app_assoc; simpl; by rewrite ?app_nil_r.
  - rewrite cleanup_eq; simpl;
      (case_bool_decide; [rewrite cleanup_eq|]); simpl;
      rewrite <- ?app_assoc; simpl; by rewrite ?app_nil_r.
Qed.

(** X15: a run that completes calls its collaborators in one fixed
    order: the extractor, the transcriber, the audio analyser with the
    transcript, the video analyser, then the analysis service, only
    when it is configured and with the two formatted blocks as its
    arguments, and only then the deletions, the audio artifact before
    the original upload. *)
Theorem completed_run_call_order env fn fp orig q w t a v vs :
  fst (extract_audio env fp (OUTPUT_AUDIO_FILENAME env)) = Ok true ->
  transcribe_audio env (OUTPUT_AUDIO_FILENAME env) = Ok (Some t) ->
  analyze_audio_features env (OUTPUT_AUDIO_FILENAME env) t = Ok a ->
  analyze_video_features env fp = Ok v ->
  format_video_metrics env v = Ok vs ->
  (gemini_configured env = true ->
   ∃ g, analyze_video_with_gemini env q t (format_audio_metrics env a) vs = Ok g
        ∧ ∀ s, g !! "analysis" = Some s -> ∃ parsed, parse_analysis env s = Ok parsed) ->
  let fs := apply_effect (OUTPUT_AUDIO_FILENAME env)
              (snd (extract_audio env fp (OUTPUT_AUDIO_FILENAME env))) (files w) in
  history (snd (run_pipeline env fn fp orig q w))
  = history w
    ++ [EvExtract fp (OUTPUT_AUDIO_FILENAME env);
        EvTranscribe (OUTPUT_AUDIO_FILENAME env);
        EvAudioFeatures (OUTPUT_AUDIO_FILENAME env) t;
        EvVideoFeatures fp]
    ++ (if gemini_configured env
        then [EvGemini q t (format_audio_metrics env a) vs] else [])
    ++ cleanup_log (OUTPUT_AUDIO_FILENAME env) fs
    ++ (if bool_decide (orig ≠ fp)
        then cleanup_log orig (after_cleanup env (OUTPUT_AUDIO_FILENAME env) fs)
        else []).
Proof.
  intros Hex Htr Ha Hv Hvs Hg.
  apply (completed_history env fn fp orig q w t a v vs); try done.
  unfold service_answers.
  destruct (gemini_configured env); [right; by apply Hg|by left].
Qed.

Lemma completed_run_call_order_witness :
  history (snd (run_pipeline happy_env "tmpk3x9w2ab.mp4" "/srv/app/uploads/tmpk3x9w2ab.mp4"
                  "uploads/answer.webm" "Why?"
                  (start {[ "uploads/answer.webm" := 4096%N;
                            "/srv/app/uploads/tmpk3x9w2ab.mp4" := 2048%N ]})))
  = [EvExtract "/srv/app/uploads/tmpk3x9w2ab.mp4" "extracted_audio.wav";
     EvTranscribe "extracted_audio.wav";
     EvAudioFeatures "extracted_audio.wav" "I led a team of four.";
     EvVideoFeatures "/srv/app/uploads/tmpk3x9w2ab.mp4";
     EvGemini "Why?" "I led a team of four."
       ("Audio Analysis:" +:+ nl +:+ "- Speech Rate: 120" +:+ nl)
       ("Video Analysis:" +:+ nl +:+ "- Emotion Distribution:" +:+ nl
        +:+ "  - happy: 3" +:+ nl +:+ "- Eye Contact: 0.5" +:+ nl);
     EvRemove "extracted_audio.wav";
     EvRemove "uploads/answer.webm"].
Proof.
  refine (completed_run_call_order happy_env "tmpk3x9w2ab.mp4"
            "/srv/app/uploads/tmpk3x9w2ab.mp4" "uploads/answer.webm" "Why?"
            (start {[ "uploads/answer.webm" := 4096%N;
                      "/srv/app/uploads/tmpk3x9w2ab.mp4" := 2048%N ]})
            "I led a team of four."
            (Some [("speech_rate", PyInt 120)])
            (Some [("emotion_distribution", PyMap [("happy", PyInt 3)]);
                   ("eye_contact", PyFloat "0.5")])
            ("Video Analysis:" +:+ nl +:+ "- Emotion Distribution:" +:+ nl
             +:+ "  - happy: 3" +:+ nl +:+ "- Eye Contact: 0.5" +:+ nl)
            _ _ _ _ _ _);
    try reflexivity.
  intros _. eexists. split; [reflexivity|].
  intros s [_ <-]%lookup_singleton_Some. by eexists.
Defined.

(** ** Failures of the analysis *)

(** X16: an exception of the analysis service is no degradation: it
    aborts the run.  The answer is the 500 fault response with the
    text of the exception, so the transcript and the metrics already
    computed are not returned, and a converted file whose deletion is
    not refused is deleted. *)
Theorem service_exception_aborts env fn fp orig q w t a v vs e :
  fst (extract_audio env fp (OUTPUT_AUDIO_FILENAME env)) = Ok true ->
  transcribe_audio env (OUTPUT_AUDIO_FILENAME env) = Ok (Some t) ->
  analyze_audio_features env (OUTPUT_AUDIO_FILENAME env) t = Ok a ->
  analyze_video_features env fp = Ok v ->
  format_video_metrics env v = Ok vs ->
  gemini_configured env = true ->
  analyze_video_with_gemini env q t (format_audio_metrics env a) vs = Raise e ->
  fst (run_pipeline env fn fp orig q w)
  = Ok (error_response_for ("Error processing video: " +:+ exn_str e) fn 500)
  ∧ (orig ≠ fp -> remove_fails env fp = false ->
     files (snd (run_pipeline env fn fp orig q w)) !! fp = None).
Proof.
  intros Hex Htr Ha Hv Hvs Hconf Hg.
  destruct (run_pipeline_summary env fn fp orig q w) as [h Hsum].
  rewrite Hsum. simpl. unfold exit_of. rewrite Hex, Htr. unfold analysed.
  rewrite Ha, Hv, Hvs. unfold synthesized. rewrite Hconf, Hg. simpl.
  split; [done|]. intros Hne Hrm.
  rewrite bool_decide_eq_true_2 by done.
  by apply after_cleanup_gone.
Qed.

Lemma service_exception_aborts_witness :
  fst (run_pipeline failing_service_env "tmpk3x9w2ab.mp4" "/srv/app/uploads/tmpk3x9w2ab.mp4"
         "uploads/answer.webm" "Why?"
         (start {[ "uploads/answer.webm" := 4096%N;
                   "/srv/app/uploads/tmpk3x9w2ab.mp4" := 2048%N ]}))
  = Ok (error_response_for "Error processing video: 503 Service Unavailable"
          "tmpk3x9w2ab.mp4" 500)
  ∧ files (snd (run_pipeline failing_service_env "tmpk3x9w2ab.mp4"
                  "/srv/app/uploads/tmpk3x9w2ab.mp4" "uploads/answer.webm" "Why?"
                  (start {[ "uploads/answer.webm" := 4096%N;
                            "/srv/app/uploads/tmpk3x9w2ab.mp4" := 2048%N ]})))
      !! "/srv/app/uploads/tmpk3x9w2ab.mp4" = None.
Proof.
  destruct (service_exception_aborts failing_service_env "tmpk3x9w2ab.mp4"
              "/srv/app/uploads/tmpk3x9w2ab.mp4" "uploads/answer.webm" "Why?"
              (start {[ "uploads/answer.webm" := 4096%N;
                        "/srv/app/uploads/tmpk3x9w2ab.mp4" := 2048%N ]})
              "I led a team of four."
              (Some [("speech_rate", PyInt 120)])
              (Some [("emotion_distribution", PyMap [("happy", PyInt 3)]);
                     ("eye_contact", PyFloat "0.5")])
              ("Video Analysis:" +:+ nl +:+ "- Emotion Distribution:" +:+ nl
               +:+ "  - happy: 3" +:+ nl +:+ "- Eye Contact: 0.5" +:+ nl)
              {| exn_class := OtherException; exn_str := "503 Service Unavailable" |})
    as [Hresp Hfiles]; try reflexivity.
  split; [exact Hresp|]. by apply Hfiles.
Defined.

(** X17: an [emotion_distribution] that is no mapping aborts the run:
    when the video metrics are usable and every distribution before
    it is a mapping, formatting raises on the call of [items], and
    the answer is the 500 fault response that names the type of the
    value. *)
Theorem malformed_emotions_abort env fn fp orig q w t a pre x post :
  fst (extract_audio env fp (OUTPUT_AUDIO_FILENAME env)) = Ok true ->
  transcribe_audio env (OUTPUT_AUDIO_FILENAME env) = Ok (Some t) ->
  analyze_audio_features env (OUTPUT_AUDIO_FILENAME env) t = Ok a ->
  analyze_video_features env fp
  = Ok (Some (pre ++ ("emotion_distribution", x) :: post)) ->
  has_key "error" (pre ++ ("emotion_distribution", x) :: post) = false ->
  emotions_are_mappings pre ->
  (∀ entries, x ≠ PyMap entries) ->
  fst (run_pipeline env fn fp orig q w)
  = Ok (error_response_for
          ("Error processing video: '" +:+ type_name x
           +:+ "' object has no attribute 'items'") fn 500).
Proof.
  intros Hex Htr Ha Hv Herr Hpre Hx.
  assert (format_video_metrics env (Some (pre ++ ("emotion_distribution", x) :: post))
          = Raise {| exn_class := OtherException;
                     exn_str := "'" +:+ type_name x
                                +:+ "' object has no attribute 'items'" |})
    as Hfmt.
  { unfold format_video_metrics, usable_video_metrics. simpl default.
    rewrite Herr.
    assert (truthy_metrics (Some (pre ++ ("emotion_distribution", x) :: post)) = true)
      as -> by (by destruct pre).
    simpl andb. cbv iota.
    rewrite fold_left_app, video_loop by done. cbn [fold_left].
    assert (∀ s, video_line env (Ok s) ("emotion_distribution", x)
                 = Raise {| exn_class := OtherException;
                            exn_str := "'" +:+ type_name x
                                       +:+ "' object has no attribute 'items'" |})
      as Hline.
    { intros s. unfold video_line. simpl.
      destruct x; try done. by destruct (Hx entries). }
    rewrite Hline. apply video_loop_raise. }
  destruct (run_pipeline_summary env fn fp orig q w) as [h Hsum].
  rewrite Hsum. simpl. unfold exit_of. rewrite Hex, Htr. unfold analysed.
  by rewrite Ha, Hv, Hfmt.
Qed.

Lemma malformed_emotions_abort_witness :
  fst (run_pipeline malformed_emotions_env "answer.mp4" "uploads/answer.mp4"
         "uploads/answer.mp4" "Why?" (start {[ "uploads/answer.mp4" := 4096%N ]}))
  = Ok (error_response_for
          "Error processing video: 'int' object has no attribute 'items'"
          "answer.mp4" 500).
Proof.
  refine (malformed_emotions_abort malformed_emotions_env "answer.mp4"
            "uploads/answer.mp4" "uploads/answer.mp4" "Why?"
            (start {[ "uploads/answer.mp4" := 4096%N ]})
            "I led a team of four."
            (Some [("speech_rate", PyInt 120)])
            [("eye_contact", PyFloat "0.5")] (PyInt 0) []
            _ _ _ _ _ _ _);
    try reflexivity.
  - repeat constructor. simpl. discriminate.
  - discriminate.
Defined.

(** X18: an answer of the analysis service without an [analysis]
    entry is a degradation: the run completes with status 200, there
    is no [gemini_analysis] field, and [gemini_error] is the [error]
    entry of the answer, or "Unknown Gemini error" when the answer
    has none. *)
Theorem service_error_degrades env fn fp orig q w t a v vs g :
  fst (extract_audio env fp (OUTPUT_AUDIO_FILENAME env)) = Ok true ->
  transcribe_audio env (OUTPUT_AUDIO_FILENAME env) = Ok (Some t) ->
  analyze_audio_features env (OUTPUT_AUDIO_FILENAME env) t = Ok a ->
  analyze_video_features env fp = Ok v ->
  format_video_metrics env v = Ok vs ->
  gemini_configured env = true ->
  analyze_video_with_gemini env q t (format_audio_metrics env a) vs = Ok g ->
  g !! "analysis" = None ->
  ∃ resp,
    fst (run_pipeline env fn fp orig q w) = Ok resp
    ∧ status resp = 200
    ∧ body resp !! "gemini_analysis" = None
    ∧ body resp !! "gemini_error"
      = Some (PyText (default "Unknown Gemini error" (g !! "error"))).
Proof.
  intros Hex Htr Ha Hv Hvs Hconf Hg Hnone.
  destruct (run_pipeline_summary env fn fp orig q w) as [h Hsum].
  rewrite Hsum. simpl. unfold exit_of. rewrite Hex, Htr. unfold analysed.
  rewrite Ha, Hv, Hvs. unfold synthesized. rewrite Hconf, Hg, Hnone. simpl.
  eexists. split; [reflexivity|]. simpl. split; [done|].
  rewrite !(lookup_insert_ne _ "status") by done.
  split; [|apply lookup_insert_eq].
  rewrite lookup_insert_ne by done.
  unfold add_video_metrics, add_audio_metrics, initial_results.
  destruct (usable_video_metrics v), (truthy_metrics a);
    by repeat (rewrite lookup_insert_ne by done).
Qed.

Lemma service_error_degrades_witness :
  ∃ resp,
    fst (run_pipeline mute_service_env "answer.mp4" "uploads/answer.mp4"
           "uploads/answer.mp4" "Why?" (start {[ "uploads/answer.mp4" := 4096%N ]}))
    = Ok resp
    ∧ status resp = 200
    ∧ body resp !! "gemini_analysis" = None
    ∧ body resp !! "gemini_error" = Some (PyText "Unknown Gemini error").
Proof.
  refine (service_error_degrades mute_service_env "answer.mp4"
            "uploads/answer.mp4" "uploads/answer.mp4" "Why?"
            (start {[ "uploads/answer.mp4" := 4096%N ]})
            "I led a team of four."
            (Some [("speech_rate", PyInt 120)])
            (Some [("emotion_distribution", PyMap [("happy", PyInt 3)]);
                   ("eye_contact", PyFloat "0.5")])
            ("Video Analysis:" +:+ nl +:+ "- Emotion Distribution:" +:+ nl
             +:+ "  - happy: 3" +:+ nl +:+ "- Eye Contact: 0.5" +:+ nl)
            {[ "detail" := "quota exceeded" ]}
            _ _ _ _ _ _ _ _);
    reflexivity.
Defined.

(** ** Which uploads are normalized *)






(** The sanitized name decides, not the name as uploaded: when
    sanitizing strips the leading dot of ".webm", as
    [werkzeug.utils.secure_filename] does, the upload passes
    validation with the extension "webm" and is not converted. *)
Example dot_webm_not_converted :
  let env := with_sanitizer happy_env (fun _ => "webm") in
  let request :=
    {| req_video := Some {| up_filename := ".webm"; up_size := 4096 |};
       req_interview_question := Some "Why?" |} in
  allowed_file env ".webm" = true
  ∧ history (snd (process_video_complete env request (start ∅)))
    !! 1%nat = Some (EvExtract "uploads/webm" "extracted_audio.wav").
Proof. split; reflexivity. Qed.

(** ** The analysis field *)

(** X19: when the analysis service is configured and answers with an
    analysis text [s] whose first "{" is at [i] and whose last "}" is
    at [j >= i], step 6 hands [s[i..j]] to [json.loads]: the field
    [gemini_analysis] is the parsed value when there is one, it is the
    raw text [s] when the parser raises [JSONDecodeError], and any
    other exception of the parser leaves step 6.  When [s] has no
    such pair of braces the field is the raw text [s]. *)
Theorem analysis_field_from_braces env question transcript audio_text video_text
    (answer : gmap string string) (results : gmap string PyValue) s w :
  gemini_configured env = true ->
  analyze_video_with_gemini env question transcript audio_text video_text
    = Ok answer ->
  answer !! "analysis" = Some s ->
  (∀ i j, first_occurrence "{" s i -> last_occurrence "}" s j -> (i <= j)%nat ->
          fst (synthesize env question transcript audio_text video_text results w)
          = match json_loads env (between s i j) with
            | Ok parsed => Ok (<["gemini_analysis" := parsed]> results)
            | Raise e =>
                match exn_class e with
                | JSONDecodeError => Ok (<["gemini_analysis" := PyText s]> results)
                | _ => Raise e
                end
            end)
  ∧ ((¬ ∃ i j, first_occurrence "{" s i ∧ last_occurrence "}" s j
               ∧ (i <= j)%nat) ->
     fst (synthesize env question transcript audio_text video_text results w)
     = Ok (<["gemini_analysis" := PyText s]> results)).
Proof.
  intros Hconf Hcall Hs. split.
  - intros i j Hi Hj Hij. by eapply synthesize_braces.
  - intros Hno. by eapply synthesize_no_braces.
Qed.

Lemma analysis_field_from_braces_witness :
  fst (synthesize happy_env "Why?" "Because." "" "" ∅ (start ∅))
  = Ok {[ "gemini_analysis" := PyMap [] ]}.
Proof.
  destruct (analysis_field_from_braces happy_env "Why?" "Because." "" ""
              {[ "analysis" := "Verdict: {}" ]} ∅ "Verdict: {}" (start ∅)
              eq_refl eq_refl eq_refl) as [Hbraces _].
  refine (Hbraces 9%nat 10%nat _ _ _).
  - split; [reflexivity|]. intros k Hk.
    do 9 (destruct k as [|k]; [done|]). lia.
  - split; [reflexivity|]. intros k Hk.
    do 11 (destruct k as [|k]; [lia|]). done.
  - lia.
Defined.
